(** * neuralmonkey: gradient mixer, decoding loop and transformer stack

    A shallow embedding of [mixer.py], of the decoding loop and layer stack of
    [neuralmonkey/decoders/transformer.py] and of the trainer selection of
    [train_translation.py], with the properties the specification states
    about them.

    TensorFlow is an external library.  Its tensors are kept abstract (a type
    of scalars and a type of dense values with the few operations the code
    applies to them), with the integers and IEEE 754 binary32 numbers as
    instances; its graph nodes are the constructors of small inductive
    types, and Python exceptions are the constructors of [Py.exn]. *)

From Stdlib Require Import ZArith List String DecimalString Bool Lia.
From Stdlib Require SpecFloat.
From stdpp Require Import base option list gmap strings.
Import ListNotations.

Local Open Scope string_scope.
Local Open Scope list_scope.

(* ===================================================================== *)
(** * Python results and exceptions *)
(* ===================================================================== *)

Module Py.

(** The exceptions the modelled code can raise. *)
Inductive exn : Type :=
  | NameError (name : string)
  | UnboundLocalError (name : string)
  | AttributeError (attr : string)
  | TypeError (msg : string)
  | ValueError (msg : string)
  | IndexError
  | AssertionError
  | InvalidArgumentError (msg : string)
  | Exception (msg : string).

Inductive result (A : Type) : Type :=
  | Ok (a : A)
  | Raise (e : exn).

Arguments Ok {A} a.
Arguments Raise {A} e.

Definition bind {A B : Type} (m : result A) (k : A -> result B) : result B :=
  match m with
  | Ok a => k a
  | Raise e => Raise e
  end.

Definition is_ok {A : Type} (m : result A) : bool :=
  match m with Ok _ => true | Raise _ => false end.

(** [for x in xs: st = f st x], stopping at the first exception. *)
Fixpoint for_each {A S : Type} (f : S -> A -> result S) (xs : list A) (st : S)
  : result S :=
  match xs with
  | [] => Ok st
  | x :: xs' => bind (f st x) (for_each f xs')
  end.

(** [enumerate(xs)] counting from [start]. *)
Fixpoint enumerate_from {A : Type} (start : nat) (xs : list A) : list (nat * A) :=
  match xs with
  | [] => []
  | x :: xs' => (start, x) :: enumerate_from (S start) xs'
  end.

Definition enumerate {A : Type} (xs : list A) : list (nat * A) :=
  enumerate_from 0 xs.

(** [zip(xs, ys)]: stops at the shorter list. *)
Fixpoint zip {A B : Type} (xs : list A) (ys : list B) : list (A * B) :=
  match xs, ys with
  | x :: xs', y :: ys' => (x, y) :: zip xs' ys'
  | _, _ => []
  end.

Fixpoint zip3 {A B C : Type} (xs : list A) (ys : list B) (zs : list C)
  : list (A * B * C) :=
  match xs, ys, zs with
  | x :: xs', y :: ys', z :: zs' => (x, y, z) :: zip3 xs' ys' zs'
  | _, _, _ => []
  end.

End Py.

#[global] Instance result_ret : MRet Py.result := @Py.Ok.
#[global] Instance result_bind : MBind Py.result :=
  fun A B k m => Py.bind m k.

(* ===================================================================== *)
(** * Tensor arithmetic *)
(* ===================================================================== *)

(** The values TensorFlow computes with: scalars fed to placeholders and
    dense tensor values, with the operations [mixer.py] applies to them. *)
Class TensorOps : Type := {
  scalar : Type;
  tensor : Type;
  s_zero : scalar;
  s_one : scalar;
  s_sub : scalar -> scalar -> scalar;
  s_add : scalar -> scalar -> scalar;
  s_mul : scalar -> scalar -> scalar;
  s_max : scalar -> scalar -> scalar;
  s_eqb : scalar -> scalar -> bool;
  t_scalar_mul : scalar -> tensor -> tensor;
  t_add : tensor -> tensor -> tensor
}.

(** Integers as a concrete instance (one-element tensors). *)
Definition ZOps : TensorOps := {|
  scalar := Z;
  tensor := Z;
  s_zero := 0%Z;
  s_one := 1%Z;
  s_sub := Z.sub;
  s_add := Z.add;
  s_mul := Z.mul;
  s_max := Z.max;
  s_eqb := Z.eqb;
  t_scalar_mul := Z.mul;
  t_add := Z.add
|}.

(* ===================================================================== *)
(** * float32 *)
(* ===================================================================== *)

(** The numbers of [tf.float32]: IEEE 754 binary32, with the arithmetic of the
    Standard Library's [SpecFloat] (round to nearest, ties to even; one NaN).
    A tensor is kept by its elements in row-major order. *)
Module F32.
Import SpecFloat.

Definition prec : Z := 24.
Definition emax : Z := 128.

Definition mul : spec_float -> spec_float -> spec_float := SFmul prec emax.
Definition add : spec_float -> spec_float -> spec_float := SFadd prec emax.
Definition sub : spec_float -> spec_float -> spec_float := SFsub prec emax.
Definition one : spec_float := SFone prec emax.
Definition zero : spec_float := S754_zero false.
Definition infinity : spec_float := S754_infinity false.
Definition nan : spec_float := S754_nan.

(** The float of an integer. *)
Definition of_Z (z : Z) : spec_float := binary_normalize prec emax z 0 false.

Definition max (a b : spec_float) : spec_float := if SFltb a b then b else a.

Definition Ops : TensorOps := {|
  scalar := spec_float;
  tensor := list spec_float;
  s_zero := zero;
  s_one := one;
  s_sub := sub;
  s_add := add;
  s_mul := mul;
  s_max := max;
  s_eqb := SFeqb;
  t_scalar_mul := fun s x => map (mul s) x;
  t_add := zip_with add
|}.

(** A number of the format: a finite one has a canonical mantissa and an
    exponent within the range. *)
Definition valid (x : spec_float) : Prop := valid_binary prec emax x = true.

Definition is_finite (x : spec_float) : bool :=
  match x with
  | S754_zero _ | S754_finite _ _ _ => true
  | S754_infinity _ | S754_nan => false
  end.

Definition is_zero (x : spec_float) : bool :=
  match x with
  | S754_zero _ => true
  | _ => false
  end.

(** Equal, or both zero: [+0] and [-0] are told apart by their sign only. *)
Definition same (a b : spec_float) : Prop :=
  a = b \/ (is_zero a = true /\ is_zero b = true).

(** The same on tensors and on entries of a list of gradients. *)
Definition same_tensor : list spec_float -> list spec_float -> Prop :=
  Forall2 same.

Definition same_gradient
  : option (list spec_float) -> option (list spec_float) -> Prop :=
  option_Forall2 same_tensor.

Lemma same_refl a : same a a.
Proof. left. reflexivity. Qed.

Lemma same_sym a b : same a b -> same b a.
Proof. intros [->|[Ha Hb]]; [left; reflexivity|right; auto]. Qed.

Lemma same_trans a b c : same a b -> same b c -> same a c.
Proof.
  intros [->|[Ha Hb]] [->|[Hb' Hc]]; try (left; reflexivity);
    right; split; assumption.
Qed.

Lemma sub_one_one : sub one one = zero.
Proof. reflexivity. Qed.

Lemma sub_one_zero : sub one zero = one.
Proof. reflexivity. Qed.

(** Multiplying by 1.0 is exact. *)
Lemma mul_one x : valid x -> mul one x = x.
Proof.
  destruct x as [s|s| |s m e]; try reflexivity.
  unfold valid, valid_binary, bounded, canonical_mantissa. intros H.
  apply andb_prop in H as [Hc Hb]. apply Z.eqb_eq in Hc.
  change one with (S754_finite false 8388608 (-23)).
  unfold mul, SFmul. cbn [xorb].
  let t := eval vm_compute in (8388608 * m)%positive in
  change (8388608 * m)%positive with t.
  unfold binary_round_aux, shr_fexp.
  set (d := digits2_pos m) in *.
  match goal with |- context [Zdigits2 (Zpos ?p)] =>
    assert (Hd : Zdigits2 (Zpos p) = (Zpos d + 23)%Z)
      by (cbn [Zdigits2 digits2_pos]; fold d; rewrite !Pos2Z.inj_succ; lia) end.
  rewrite Hd.
  replace (Z.pos d + 23 + (-23 + e))%Z with (Z.pos d + e)%Z by lia.
  rewrite Hc. replace (e - (-23 + e))%Z with 23%Z by lia.
  cbn [shr shr_record_of_loc iter_pos shr_1 orb].
  cbn [shr_m loc_of_shr_record round_nearest_even Zdigits2]. fold d.
  replace (-23 + e + 23)%Z with e by lia.
  rewrite Hc, Z.sub_diag. cbn [shr shr_m]. rewrite Hb. reflexivity.
Qed.

(** 0.0 times a finite number is a zero; times an infinity or NaN it is
    NaN. *)
Lemma mul_zero_finite x : is_finite x = true -> is_zero (mul zero x) = true.
Proof. destruct x; try discriminate; reflexivity. Qed.

Lemma mul_zero_not_finite x : is_finite x = false -> mul zero x = nan.
Proof. destruct x; try discriminate; reflexivity. Qed.

(** Adding a zero changes at most the sign of a zero. *)
Lemma add_zero_r x z : is_zero z = true -> same (add x z) x.
Proof.
  destruct z as [sz| | |]; try discriminate. intros _.
  destruct x as [[|]|[|]| |]; destruct sz; cbn;
    first [left; reflexivity | right; split; reflexivity].
Qed.

Lemma add_zero_l x z : is_zero z = true -> same (add z x) x.
Proof.
  destruct z as [sz| | |]; try discriminate. intros _.
  destruct x as [[|]|[|]| |]; destruct sz; cbn;
    first [left; reflexivity | right; split; reflexivity].
Qed.

Lemma add_zero_zero a b :
  is_zero a = true -> is_zero b = true -> is_zero (add a b) = true.
Proof.
  destruct a as [[|]| | |]; try discriminate;
    destruct b as [[|]| | |]; try discriminate; reflexivity.
Qed.

(** Sums of numbers that are the same are the same. *)
Lemma add_same a a' b b' : same a a' -> same b b' -> same (add a b) (add a' b').
Proof.
  intros [->|[Ha Ha']] [->|[Hb Hb']].
  - apply same_refl.
  - apply (same_trans _ a'); [apply add_zero_r; exact Hb|].
    apply same_sym, add_zero_r. exact Hb'.
  - apply (same_trans _ b'); [apply add_zero_l; exact Ha|].
    apply same_sym, add_zero_l. exact Ha'.
  - right. split; apply add_zero_zero; assumption.
Qed.

Lemma add_same_tensor a a' b b' :
  same_tensor a a' -> same_tensor b b' ->
  same_tensor (zip_with add a b) (zip_with add a' b').
Proof.
  intros Ha. revert b b'. induction Ha as [|x x' a a' Hx Ha IH];
    intros b b' Hb; [constructor|].
  destruct Hb as [|y y' b b' Hy Hb]; [constructor|].
  cbn. constructor; [apply add_same; assumption|apply IH; exact Hb].
Qed.

(** [1.0 * x + (1.0 - 1.0) * r] is [x], when [r] is finite and has the shape
    of [x]. *)
Lemma weight_one_keeps x r :
  length r = length x -> Forall valid x ->
  Forall (fun y => is_finite y = true) r ->
  same_tensor (zip_with add (map (mul one) x) (map (mul (sub one one)) r)) x.
Proof.
  rewrite sub_one_one. revert r.
  induction x as [|a x IH]; intros [|b r] Hlen Hx Hr; try discriminate;
    [constructor|].
  apply Forall_cons in Hx as [Ha Hx]. apply Forall_cons in Hr as [Hb Hr].
  cbn [map zip_with]. constructor.
  - rewrite (mul_one a Ha). apply add_zero_r, mul_zero_finite, Hb.
  - apply IH; [cbn in Hlen; lia|assumption|assumption].
Qed.

(** [0.0 * x + (1.0 - 0.0) * r] is [r], when [x] is finite and has the shape
    of [r]. *)
Lemma weight_zero_keeps x r :
  length x = length r -> Forall valid r ->
  Forall (fun y => is_finite y = true) x ->
  same_tensor (zip_with add (map (mul zero) x) (map (mul (sub one zero)) r)) r.
Proof.
  rewrite sub_one_zero. revert x.
  induction r as [|b r IH]; intros [|a x] Hlen Hr Hx; try discriminate;
    [constructor|].
  apply Forall_cons in Hx as [Ha Hx]. apply Forall_cons in Hr as [Hb Hr].
  cbn [map zip_with]. constructor.
  - rewrite (mul_one b Hb). apply add_zero_l, mul_zero_finite, Ha.
  - apply IH; [cbn in Hlen; lia|assumption|assumption].
Qed.

End F32.

(* ===================================================================== *)
(** * The TensorFlow graph, as far as gradients see it *)
(* ===================================================================== *)

Module TF.

#[local] Set Warnings "-register-all".

(** A node of the dataflow graph.  Variables are known by their names,
    placeholders by a number. *)
Inductive node : Type :=
  | Var (name : string)
  | Placeholder (p : nat)
  | Const (label : string)
  | Op (kind : string) (inputs : list node)
  | StopGradient (x : node).

(** [depends v y]: back-propagation from [y] reaches the variable [v].
    [tf.stop_gradient] lets nothing through. *)
Fixpoint depends (v : string) (y : node) : bool :=
  match y with
  | Var name => String.eqb name v
  | Placeholder _ | Const _ => false
  | Op _ inputs => existsb (depends v) inputs
  | StopGradient _ => false
  end.

(** The node [tf.gradients] adds for the derivative of [y] by [x]. *)
Inductive gnode : Type :=
  | Grad (y : node) (x : string).

(** [tf.gradients(y, xs)]: one entry per element of [xs], [None] where
    back-propagation from [y] does not reach it. *)
Definition gradients (y : node) (xs : list string) : list (option gnode) :=
  map (fun x => if depends x y then Some (Grad y x) else None) xs.

(** [Optimizer.compute_gradients(loss, var_list)]; without [var_list] the
    variables are the graph's trainable variables. *)
Definition compute_gradients (loss : node) (var_list : option (list string))
    (trainable_variables : list string) : list (option gnode * string) :=
  let vars := match var_list with
              | Some vs => vs
              | None => trainable_variables
              end in
  Py.zip (gradients loss vars) vars.

(** The variables an [apply_gradients] step assigns: those that come with a
    gradient. *)
Definition updated_variables {G : Type} (grads_and_vars : list (option G * string))
  : list string :=
  omap (fun gv => match gv.1 with Some _ => Some gv.2 | None => None end)
       grads_and_vars.

(** [Optimizer.minimize(loss)], by the variables the returned step assigns. *)
Definition minimize (loss : node) (var_list : option (list string))
    (trainable_variables : list string) : list string :=
  updated_variables (compute_gradients loss var_list trainable_variables).

(** [Optimizer.apply_gradients(grads_and_vars)]: the step, by the pairs it was
    built from.  An empty list is refused, and so is a list in which no
    variable comes with a gradient. *)
Definition apply_gradients {G : Type} (grads_and_vars : list (option G * string))
  : Py.result (list (option G * string)) :=
  match grads_and_vars with
  | [] => Py.Raise (Py.ValueError "No variables provided.")
  | _ :: _ =>
      match updated_variables grads_and_vars with
      | [] => Py.Raise (Py.ValueError "No gradients provided for any variable")
      | _ :: _ => Py.Ok grads_and_vars
      end
  end.

End TF.

(* ===================================================================== *)
(** * mixer.py: the gradient mixer *)
(* ===================================================================== *)

Module Mixer.

Section Graph.
Context {O : TensorOps}.

(** A Python value found in a list returned by [tf.gradients]: [None], a
    [tf.Tensor], a [tf.IndexedSlices] (kept by its dense value), or an object
    of some other type, kept by the name of its type. *)
Inductive grad : Type :=
  | GNone
  | GTensor (value : tensor)
  | GIndexedSlices (value : tensor)
  | GOther (type_name : string).

(** Scalar nodes of the graph: a placeholder, or [1 - s]. *)
Inductive snode : Type :=
  | SPlaceholder (p : nat)
  | SOneMinus (s : snode).

(** Tensor nodes of the graph: a gradient node (by its value on the batch
    being fed), [tf.scalar_mul] and [tf.add]. *)
Inductive tnode : Type :=
  | TGrad (value : tensor)
  | TScalarMul (s : snode) (x : tnode)
  | TAdd (x y : tnode).

(** A value of a feed dictionary. *)
Inductive feed : Type :=
  | FScalar (r : scalar)
  | FList (rs : list scalar).

(** [tf.scalar_mul(s, x)]: [x] must be a tensor or indexed slices; the call
    reads [x.dtype] first, which [None] and foreign objects do not have. *)
Definition tf_scalar_mul (s : snode) (x : grad) : Py.result tnode :=
  match x with
  | GTensor v | GIndexedSlices v => Py.Ok (TScalarMul s (TGrad v))
  | GNone | GOther _ => Py.Raise (Py.AttributeError "dtype")
  end.

(** The body of the inner loop of [Mixer.__init__] (lines 58-75), for step [i],
    variable index [j], on the list [mixed_gradients] built so far. *)
Definition merge_variable (i : nat) (mix_w : snode)
    (mixed_gradients : list (option tnode)) (c : nat * (grad * grad))
  : Py.result (list (option tnode)) :=
  let '(j, (rg, xent_g)) := c in
  match xent_g, i with
  | GNone, 0 => Py.Ok (mixed_gradients ++ [None])
  | _, _ =>
    match xent_g with
    | GTensor _ | GIndexedSlices _ =>
        a ← tf_scalar_mul mix_w xent_g;
        b ← tf_scalar_mul (SOneMinus mix_w) rg;
        let g := TAdd a b in
        match i with
        | 0 => Py.Ok (mixed_gradients ++ [Some g])
        | S _ =>
            match mixed_gradients !! j with
            | None => Py.Raise Py.IndexError
            | Some None => Py.Ok (<[j := Some g]> mixed_gradients)
            | Some (Some m) => Py.Ok (<[j := Some (TAdd m g)]> mixed_gradients)
            end
        end
    | GNone => Py.Ok mixed_gradients
    | GOther _ => Py.Raise (Py.NameError "xg")
    end
  end.

(** One pass of the outer loop (line 56-57): a decoding step with its
    reinforce gradients, cross-entropy gradients and weight placeholder. *)
Definition merge_step (mixed_gradients : list (option tnode))
    (c : nat * (list grad * list grad * nat))
  : Py.result (list (option tnode)) :=
  let '(i, (rgs, xent_gs, w)) := c in
  Py.for_each (merge_variable i (SPlaceholder w))
              (Py.enumerate (Py.zip rgs xent_gs)) mixed_gradients.

(** Lines 54-75: [mixed_gradients], one entry per trainable variable. *)
Definition mixed_gradients (reinforce_gradients xent_gradients : list (list grad))
    (mixer_weights : list nat) : Py.result (list (option tnode)) :=
  Py.for_each merge_step
    (Py.enumerate (Py.zip3 reinforce_gradients xent_gradients mixer_weights)) [].

(** ** Running the graph under a feed dictionary *)

Fixpoint eval_s (fd : gmap nat feed) (s : snode) : Py.result scalar :=
  match s with
  | SPlaceholder p =>
      match fd !! p with
      | Some (FScalar r) => Py.Ok r
      | _ => Py.Raise (Py.InvalidArgumentError "You must feed a value for placeholder tensor")
      end
  | SOneMinus s' => r ← eval_s fd s'; Py.Ok (s_sub s_one r)
  end.

Fixpoint eval_t (fd : gmap nat feed) (x : tnode) : Py.result tensor :=
  match x with
  | TGrad v => Py.Ok v
  | TScalarMul s y => r ← eval_s fd s; v ← eval_t fd y; Py.Ok (t_scalar_mul r v)
  | TAdd y z => a ← eval_t fd y; b ← eval_t fd z; Py.Ok (t_add a b)
  end.

(** The gradient handed to the optimizer for each variable; [None] entries
    are the variables [apply_gradients] leaves alone. *)
Fixpoint eval_gradients (fd : gmap nat feed) (gs : list (option tnode))
  : Py.result (list (option tensor)) :=
  match gs with
  | [] => Py.Ok []
  | None :: gs' => vs ← eval_gradients fd gs'; Py.Ok (None :: vs)
  | Some g :: gs' =>
      v ← eval_t fd g; vs ← eval_gradients fd gs'; Py.Ok (Some v :: vs)
  end.

(** ** Mixer.run (lines 81-101) *)

(** The feed dictionary [run] hands to the session: the BLEU scores under the
    [bleu] placeholder, then [fd[w] = 1] for every weight placeholder. *)
Definition run_feed (bleu : nat) (mixer_weights : list nat)
    (bleus : list scalar) (fd : gmap nat feed) : gmap nat feed :=
  foldl (fun d w => <[w := FScalar s_one]> d)
        (<[bleu := FList bleus]> fd) mixer_weights.

(** [run]: the gradients the step [mixer_optimizer] applies, given the BLEU
    scores lines 86-89 computed from the decoded batch. *)
Definition run (bleu : nat) (mixer_weights : list nat)
    (mixed : list (option tnode)) (bleus : list scalar) (fd : gmap nat feed)
  : Py.result (list (option tensor)) :=
  eval_gradients (run_feed bleu mixer_weights bleus fd) mixed.

(** ** What the two streams amount to, in values *)

Definition grad_value (g : grad) : option tensor :=
  match g with
  | GTensor v | GIndexedSlices v => Some v
  | GNone | GOther _ => None
  end.

(** Elementwise sum of a running total with a step's contribution, a step
    without contribution being skipped. *)
Definition sum_present (acc g : option tensor) : option tensor :=
  match acc, g with
  | None, _ => g
  | Some a, None => Some a
  | Some a, Some v => Some (t_add a v)
  end.

(** The gradient of one stream alone: per variable, the sum over the decoding
    steps of that stream's gradients. *)
Definition stream_totals (stream : list (list grad)) : list (option tensor) :=
  match stream with
  | [] => []
  | first :: rest =>
      foldl (fun acc step => zip_with sum_present acc (grad_value <$> step))
            (grad_value <$> first) rest
  end.

(** [w * xent + (1 - w) * rg] for one variable at one step. *)
Definition combine (w : scalar) (rg xent_g : grad) : option tensor :=
  match grad_value xent_g, grad_value rg with
  | Some xv, Some rv =>
      Some (t_add (t_scalar_mul w xv) (t_scalar_mul (s_sub s_one w) rv))
  | _, _ => None
  end.

Definition step_values (wv : nat -> scalar)
    (s : list grad * list grad * nat) : list (option tensor) :=
  let '(rgs, xent_gs, w) := s in zip_with (combine (wv w)) rgs xent_gs.

(** The mixed gradient in values, for weights [wv w] fed to placeholder [w]. *)
Definition mixed_values (wv : nat -> scalar)
    (steps : list (list grad * list grad * nat)) : list (option tensor) :=
  match steps with
  | [] => []
  | s :: rest =>
      foldl (fun acc s' => zip_with sum_present acc (step_values wv s'))
            (step_values wv s) rest
  end.

(** What [tf.gradients] returns for the two losses of one step: both are
    functions of the step's logits, so a variable the logits do not depend on
    gets [None] in both lists, and any other a tensor or indexed slices in
    both. *)
Definition aligned (rg xent_g : grad) : bool :=
  match rg, xent_g with
  | GNone, GNone => true
  | (GTensor _ | GIndexedSlices _), (GTensor _ | GIndexedSlices _) => true
  | _, _ => false
  end.

Fixpoint aligned_rows (nv : nat) (rgs xent_gs : list grad) : bool :=
  match nv, rgs, xent_gs with
  | 0, [], [] => true
  | S n, r :: rgs', x :: xs' => aligned r x && aligned_rows n rgs' xs'
  | _, _, _ => false
  end.

(** Two gradient streams over the same [nv] variables and the same steps. *)
Fixpoint gradient_streams (nv : nat)
    (reinforce_gradients xent_gradients : list (list grad)) : bool :=
  match reinforce_gradients, xent_gradients with
  | [], [] => true
  | r :: rs, x :: xs => aligned_rows nv r x && gradient_streams nv rs xs
  | _, _ => false
  end.

(** What the merge asks of a step: aligned rows over [nv] variables, and a
    weight placeholder that is fed the scalar [wv w]. *)
Definition step_ok (fd : gmap nat feed) (wv : nat -> scalar) (nv : nat)
    (s : list grad * list grad * nat) : Prop :=
  aligned_rows nv s.1.1 s.1.2 = true /\ fd !! s.2 = Some (FScalar (wv s.2)).

(** ** Lines 29-36 on values: the policy-gradient term of one step *)






Definition to_float (b : bool) : scalar := if b then s_one else s_zero.







(** ** The graph [Mixer.__init__] builds (lines 11-52) *)

(** What the constructor reads of the decoder: per decoding step a hidden
    state, the logits, and the placeholders of the target and of its weight. *)
Record decoder : Type := {
  hidden_states : list TF.node;
  decoded_logits : list TF.node;
  targets : list nat;
  weights_ins : list nat
}.

(** The two variables created in the scope [mixer/exprected_reward_regressor]. *)
Definition linear_reg_W : string := "mixer/exprected_reward_regressor/Variable".
Definition linear_reg_b : string := "mixer/exprected_reward_regressor/Variable_1".

(** Line 20: [tf.squeeze(tf.matmul(h, linear_reg_W)) + linear_reg_b]. *)
Definition expected_reward (h : TF.node) : TF.node :=
  TF.Op "add" [TF.Op "squeeze" [TF.Op "matmul" [h; TF.Var linear_reg_W]];
               TF.Var linear_reg_b].

(** Line 22. *)
Definition regression_loss (bleu : nat) (d : decoder) : TF.node :=
  TF.Op "mul"
    [TF.Op "sum"
       (map (fun h => TF.Op "pow" [TF.Op "sub" [expected_reward h; TF.Placeholder bleu];
                                   TF.Const "2"])
            (hidden_states d));
     TF.Const "0.5"].

(** Line 23: [GradientDescentOptimizer(1e-3).minimize(regression_loss)], with no
    [var_list]. *)
Definition regression_optimizer (bleu : nat) (d : decoder)
    (trainable_variables : list string) : list string :=
  TF.minimize (regression_loss bleu d) None trainable_variables.

(** Lines 29-36, as nodes; an operation is named with its axis and
    [keep_dims] arguments. *)
Definition max_logits (l : TF.node) : TF.node :=
  TF.Op "expand_dims(1)" [TF.Op "reduce_max(1)" [l]].

Definition indicator (l : TF.node) : TF.node :=
  TF.Op "to_float" [TF.Op "equal" [max_logits l; l]].

Definition derivatives (bleu : nat) (r l : TF.node) : TF.node :=
  TF.Op "reduce_sum(0, keep_dims=True)"
    [TF.Op "mul" [TF.Op "expand_dims(1)" [TF.Op "sub" [TF.Placeholder bleu; r]];
                  TF.Op "sub" [TF.Op "softmax" [l]; indicator l]]].

(** Line 39: the trainable variables whose name does not start with [mixer]. *)
Definition trainable_vars (trainable_variables : list string) : list string :=
  List.filter (fun name => negb (String.prefix "mixer" name)) trainable_variables.

(** A variable created inside [tf.variable_scope('mixer')]. *)
Definition in_mixer_scope (name : string) : bool := String.prefix "mixer/" name.

(** Line 41: what the reinforce gradient of a step is taken of. *)
Definition reinforce_objective (l d_stopped : TF.node) : TF.node :=
  TF.Op "mul" [l; d_stopped].

(** Lines 35-41. *)
Definition reinforce_gradients (bleu : nat) (d : decoder)
    (trainable_variables : list string) : list (list (option TF.gnode)) :=
  let expected_rewards := map expected_reward (hidden_states d) in
  let derivatives :=
    map (fun rl => derivatives bleu rl.1 rl.2)
        (Py.zip expected_rewards (decoded_logits d)) in
  let derivatives_stopped := map TF.StopGradient derivatives in
  map (fun ld => TF.gradients (reinforce_objective ld.1 ld.2)
                              (trainable_vars trainable_variables))
      (Py.zip (decoded_logits d) derivatives_stopped).

(** Line 47. *)
Definition cross_entropy (l : TF.node) (t w : nat) : TF.node :=
  TF.Op "reduce_sum"
    [TF.Op "mul" [TF.Op "sparse_softmax_cross_entropy_with_logits"
                    [l; TF.Placeholder t];
                  TF.Placeholder w]].

(** Lines 47-50. *)
Definition xent_gradients (d : decoder) (trainable_variables : list string)
  : list (list (option TF.gnode)) :=
  let cross_entropies :=
    map (fun ltw => cross_entropy ltw.1.1 ltw.1.2 ltw.2)
        (Py.zip3 (decoded_logits d) (targets d) (weights_ins d)) in
  map (fun e => TF.gradients e (trainable_vars trainable_variables)) cross_entropies.

(** Line 52: one fresh placeholder per hidden state, numbered from [first]. *)
Definition mixer_weights (first : nat) (d : decoder) : list nat :=
  seq first (length (hidden_states d)).

(** The Python value a gradient node is on the batch being fed: indexed slices
    where [sparse] says so (gradients of embedding lookups), else a tensor. *)
Definition py_grad (sparse : TF.gnode -> bool) (value_of : TF.gnode -> tensor)
    (g : option TF.gnode) : grad :=
  match g with
  | None => GNone
  | Some n => if sparse n then GIndexedSlices (value_of n) else GTensor (value_of n)
  end.

Definition py_grads (sparse : TF.gnode -> bool) (value_of : TF.gnode -> tensor)
    (stream : list (list (option TF.gnode))) : list (list grad) :=
  map (map (py_grad sparse value_of)) stream.

(** ** The values of the nodes of lines 29-41 on a batch *)

(** What a node of lines 29-41 is on a batch: a vector (one number per
    sentence), a matrix (sentences by vocabulary) or a matrix of truth
    values. *)
Inductive value : Type :=
  | VVec (v : list scalar)
  | VMat (m : list (list scalar))
  | VBoolMat (m : list (list bool)).





(** Line 23 on the loss of line 22, which is the Python float [0.0] when the
    decoder has no hidden state ([sum([]) * 0.5]) and a tensor otherwise:
    [minimize] reads the [dtype] of its loss, and refuses a loss no variable
    has a gradient for. *)
Definition minimize_regression_loss (bleu : nat) (d : decoder)
    (trainable_variables : list string) : Py.result (list string) :=
  match hidden_states d with
  | [] => Py.Raise (Py.AttributeError "dtype")
  | _ :: _ =>
      match regression_optimizer bleu d trainable_variables with
      | [] => Py.Raise (Py.ValueError "No gradients provided for any variable")
      | updated => Py.Ok updated
      end
  end.

(** The attributes [__init__] leaves on the object; [regression_optimizer] is a
    local of the constructor and is not among them. *)
Record mixer : Type := {
  self_bleu : nat;
  self_mixer_weights : list nat;
  self_mixer_optimizer : list (option tnode * string)
}.

(** [Mixer.__init__(self, decoder)].  [bleu] and [first] number the
    placeholders it creates. *)
Definition __init__ (sparse : TF.gnode -> bool) (value_of : TF.gnode -> tensor)
    (trainable_variables : list string) (bleu first : nat) (d : decoder)
  : Py.result mixer :=
  _ ← minimize_regression_loss bleu d trainable_variables;
  let rgs := py_grads sparse value_of (reinforce_gradients bleu d trainable_variables) in
  let xgs := py_grads sparse value_of (xent_gradients d trainable_variables) in
  let ws := mixer_weights first d in
  mixed ← mixed_gradients rgs xgs ws;
  mixer_optimizer ←
    TF.apply_gradients (Py.zip mixed (trainable_vars trainable_variables));
  Py.Ok {| self_bleu := bleu;
           self_mixer_weights := ws;
           self_mixer_optimizer := mixer_optimizer |}.

(** The steps of the graph a session can be asked to run. *)
Inductive fetch : Type :=
  | MixerOptimizer
  | RegressionOptimizer
  | LossWithDecodedIns
  | LossWithGtIns
  | SummaryTrain
  | DecodedSeq (t : nat).

(** Lines 96-101: what [run] asks the session for after feeding. *)
Definition run_fetches (verbose : bool) (d : decoder) : list fetch :=
  if verbose
  then [MixerOptimizer; LossWithDecodedIns; LossWithGtIns; SummaryTrain]
         ++ map DecodedSeq (seq 0 (length (decoded_logits d)))
  else [MixerOptimizer].

(** One decoding step has a hidden state, logits, a target and a weight. *)
Definition steps_agree (d : decoder) : Prop :=
  length (decoded_logits d) = length (hidden_states d)
  /\ length (targets d) = length (hidden_states d)
  /\ length (weights_ins d) = length (hidden_states d).

End Graph.

(** ** Concrete batches over the integers, for the examples below *)

(** The merge alone, on two streams given by hand. *)
Definition toy_rgs : list (list (@grad ZOps)) :=
  [[@GTensor ZOps 3%Z; GNone]; [@GIndexedSlices ZOps 4%Z; GNone]].

Definition toy_xgs : list (list (@grad ZOps)) :=
  [[@GTensor ZOps 5%Z; GNone]; [@GTensor ZOps 7%Z; GNone]].

(** A decoder of two steps: the hidden state depends on the variable
    [decoder/cell], the logits on the hidden state and on [decoder/out]. *)
Definition ex_hidden (t : nat) : TF.node :=
  TF.Op "lstm" [TF.Var "decoder/cell"; TF.Placeholder (40 + t)].

Definition ex_logits (t : nat) : TF.node :=
  TF.Op "matmul" [ex_hidden t; TF.Var "decoder/out"].

Definition ex_decoder : decoder := {|
  hidden_states := [ex_hidden 0; ex_hidden 1];
  decoded_logits := [ex_logits 0; ex_logits 1];
  targets := [20; 21];
  weights_ins := [30; 31]
|}.

(** [tf.trainable_variables()] once the regressor's variables exist. *)
Definition ex_variables : list string :=
  ["decoder/cell"; "decoder/out"; "encoder/unused"; linear_reg_W; linear_reg_b].

(** Gradients by [decoder/out] come as indexed slices. *)
Definition ex_sparse (g : TF.gnode) : bool :=
  match g with TF.Grad _ x => String.eqb x "decoder/out" end.

(** On the batch, every reinforce gradient is 3 and every cross-entropy
    gradient is 5. *)
Definition ex_value_of (g : TF.gnode) : Z :=
  match g with
  | TF.Grad (TF.Op kind _) _ => if String.eqb kind "mul" then 3%Z else 5%Z
  | TF.Grad _ _ => 0%Z
  end.

Definition ex_rgs : list (list (@grad ZOps)) :=
  @py_grads ZOps ex_sparse ex_value_of (reinforce_gradients 9 ex_decoder ex_variables).

Definition ex_xgs : list (list (@grad ZOps)) :=
  @py_grads ZOps ex_sparse ex_value_of (xent_gradients ex_decoder ex_variables).

(** The caller feeds every weight placeholder the scalar [c]. *)
Definition ex_feed (c : Z) : gmap nat (@feed ZOps) :=
  {[ 10 := @FScalar ZOps c; 11 := @FScalar ZOps c ]}.

Definition ex_mixed : list (option (@tnode ZOps)) :=
  Eval vm_compute in
    match mixed_gradients ex_rgs ex_xgs (mixer_weights 10 ex_decoder) with
    | Py.Ok m => m
    | Py.Raise _ => []
    end.

(** ** Properties of the merge *)

Section Properties.
Context {O : TensorOps}.
Implicit Types (fd : gmap nat feed) (wv : nat -> scalar).

Ltac unbind := unfold mbind, result_bind, Py.bind in *.

Lemma eval_mix fd w c xv rv :
  fd !! w = Some (FScalar c) ->
  eval_t fd (TAdd (TScalarMul (SPlaceholder w) (TGrad xv))
                  (TScalarMul (SOneMinus (SPlaceholder w)) (TGrad rv)))
  = Py.Ok (t_add (t_scalar_mul c xv) (t_scalar_mul (s_sub s_one c) rv)).
Proof.
  intros Hw. cbn. unbind. rewrite Hw. reflexivity.
Qed.

Lemma aligned_cases rg xent_g :
  aligned rg xent_g = true ->
  (rg = GNone /\ xent_g = GNone) \/
  (exists rv xv, grad_value rg = Some rv /\ grad_value xent_g = Some xv /\
     (xent_g = GTensor xv \/ xent_g = GIndexedSlices xv) /\
     (rg = GTensor rv \/ rg = GIndexedSlices rv)).
Proof.
  destruct rg, xent_g; cbn; try discriminate; intros _;
    first [ left; split; reflexivity
          | right; do 2 eexists; repeat split; eauto ].
Qed.

(** Step 0 appends one entry per variable. *)
Lemma first_step_rows fd wv w :
  fd !! w = Some (FScalar (wv w)) ->
  forall nv rgs xs k done,
    aligned_rows nv rgs xs = true ->
    exists new,
      Py.for_each (merge_variable 0 (SPlaceholder w))
                  (Py.enumerate_from k (Py.zip rgs xs)) done = Py.Ok (done ++ new)
      /\ eval_gradients fd new = Py.Ok (zip_with (combine (wv w)) rgs xs)
      /\ length new = nv.
Proof.
  intros Hw nv. induction nv as [|nv IH]; intros rgs xs k done Hrows.
  - destruct rgs, xs; try discriminate. exists []. cbn.
    rewrite app_nil_r. auto.
  - destruct rgs as [|r rgs], xs as [|x xs]; try discriminate.
    cbn in Hrows. apply andb_prop in Hrows as [Hrx Hrest].
    destruct (aligned_cases _ _ Hrx) as [[-> ->] | (rv & xv & Hr & Hx & Hxt & Hrt)].
    + destruct (IH rgs xs (S k) (done ++ [None]) Hrest) as (new & Hrun & Hev & Hlen).
      exists (None :: new). cbn. unbind. cbn. rewrite Hrun.
      rewrite <- app_assoc. cbn. rewrite Hev. cbn. auto.
    + set (g := TAdd (TScalarMul (SPlaceholder w) (TGrad xv))
                     (TScalarMul (SOneMinus (SPlaceholder w)) (TGrad rv))).
      destruct (IH rgs xs (S k) (done ++ [Some g]) Hrest) as (new & Hrun & Hev & Hlen).
      exists (Some g :: new).
      assert (Hstep : merge_variable 0 (SPlaceholder w) done (k, (r, x))
                      = Py.Ok (done ++ [Some g])).
      { destruct Hxt as [-> | ->], Hrt as [-> | ->]; reflexivity. }
      split; [|split].
      * change (Py.for_each ?f (Py.enumerate_from k (Py.zip (r :: rgs) (x :: xs))) done)
          with (Py.bind (f done (k, (r, x)))
                        (Py.for_each f (Py.enumerate_from (S k) (Py.zip rgs xs)))).
        rewrite Hstep. cbn. rewrite Hrun, <- app_assoc. reflexivity.
      * change (eval_gradients fd (Some g :: new))
          with (Py.bind (eval_t fd g)
                  (fun v => Py.bind (eval_gradients fd new)
                                    (fun vs => Py.Ok (Some v :: vs)))).
        unfold g. rewrite (eval_mix _ _ _ _ _ Hw), Hev. cbn.
        unfold combine. rewrite Hr, Hx. reflexivity.
      * cbn. auto.
Qed.

(** A later step updates the entries in place. *)
Lemma later_step_rows fd wv w i :
  fd !! w = Some (FScalar (wv w)) ->
  forall nv rgs xs done todo vals,
    aligned_rows nv rgs xs = true ->
    length todo = nv ->
    eval_gradients fd todo = Py.Ok vals ->
    exists todo',
      Py.for_each (merge_variable (S i) (SPlaceholder w))
                  (Py.enumerate_from (length done) (Py.zip rgs xs)) (done ++ todo)
      = Py.Ok (done ++ todo')
      /\ eval_gradients fd todo'
         = Py.Ok (zip_with sum_present vals (zip_with (combine (wv w)) rgs xs))
      /\ length todo' = nv.
Proof.
  intros Hw nv. induction nv as [|nv IH]; intros rgs xs done todo vals Hrows Hlen Hev.
  - destruct rgs, xs; try discriminate. destruct todo; [|discriminate].
    cbn in Hev. injection Hev as <-. exists []. cbn. auto.
  - destruct rgs as [|r rgs], xs as [|x xs]; try discriminate.
    destruct todo as [|t todo]; [discriminate|]. cbn in Hlen.
    cbn in Hrows. apply andb_prop in Hrows as [Hrx Hrest].
    (* the entry being updated and its value *)
    assert (Ht : exists v vs, vals = v :: vs /\ eval_gradients fd todo = Py.Ok vs /\
                   match t, v with
                   | None, None => True
                   | Some m, Some mv => eval_t fd m = Py.Ok mv
                   | _, _ => False
                   end).
    { destruct t as [m|]; cbn in Hev; unbind.
      - destruct (eval_t fd m) as [mv|] eqn:Em; [|discriminate].
        destruct (eval_gradients fd todo) as [vs|]; [|discriminate].
        injection Hev as <-. exists (Some mv), vs. auto.
      - destruct (eval_gradients fd todo) as [vs|]; [|discriminate].
        injection Hev as <-. exists None, vs. auto. }
    destruct Ht as (v & vs & -> & Hevs & Htv).
    assert (Hlook : (done ++ t :: todo) !! length done = Some t).
    { rewrite lookup_app_r by lia. rewrite Nat.sub_diag. reflexivity. }
    assert (Hins : forall t', <[length done := t']> (done ++ t :: todo)
                              = (done ++ [t']) ++ todo).
    { intros t'. rewrite insert_app_r_alt by lia. rewrite Nat.sub_diag.
      cbn. rewrite <- app_assoc. reflexivity. }
    assert (Hsame : done ++ t :: todo = (done ++ [t]) ++ todo).
    { rewrite <- app_assoc. reflexivity. }
    assert (Hnext : length (done ++ [t]) = S (length done)).
    { rewrite length_app. cbn. lia. }
    destruct (aligned_cases _ _ Hrx) as [[-> ->] | (rv & xv & Hr & Hx & Hxt & Hrt)].
    + (* no gradient at this step: the entry is skipped *)
      destruct (IH rgs xs (done ++ [t]) todo vs Hrest ltac:(lia) Hevs)
        as (todo' & Hrun & Hev' & Hlen').
      exists (t :: todo'). rewrite Hnext in Hrun. split; [|split].
      * cbn. rewrite Hsame, Hrun, <- app_assoc. reflexivity.
      * destruct t as [m|], v as [mv|]; try contradiction; cbn; unbind.
        -- rewrite Htv, Hev'. reflexivity.
        -- rewrite Hev'. reflexivity.
      * cbn. lia.
    + set (g := TAdd (TScalarMul (SPlaceholder w) (TGrad xv))
                     (TScalarMul (SOneMinus (SPlaceholder w)) (TGrad rv))).
      pose (t' := match t with None => Some g | Some m => Some (TAdd m g) end).
      assert (Hstep : merge_variable (S i) (SPlaceholder w) (done ++ t :: todo)
                        (length done, (r, x))
                      = Py.Ok ((done ++ [t']) ++ todo)).
      { unfold t'.
        destruct Hxt as [-> | ->], Hrt as [-> | ->]; cbn; unbind; cbn;
          rewrite Hlook; destruct t; rewrite Hins; reflexivity. }
      assert (Hnext' : length (done ++ [t']) = S (length done)).
      { rewrite length_app. cbn. lia. }
      destruct (IH rgs xs (done ++ [t']) todo vs Hrest ltac:(lia) Hevs)
        as (todo' & Hrun & Hev' & Hlen').
      exists (t' :: todo'). rewrite Hnext' in Hrun. split; [|split].
      * change (Py.for_each ?f (Py.enumerate_from ?k (Py.zip (r :: rgs) (x :: xs))) ?st)
          with (Py.bind (f st (k, (r, x)))
                        (Py.for_each f (Py.enumerate_from (S k) (Py.zip rgs xs)))).
        rewrite Hstep. cbn. rewrite Hrun, <- app_assoc. reflexivity.
      * assert (Hg := eval_mix fd w (wv w) xv rv Hw). fold g in Hg.
        unfold t'. cbn [zip_with]. unfold combine at 1. rewrite Hr, Hx.
        destruct t as [m|], v as [mv|]; try contradiction.
        -- change (eval_gradients fd (Some (TAdd m g) :: todo'))
             with (Py.bind (Py.bind (eval_t fd m)
                      (fun a => Py.bind (eval_t fd g) (fun b => Py.Ok (t_add a b))))
                      (fun v => Py.bind (eval_gradients fd todo')
                                        (fun vs => Py.Ok (Some v :: vs)))).
           rewrite Htv, Hg, Hev'. reflexivity.
        -- change (eval_gradients fd (Some g :: todo'))
             with (Py.bind (eval_t fd g)
                      (fun v => Py.bind (eval_gradients fd todo')
                                        (fun vs => Py.Ok (Some v :: vs)))).
           rewrite Hg, Hev'. reflexivity.
      * cbn. lia.
Qed.

Lemma later_steps fd wv nv :
  forall steps i mixed vals,
    Forall (step_ok fd wv nv) steps ->
    length mixed = nv ->
    eval_gradients fd mixed = Py.Ok vals ->
    exists mixed',
      Py.for_each merge_step (Py.enumerate_from (S i) steps) mixed = Py.Ok mixed'
      /\ eval_gradients fd mixed'
         = Py.Ok (foldl (fun acc s => zip_with sum_present acc (step_values wv s))
                        vals steps)
      /\ length mixed' = nv.
Proof.
  induction steps as [|[[rgs xs] w] steps IH]; intros i mixed vals Hok Hlen Hev.
  - exists mixed. cbn. auto.
  - inversion Hok as [|s ss [Hrows Hw] Hrest]; subst. cbn in Hrows, Hw.
    destruct (later_step_rows fd wv w i Hw _ rgs xs [] mixed vals Hrows eq_refl Hev)
      as (mixed1 & Hrun1 & Hev1 & Hlen1).
    cbn [app length] in Hrun1.
    destruct (IH (S i) mixed1 _ Hrest Hlen1 Hev1) as (mixed' & Hrun & Hev' & Hlen').
    exists mixed'. split; [|split]; auto.
    change (Py.for_each merge_step
              (Py.enumerate_from (S i) ((rgs, xs, w) :: steps)) mixed)
      with (Py.bind (Py.for_each (merge_variable (S i) (SPlaceholder w))
                       (Py.enumerate_from 0 (Py.zip rgs xs)) mixed)
                    (Py.for_each merge_step (Py.enumerate_from (S (S i)) steps))).
    rewrite Hrun1. cbn. exact Hrun.
Qed.

(** The graph built by the loops, run under [fd], computes [mixed_values]. *)
Lemma merge_steps_eval fd wv nv steps :
  Forall (step_ok fd wv nv) steps ->
  exists mixed,
    Py.for_each merge_step (Py.enumerate steps) [] = Py.Ok mixed
    /\ eval_gradients fd mixed = Py.Ok (mixed_values wv steps).
Proof.
  intros Hok. destruct steps as [|[[rgs xs] w] steps].
  - exists []. cbn. auto.
  - inversion Hok as [|s ss [Hrows Hw] Hrest]; subst. cbn in Hrows, Hw.
    destruct (first_step_rows fd wv w Hw nv rgs xs 0 [] Hrows)
      as (mixed0 & Hrun0 & Hev0 & Hlen0).
    cbn [app] in Hrun0.
    destruct (later_steps fd wv nv steps 0 mixed0 _ Hrest Hlen0 Hev0)
      as (mixed & Hrun & Hev & _).
    exists mixed. split; [|exact Hev].
    change (Py.for_each merge_step (Py.enumerate ((rgs, xs, w) :: steps)) [])
      with (Py.bind (Py.for_each (merge_variable 0 (SPlaceholder w))
                       (Py.enumerate_from 0 (Py.zip rgs xs)) [])
                    (Py.for_each merge_step (Py.enumerate_from 1 steps))).
    rewrite Hrun0. cbn. exact Hrun.
Qed.

Lemma streams_step_ok fd wv nv :
  forall rgs xgs ws,
    gradient_streams nv rgs xgs = true ->
    (forall w, w ∈ ws -> fd !! w = Some (FScalar (wv w))) ->
    Forall (step_ok fd wv nv) (Py.zip3 rgs xgs ws).
Proof.
  induction rgs as [|r rgs IH]; intros xgs ws Hs Hfd.
  - constructor.
  - destruct xgs as [|x xgs]; [discriminate|]. destruct ws as [|w ws]; [constructor|].
    cbn in Hs. apply andb_prop in Hs as [Hrow Hrest].
    cbn. constructor.
    + split; [exact Hrow|]. apply Hfd. left.
    + apply IH; [exact Hrest|]. intros w' Hw'. apply Hfd. right. exact Hw'.
Qed.

Lemma run_feed_weight bleu ws bleus fd w :
  w ∈ ws -> run_feed bleu ws bleus fd !! w = Some (FScalar s_one).
Proof.
  unfold run_feed. generalize (<[bleu := FList bleus]> fd).
  induction ws as [|w' ws IH] using rev_ind; intros d Hin.
  - inversion Hin.
  - rewrite foldl_app. cbn. apply elem_of_app in Hin as [Hin | Hin].
    + destruct (decide (w' = w)) as [->|Hne].
      * apply lookup_insert_eq.
      * rewrite lookup_insert_ne by exact Hne. apply IH. exact Hin.
    + apply list_elem_of_singleton in Hin as ->. apply lookup_insert_eq.
Qed.

(** ** The streams the constructor builds are aligned *)

Section Constructed.
Variables (sparse : TF.gnode -> bool) (value_of : TF.gnode -> tensor).
Variables (trainable_variables : list string) (bleu first : nat).

Lemma reinforce_objective_depends v l dd :
  TF.depends v (reinforce_objective l (TF.StopGradient dd)) = TF.depends v l.
Proof.
  cbn. rewrite !orb_false_r. reflexivity.
Qed.

Lemma cross_entropy_depends v l t w :
  TF.depends v (cross_entropy l t w) = TF.depends v l.
Proof.
  cbn. rewrite !orb_false_r. reflexivity.
Qed.

Lemma constructed_rows_aligned l dd t w :
  forall vars,
    aligned_rows (length vars)
      (map (py_grad sparse value_of)
           (TF.gradients (reinforce_objective l (TF.StopGradient dd)) vars))
      (map (py_grad sparse value_of) (TF.gradients (cross_entropy l t w) vars))
    = true.
Proof.
  induction vars as [|v vars IH]; [reflexivity|].
  unfold TF.gradients in *. cbn [map length aligned_rows].
  rewrite reinforce_objective_depends, cross_entropy_depends, IH, andb_true_r.
  destruct (TF.depends v l); [|reflexivity].
  cbn. destruct (sparse _), (sparse _); reflexivity.
Qed.

Lemma constructed_streams_aux vars :
  forall ls hs ts wis,
    length ls = length hs -> length ts = length hs -> length wis = length hs ->
    gradient_streams (length vars)
      (py_grads sparse value_of
         (map (fun ld => TF.gradients (reinforce_objective ld.1 ld.2) vars)
              (Py.zip ls
                 (map TF.StopGradient
                    (map (fun rl => derivatives bleu rl.1 rl.2)
                         (Py.zip (map expected_reward hs) ls))))))
      (py_grads sparse value_of
         (map (fun e => TF.gradients e vars)
              (map (fun ltw => cross_entropy ltw.1.1 ltw.1.2 ltw.2)
                   (Py.zip3 ls ts wis))))
    = true.
Proof.
  induction ls as [|l ls IH]; intros [|h hs] [|t ts] [|w wis] H1 H2 H3;
    try discriminate; [reflexivity|].
  cbn in H1, H2, H3. cbn [map Py.zip Py.zip3 py_grads gradient_streams fst snd].
  rewrite constructed_rows_aligned. cbn [andb].
  apply IH; lia.
Qed.

Lemma constructed_streams_aligned d :
  steps_agree d ->
  gradient_streams (length (trainable_vars trainable_variables))
    (py_grads sparse value_of (reinforce_gradients bleu d trainable_variables))
    (py_grads sparse value_of (xent_gradients d trainable_variables)) = true.
Proof.
  intros (H1 & H2 & H3). unfold reinforce_gradients, xent_gradients.
  apply constructed_streams_aux; assumption.
Qed.

Lemma constructed_steps d :
  steps_agree d ->
  length (mixer_weights first d)
  = length (py_grads sparse value_of (reinforce_gradients bleu d trainable_variables)).
Proof.
  intros (H1 & H2 & H3). unfold mixer_weights, py_grads, reinforce_gradients.
  rewrite length_seq, !length_map.
  assert (Hzip : forall (A B : Type) (xs : list A) (ys : list B),
             length xs = length ys -> length (Py.zip xs ys) = length xs).
  { induction xs as [|x xs IHx]; intros [|y ys] H; try discriminate; [reflexivity|].
    cbn in *. rewrite IHx by lia. reflexivity. }
  rewrite Hzip.
  - lia.
  - rewrite !length_map, Hzip; rewrite length_map; lia.
Qed.

End Constructed.

(** ** The policy-gradient term on values *)












(** ** The reinforce gradients in the graph *)









End Properties.

(** ** The examples *)

Example toy_merge_at_one_and_zero :
  exists mixed,
    mixed_gradients toy_rgs toy_xgs [10; 11] = Py.Ok mixed
    /\ eval_gradients {[ 10 := @FScalar ZOps 1%Z; 11 := @FScalar ZOps 1%Z ]} mixed
       = Py.Ok [Some 12%Z; None]
    /\ eval_gradients {[ 10 := @FScalar ZOps 0%Z; 11 := @FScalar ZOps 0%Z ]} mixed
       = Py.Ok [Some 7%Z; None].
Proof.
  eexists. split; [reflexivity|]. split; vm_compute; reflexivity.
Qed.

(** A cross-entropy gradient with no reinforce gradient beside it stops the
    construction: [tf.scalar_mul] is handed [None]. *)
Example toy_missing_reinforce_gradient :
  mixed_gradients [[@GNone ZOps]] [[@GTensor ZOps 5%Z]] [10]
  = Py.Raise (Py.AttributeError "dtype").
Proof. reflexivity. Qed.

Example ex_streams :
  ex_rgs = [[@GTensor ZOps 3%Z; @GIndexedSlices ZOps 3%Z; GNone];
            [@GTensor ZOps 3%Z; @GIndexedSlices ZOps 3%Z; GNone]]
  /\ ex_xgs = [[@GTensor ZOps 5%Z; @GIndexedSlices ZOps 5%Z; GNone];
               [@GTensor ZOps 5%Z; @GIndexedSlices ZOps 5%Z; GNone]]
  /\ mixer_weights 10 ex_decoder = [10; 11].
Proof. repeat split. Qed.

Lemma ex_steps_agree : steps_agree ex_decoder.
Proof. repeat split. Defined.

Lemma ex_feed_weights c w :
  w ∈ mixer_weights 10 ex_decoder -> ex_feed c !! w = Some (@FScalar ZOps c).
Proof.
  intros Hw. change (w ∈ [10; 11]) in Hw.
  apply elem_of_cons in Hw as [-> | Hw]; [reflexivity|].
  apply elem_of_cons in Hw as [-> | Hw]; [reflexivity|].
  inversion Hw.
Defined.

(** C7, as stated, fails.  The caller feeds weight 0 at every step, for which
    the mixed gradient is the reinforce one (6 for the first two variables);
    the training step applies the cross-entropy one (10). *)
Lemma run_overrides_caller_weights :
  eval_gradients (<[9 := @FList ZOps [1%Z]]> (ex_feed 0)) ex_mixed
  = Py.Ok [Some 6%Z; Some 6%Z; None]
  /\ run 9 (mixer_weights 10 ex_decoder) ex_mixed [1%Z] (ex_feed 0)
     = Py.Ok [Some 10%Z; Some 10%Z; None]
  /\ [Some 10%Z; Some 10%Z; None] <> [Some 6%Z; Some 6%Z; @None Z].
Proof.
  split; [|split].
  - vm_compute. reflexivity.
  - vm_compute. reflexivity.
  - discriminate.
Qed.



(** C3.  The regressor's training step, [minimize(regression_loss)] without
    [var_list], assigns every trainable variable the loss depends on: here the
    decoder's [decoder/cell], which lies outside the mixer's scope, beside the
    regressor's own two variables.  A training call does not run that step,
    and the step it runs never assigns the regressor's variables. *)
Theorem regression_optimizer_updates_decoder_variables :
  regression_optimizer 9 ex_decoder ex_variables
  = ["decoder/cell"; linear_reg_W; linear_reg_b]
  /\ in_mixer_scope "decoder/cell" = false
  /\ (forall verbose, RegressionOptimizer ∉ run_fetches verbose ex_decoder)
  /\ trainable_vars ex_variables = ["decoder/cell"; "decoder/out"; "encoder/unused"].
Proof.
  split; [reflexivity|]. split; [reflexivity|]. split; [|reflexivity].
  intros [|]; cbn; intros H;
    repeat (apply elem_of_cons in H as [H|H]; [discriminate|]); inversion H.
Qed.

(** ** Further properties of the constructor and of [run] *)

Section Further.
Context {O : TensorOps}.
Variables (sparse : TF.gnode -> bool) (value_of : TF.gnode -> tensor).
Variables (trainable_variables : list string) (bleu first : nat).

(** The graph of the constructor, run under a feed dictionary that holds a
    scalar for every weight placeholder. *)
Lemma constructed_merge_eval (d : decoder) (fd : gmap nat feed)
    (wv : nat -> scalar) :
  steps_agree d ->
  (forall w, w ∈ mixer_weights first d -> fd !! w = Some (FScalar (wv w))) ->
  exists mixed,
    mixed_gradients
      (py_grads sparse value_of (reinforce_gradients bleu d trainable_variables))
      (py_grads sparse value_of (xent_gradients d trainable_variables))
      (mixer_weights first d) = Py.Ok mixed
    /\ eval_gradients fd mixed
       = Py.Ok (mixed_values wv
                  (Py.zip3
                     (py_grads sparse value_of
                        (reinforce_gradients bleu d trainable_variables))
                     (py_grads sparse value_of
                        (xent_gradients d trainable_variables))
                     (mixer_weights first d))).
Proof.
  intros Hd Hfd.
  apply (merge_steps_eval fd wv (length (trainable_vars trainable_variables))).
  apply streams_step_ok; [|exact Hfd].
  apply constructed_streams_aligned. exact Hd.
Qed.

(** For whatever weights are fed, step by step, the gradient the graph
    computes for every variable is the sum, over the steps at which the
    variable has gradients, of [w_t * xent + (1 - w_t) * rg]. *)
Theorem mixed_gradient_is_weighted_sum (d : decoder) (fd : gmap nat feed)
    (wv : nat -> scalar) :
  steps_agree d ->
  (forall w, w ∈ mixer_weights first d -> fd !! w = Some (FScalar (wv w))) ->
  exists mixed,
    mixed_gradients
      (py_grads sparse value_of (reinforce_gradients bleu d trainable_variables))
      (py_grads sparse value_of (xent_gradients d trainable_variables))
      (mixer_weights first d) = Py.Ok mixed
    /\ eval_gradients fd mixed
       = Py.Ok (mixed_values wv
                  (Py.zip3
                     (py_grads sparse value_of
                        (reinforce_gradients bleu d trainable_variables))
                     (py_grads sparse value_of
                        (xent_gradients d trainable_variables))
                     (mixer_weights first d))).
Proof.
  intros Hd Hfd. apply constructed_merge_eval; assumption.
Qed.













(** C7, as the code has it.  Whatever the caller put in the feed dictionary,
    also under the weight placeholders, a training step applies the mixed
    gradient for weights all equal to 1: for every parameter the sum over the
    steps of [1 * xent + (1 - 1) * rg]; two feed dictionaries that differ in
    the weights only give the same update. *)
Theorem run_feeds_weight_one (d : decoder) (mixed : list (option tnode))
    (bleus : list scalar) (fd : gmap nat feed) :
  steps_agree d ->
  mixed_gradients
    (py_grads sparse value_of (reinforce_gradients bleu d trainable_variables))
    (py_grads sparse value_of (xent_gradients d trainable_variables))
    (mixer_weights first d) = Py.Ok mixed ->
  run bleu (mixer_weights first d) mixed bleus fd
  = Py.Ok (mixed_values (fun _ => s_one)
             (Py.zip3
                (py_grads sparse value_of
                   (reinforce_gradients bleu d trainable_variables))
                (py_grads sparse value_of (xent_gradients d trainable_variables))
                (mixer_weights first d)))
  /\ (forall fd',
        (forall p, p ∉ mixer_weights first d -> fd' !! p = fd !! p) ->
        run bleu (mixer_weights first d) mixed bleus fd'
        = run bleu (mixer_weights first d) mixed bleus fd).
Proof.
  intros Hd Hm.
  assert (Hrun : forall fd0,
             run bleu (mixer_weights first d) mixed bleus fd0
             = Py.Ok (mixed_values (fun _ => s_one)
                        (Py.zip3
                           (py_grads sparse value_of
                              (reinforce_gradients bleu d trainable_variables))
                           (py_grads sparse value_of
                              (xent_gradients d trainable_variables))
                           (mixer_weights first d)))).
  { intros fd0. unfold run.
    destruct (constructed_merge_eval d
                (run_feed bleu (mixer_weights first d) bleus fd0)
                (fun _ => s_one) Hd) as (m & Hm' & He).
    { intros w Hw. apply run_feed_weight. exact Hw. }
    rewrite Hm in Hm'. injection Hm' as <-. exact He. }
  split; [apply Hrun|]. intros fd' _. rewrite !Hrun. reflexivity.
Qed.


(** What [run] does to the feed dictionary it is handed: the BLEU scores go
    under the [bleu] placeholder, every weight placeholder gets 1, and every
    other entry stays as the caller put it. *)
Theorem run_feed_frame (ws : list nat) (bleus : list scalar) (fd : gmap nat feed) :
  (forall w, w ∈ ws -> run_feed bleu ws bleus fd !! w = Some (FScalar s_one))
  /\ (bleu ∉ ws -> run_feed bleu ws bleus fd !! bleu = Some (FList bleus))
  /\ (forall p, p ∉ ws -> p <> bleu -> run_feed bleu ws bleus fd !! p = fd !! p).
Proof.
  assert (Hother : forall (d0 : gmap nat feed) p,
             p ∉ ws ->
             foldl (fun d1 w => <[w := FScalar s_one]> d1) d0 ws !! p = d0 !! p).
  { intros d0 p. revert d0. induction ws as [|w ws' IH]; intros d0 Hp; [reflexivity|].
    cbn. rewrite IH by (intros Hin; apply Hp; right; exact Hin).
    apply lookup_insert_ne. intros ->. apply Hp. left. }
  split; [|split].
  - intros w Hw. apply run_feed_weight. exact Hw.
  - intros Hb. unfold run_feed. rewrite Hother by exact Hb. apply lookup_insert_eq.
  - intros p Hp Hne. unfold run_feed. rewrite Hother by exact Hp.
    apply lookup_insert_ne. congruence.
Qed.

End Further.

(** The two-step decoder of the examples, with weight 1 fed at the first step
    and weight 0 at the second. *)
Lemma mixed_gradient_is_weighted_sum_witness :
  exists mixed,
    mixed_gradients ex_rgs ex_xgs (mixer_weights 10 ex_decoder) = Py.Ok mixed
    /\ eval_gradients {[ 10 := @FScalar ZOps 1%Z; 11 := @FScalar ZOps 0%Z ]} mixed
       = Py.Ok [Some 8%Z; Some 8%Z; None].
Proof.
  apply (@mixed_gradient_is_weighted_sum ZOps ex_sparse ex_value_of ex_variables
           9 10 ex_decoder {[ 10 := @FScalar ZOps 1%Z; 11 := @FScalar ZOps 0%Z ]}
           (fun w => if (w =? 10)%nat then 1%Z else 0%Z) ex_steps_agree).
  intros w Hw. change (w ∈ [10; 11]) in Hw.
  apply elem_of_cons in Hw as [-> | Hw]; [reflexivity|].
  apply elem_of_cons in Hw as [-> | Hw]; [reflexivity|].
  inversion Hw.
Defined.


(** The caller fed weight 0 at both steps; the step applies 1 * 5 + (1 - 1) * 3
    at each of the two steps. *)
Lemma run_feeds_weight_one_witness :
  run 9 (mixer_weights 10 ex_decoder) ex_mixed [1%Z] (ex_feed 0)
  = Py.Ok [Some 10%Z; Some 10%Z; None]
  /\ (forall fd',
        (forall p, p ∉ mixer_weights 10 ex_decoder -> fd' !! p = ex_feed 0 !! p) ->
        run 9 (mixer_weights 10 ex_decoder) ex_mixed [1%Z] fd'
        = run 9 (mixer_weights 10 ex_decoder) ex_mixed [1%Z] (ex_feed 0)).
Proof.
  apply (@run_feeds_weight_one ZOps ex_sparse ex_value_of ex_variables 9 10
           ex_decoder ex_mixed [1%Z] (ex_feed 0) ex_steps_agree).
  reflexivity.
Defined.



(** ** The two extremes of the weight, in float32 *)

Section Float32.
#[local] Existing Instance F32.Ops.
Variables (sparse : TF.gnode -> bool).
Variables (value_of : TF.gnode -> list SpecFloat.spec_float).
Variables (trainable_variables : list string) (bleu first : nat).

(** The gradient [kept] comes out of the mix with [other] at weight 0.0: both
    are absent, or both are present with one shape, [kept] holding numbers of
    the format and [other] finite ones. *)
Definition keeps (kept other : grad) : Prop :=
  match grad_value kept, grad_value other with
  | Some kv, Some ov =>
      length ov = length kv
      /\ Forall F32.valid kv
      /\ Forall (fun y => F32.is_finite y = true) ov
  | None, None => True
  | _, _ => False
  end.

Lemma combine_one_same (rg xent_g : grad) :
  keeps xent_g rg ->
  F32.same_gradient (combine F32.one rg xent_g) (grad_value xent_g).
Proof.
  unfold keeps, combine.
  destruct (grad_value xent_g) as [xv|], (grad_value rg) as [rv|];
    try contradiction; [|constructor].
  intros (Hlen & Hx & Hr). constructor.
  apply F32.weight_one_keeps; assumption.
Qed.

Lemma combine_zero_same (rg xent_g : grad) :
  keeps rg xent_g ->
  F32.same_gradient (combine F32.zero rg xent_g) (grad_value rg).
Proof.
  unfold keeps, combine.
  destruct (grad_value rg) as [rv|], (grad_value xent_g) as [xv|];
    try contradiction; [|constructor].
  intros (Hlen & Hr & Hx). constructor.
  apply F32.weight_zero_keeps; assumption.
Qed.

Lemma row_one_same (rgs xs : list grad) :
  Forall2 (fun rg x => keeps x rg) rgs xs ->
  Forall2 F32.same_gradient (zip_with (combine F32.one) rgs xs) (grad_value <$> xs).
Proof.
  induction 1 as [|rg x rgs' xs' H _ IH]; [constructor|].
  cbn. constructor; [apply combine_one_same; exact H|exact IH].
Qed.

Lemma row_zero_same (rgs xs : list grad) :
  Forall2 keeps rgs xs ->
  Forall2 F32.same_gradient (zip_with (combine F32.zero) rgs xs) (grad_value <$> rgs).
Proof.
  induction 1 as [|rg x rgs' xs' H _ IH]; [constructor|].
  cbn. constructor; [apply combine_zero_same; exact H|exact IH].
Qed.

Lemma sum_present_same (a a' g g' : option tensor) :
  F32.same_gradient a a' -> F32.same_gradient g g' ->
  F32.same_gradient (sum_present a g) (sum_present a' g').
Proof.
  intros [x x' Hx|] [y y' Hy|]; cbn; try (constructor; assumption).
  constructor. apply F32.add_same_tensor; assumption.
Qed.

Lemma zip_sum_present_same (acc acc' row row' : list (option tensor)) :
  Forall2 F32.same_gradient acc acc' ->
  Forall2 F32.same_gradient row row' ->
  Forall2 F32.same_gradient (zip_with sum_present acc row)
                            (zip_with sum_present acc' row').
Proof.
  intros Hacc. revert row row'.
  induction Hacc as [|a a' acc0 acc0' Ha _ IH]; intros row row' Hrow; [constructor|].
  destruct Hrow as [|g g' row0 row0' Hg Hrow]; [constructor|].
  cbn. constructor; [apply sum_present_same; assumption|apply IH; exact Hrow].
Qed.

Lemma fold_one_same (rgs xgs : list (list grad)) :
  Forall2 (Forall2 (fun rg x => keeps x rg)) rgs xgs ->
  forall (ws : list nat) (acc acc' : list (option tensor)),
    length ws = length rgs ->
    Forall2 F32.same_gradient acc acc' ->
    Forall2 F32.same_gradient
      (foldl (fun a s => zip_with sum_present a (step_values (fun _ => F32.one) s))
             acc (Py.zip3 rgs xgs ws))
      (foldl (fun a step => zip_with sum_present a (grad_value <$> step)) acc' xgs).
Proof.
  induction 1 as [|r x rgs' xgs' Hrow _ IH]; intros [|w ws] acc acc' Hlen Hacc;
    try discriminate; [exact Hacc|].
  cbn. apply IH; [cbn in Hlen; lia|].
  apply zip_sum_present_same; [exact Hacc|apply row_one_same; exact Hrow].
Qed.

Lemma fold_zero_same (rgs xgs : list (list grad)) :
  Forall2 (Forall2 keeps) rgs xgs ->
  forall (ws : list nat) (acc acc' : list (option tensor)),
    length ws = length rgs ->
    Forall2 F32.same_gradient acc acc' ->
    Forall2 F32.same_gradient
      (foldl (fun a s => zip_with sum_present a (step_values (fun _ => F32.zero) s))
             acc (Py.zip3 rgs xgs ws))
      (foldl (fun a step => zip_with sum_present a (grad_value <$> step)) acc' rgs).
Proof.
  induction 1 as [|r x rgs' xgs' Hrow _ IH]; intros [|w ws] acc acc' Hlen Hacc;
    try discriminate; [exact Hacc|].
  cbn. apply IH; [cbn in Hlen; lia|].
  apply zip_sum_present_same; [exact Hacc|apply row_zero_same; exact Hrow].
Qed.

Lemma mixed_values_one_same (rgs xgs : list (list grad)) (ws : list nat) :
  Forall2 (Forall2 (fun rg x => keeps x rg)) rgs xgs ->
  length ws = length rgs ->
  Forall2 F32.same_gradient
    (mixed_values (fun _ => F32.one) (Py.zip3 rgs xgs ws)) (stream_totals xgs).
Proof.
  intros [|r x rgs' xgs' Hrow Hrest] Hlen; destruct ws as [|w ws];
    try discriminate; [constructor|].
  cbn. apply fold_one_same; [exact Hrest|cbn in Hlen; lia|].
  apply row_one_same. exact Hrow.
Qed.

Lemma mixed_values_zero_same (rgs xgs : list (list grad)) (ws : list nat) :
  Forall2 (Forall2 keeps) rgs xgs ->
  length ws = length rgs ->
  Forall2 F32.same_gradient
    (mixed_values (fun _ => F32.zero) (Py.zip3 rgs xgs ws)) (stream_totals rgs).
Proof.
  intros [|r x rgs' xgs' Hrow Hrest] Hlen; destruct ws as [|w ws];
    try discriminate; [constructor|].
  cbn. apply fold_zero_same; [exact Hrest|cbn in Hlen; lia|].
  apply row_zero_same. exact Hrow.
Qed.

(** A relation that holds between the two gradients of one step by one
    variable, and between two [None], holds all along the two streams of the
    constructor. *)
Lemma constructed_streams_related (R : grad -> grad -> Prop) :
  R GNone GNone ->
  (forall l dd t w v,
      R (py_grad sparse value_of
           (Some (TF.Grad (reinforce_objective l (TF.StopGradient dd)) v)))
        (py_grad sparse value_of (Some (TF.Grad (cross_entropy l t w) v)))) ->
  forall d, steps_agree d ->
    Forall2 (Forall2 R)
      (py_grads sparse value_of (reinforce_gradients bleu d trainable_variables))
      (py_grads sparse value_of (xent_gradients d trainable_variables)).
Proof.
  intros HNone Hboth d (H1 & H2 & H3).
  unfold reinforce_gradients, xent_gradients, py_grads.
  generalize (trainable_vars trainable_variables) as vars. intros vars.
  assert (Hrow : forall l dd t w,
             Forall2 R
               (map (py_grad sparse value_of)
                    (TF.gradients (reinforce_objective l (TF.StopGradient dd)) vars))
               (map (py_grad sparse value_of)
                    (TF.gradients (cross_entropy l t w) vars))).
  { intros l dd t w. induction vars as [|v vars IH]; [constructor|].
    unfold TF.gradients in *. cbn [map].
    rewrite reinforce_objective_depends, cross_entropy_depends.
    constructor; [|exact IH].
    destruct (TF.depends v l); [apply Hboth|exact HNone]. }
  revert H1 H2 H3.
  generalize (decoded_logits d) (hidden_states d) (targets d) (weights_ins d).
  induction l as [|l ls IH]; intros [|h hs] [|t ts] [|w wis] H1 H2 H3;
    try discriminate; [constructor|].
  cbn in H1, H2, H3. cbn [map Py.zip Py.zip3 fst snd].
  constructor; [apply Hrow|apply IH; lia].
Qed.

(** C1, as the code has it, in float32.  Over a decoder with one hidden state,
    logits, target and weight per step, whose gradients by one variable have
    one shape: fed 1.0 at every step, the merge yields for every variable the
    sum over the steps of its cross-entropy gradients, provided the reinforce
    gradients are finite; fed 0.0, the sum of its reinforce gradients,
    provided the cross-entropy gradients are finite.  The two agree up to the
    sign of a zero. *)
Theorem float32_mixing_weight_one_or_zero (d : decoder) :
  steps_agree d ->
  (forall g, Forall F32.valid (value_of g)) ->
  (forall y y' x,
      length (value_of (TF.Grad y x)) = length (value_of (TF.Grad y' x))) ->
  (forall fd,
      (forall w, w ∈ mixer_weights first d -> fd !! w = Some (FScalar F32.one)) ->
      (forall l dd x,
          Forall (fun y => F32.is_finite y = true)
                 (value_of (TF.Grad (reinforce_objective l dd) x))) ->
      exists mixed vals,
        mixed_gradients
          (py_grads sparse value_of (reinforce_gradients bleu d trainable_variables))
          (py_grads sparse value_of (xent_gradients d trainable_variables))
          (mixer_weights first d) = Py.Ok mixed
        /\ eval_gradients fd mixed = Py.Ok vals
        /\ Forall2 F32.same_gradient vals
             (stream_totals
                (py_grads sparse value_of (xent_gradients d trainable_variables))))
  /\ (forall fd,
        (forall w, w ∈ mixer_weights first d -> fd !! w = Some (FScalar F32.zero)) ->
        (forall l t w x,
            Forall (fun y => F32.is_finite y = true)
                   (value_of (TF.Grad (cross_entropy l t w) x))) ->
        exists mixed vals,
          mixed_gradients
            (py_grads sparse value_of (reinforce_gradients bleu d trainable_variables))
            (py_grads sparse value_of (xent_gradients d trainable_variables))
            (mixer_weights first d) = Py.Ok mixed
          /\ eval_gradients fd mixed = Py.Ok vals
          /\ Forall2 F32.same_gradient vals
               (stream_totals
                  (py_grads sparse value_of
                     (reinforce_gradients bleu d trainable_variables)))).
Proof.
  intros Hd Hvalid Hshape.
  assert (Hgv : forall n, grad_value (py_grad sparse value_of (Some n))
                          = Some (value_of n)).
  { intros n. cbn. destruct (sparse n); reflexivity. }
  split; intros fd Hfd Hfinite.
  - destruct (@constructed_merge_eval F32.Ops sparse value_of trainable_variables
                bleu first d fd (fun _ => F32.one) Hd Hfd)
      as (mixed & Hmixed & Heval).
    exists mixed. eexists. split; [exact Hmixed|]. split; [exact Heval|].
    apply mixed_values_one_same.
    + apply (constructed_streams_related (fun rg x => keeps x rg)).
      * exact I.
      * intros l dd t w v. unfold keeps. rewrite !Hgv.
        split; [apply Hshape|]. split; [apply Hvalid|apply Hfinite].
      * exact Hd.
    + apply constructed_steps. exact Hd.
  - destruct (@constructed_merge_eval F32.Ops sparse value_of trainable_variables
                bleu first d fd (fun _ => F32.zero) Hd Hfd)
      as (mixed & Hmixed & Heval).
    exists mixed. eexists. split; [exact Hmixed|]. split; [exact Heval|].
    apply mixed_values_zero_same.
    + apply (constructed_streams_related keeps).
      * exact I.
      * intros l dd t w v. unfold keeps. rewrite !Hgv.
        split; [apply Hshape|]. split; [apply Hvalid|apply Hfinite].
      * exact Hd.
    + apply constructed_steps. exact Hd.
Qed.

End Float32.

(** A float32 batch over the decoder of the examples: every reinforce
    gradient is the one-element tensor [r], every cross-entropy gradient
    5.0. *)
Definition f32_value_of (r : SpecFloat.spec_float) (g : TF.gnode)
  : list SpecFloat.spec_float :=
  match g with
  | TF.Grad (TF.Op kind _) _ => if String.eqb kind "mul" then [r] else [F32.of_Z 5]
  | TF.Grad _ _ => [F32.zero]
  end.

Definition f32_rgs (r : SpecFloat.spec_float) : list (list (@grad F32.Ops)) :=
  @py_grads F32.Ops ex_sparse (f32_value_of r)
    (reinforce_gradients 9 ex_decoder ex_variables).

Definition f32_xgs (r : SpecFloat.spec_float) : list (list (@grad F32.Ops)) :=
  @py_grads F32.Ops ex_sparse (f32_value_of r) (xent_gradients ex_decoder ex_variables).

Definition f32_feed (c : SpecFloat.spec_float) : gmap nat (@feed F32.Ops) :=
  {[ 10 := @FScalar F32.Ops c; 11 := @FScalar F32.Ops c ]}.

Lemma f32_feed_weights c w :
  w ∈ mixer_weights 10 ex_decoder -> f32_feed c !! w = Some (@FScalar F32.Ops c).
Proof.
  intros Hw. change (w ∈ [10; 11]) in Hw.
  apply elem_of_cons in Hw as [-> | Hw]; [reflexivity|].
  apply elem_of_cons in Hw as [-> | Hw]; [reflexivity|].
  inversion Hw.
Defined.

Lemma f32_value_of_valid g : Forall F32.valid (f32_value_of (F32.of_Z 3) g).
Proof.
  destruct g as [[] x]; cbn; try destruct (String.eqb _ _);
    repeat constructor.
Defined.

Lemma f32_value_of_shape r y y' x :
  length (f32_value_of r (TF.Grad y x)) = length (f32_value_of r (TF.Grad y' x)).
Proof.
  destruct y, y'; cbn; repeat destruct (String.eqb _ _); reflexivity.
Defined.

(** In float32 the sign of a zero can change: [1.0 * -0.0 + (1.0 - 1.0) * 3.0]
    is [+0.0]. *)
Example f32_sign_of_zero :
  F32.add (F32.mul F32.one (SpecFloat.S754_zero true))
          (F32.mul (F32.sub F32.one F32.one) (F32.of_Z 3))
  = SpecFloat.S754_zero false.
Proof. reflexivity. Qed.

Lemma float32_mixing_weight_one_or_zero_witness :
  (exists mixed vals,
      mixed_gradients (f32_rgs (F32.of_Z 3)) (f32_xgs (F32.of_Z 3))
        (mixer_weights 10 ex_decoder) = Py.Ok mixed
      /\ eval_gradients (f32_feed F32.one) mixed = Py.Ok vals
      /\ Forall2 F32.same_gradient vals (stream_totals (f32_xgs (F32.of_Z 3))))
  /\ (exists mixed vals,
        mixed_gradients (f32_rgs (F32.of_Z 3)) (f32_xgs (F32.of_Z 3))
          (mixer_weights 10 ex_decoder) = Py.Ok mixed
        /\ eval_gradients (f32_feed F32.zero) mixed = Py.Ok vals
        /\ Forall2 F32.same_gradient vals (stream_totals (f32_rgs (F32.of_Z 3)))).
Proof.
  destruct (float32_mixing_weight_one_or_zero ex_sparse (f32_value_of (F32.of_Z 3))
              ex_variables 9 10 ex_decoder ex_steps_agree
              f32_value_of_valid (f32_value_of_shape (F32.of_Z 3)))
    as [Hone Hzero].
  split.
  - apply (Hone (f32_feed F32.one) (f32_feed_weights F32.one)).
    intros l dd x. repeat constructor.
  - apply (Hzero (f32_feed F32.zero) (f32_feed_weights F32.zero)).
    intros l t w x. repeat constructor.
Defined.

(** C1, as stated, fails in float32.  Every reinforce gradient is infinite,
    every cross-entropy gradient 5.0, and 1.0 is fed at both steps: the merge
    yields NaN for the first two variables, where the cross-entropy gradients
    sum to 10.0. *)
Lemma infinite_reinforce_gradient_gives_nan :
  (exists mixed,
      mixed_gradients (f32_rgs F32.infinity) (f32_xgs F32.infinity)
        (mixer_weights 10 ex_decoder) = Py.Ok mixed
      /\ eval_gradients (f32_feed F32.one) mixed
         = Py.Ok [Some [F32.nan]; Some [F32.nan]; None])
  /\ stream_totals (f32_xgs F32.infinity)
     = [Some [F32.of_Z 10]; Some [F32.of_Z 10]; None]
  /\ [Some [F32.nan]; Some [F32.nan]; None]
     <> [Some [F32.of_Z 10]; Some [F32.of_Z 10]; @None (list SpecFloat.spec_float)].
Proof.
  split; [|split].
  - eexists. split; [reflexivity|]. vm_compute. reflexivity.
  - vm_compute. reflexivity.
  - vm_compute. discriminate.
Qed.

End Mixer.

(* ===================================================================== *)
(** * neuralmonkey/decoders/transformer.py *)
(* ===================================================================== *)

Module Transformer.

(** The variable scope an operation creates its parameters in. *)
Inductive sublayer : Type :=
  | self_attention
  | encdec_attention
  | feedforward.

Inductive scope : Type :=
  | decoder_scope
  | layer_scope (index : nat) (sub : sublayer).

(** The decoder object: its configuration, and the TensorFlow and Neural
    Monkey operations its methods call, which are not among the sources.
    [states] are tensors of shape (batch, time, dimension), [hidden] tensors
    of shape (batch, dimension); masks have shape (batch, time). *)
Class Decoder {O : TensorOps} : Type := {
  states : Type;
  hidden : Type;
  depth : nat;
  n_heads_self : nat;
  n_heads_enc : nat;
  batch_size : nat;
  go_symbols : list Z;
  encoder_states : states;
  encoder_mask : list (list scalar);
  (** [neuralmonkey.vocabulary] *)
  PAD_TOKEN_INDEX : Z;
  END_TOKEN_INDEX : Z;
  (** [neuralmonkey.tf_utils.layer_norm] *)
  layer_norm : scope -> states -> states;
  (** [attention(queries, keys, values, keys_mask, num_heads, masked)], with
      the dropout callback and the bias flag of the object *)
  attention : scope -> states -> states -> states -> list (list scalar) ->
              nat -> bool -> states;
  (** [dropout(x, self.dropout_keep_prob, self.train_mode)] *)
  dropout : states -> states;
  (** [tf.layers.dense(x, units, activation, name)], [relu] telling whether
      the activation is [tf.nn.relu] *)
  dense : scope -> string -> bool -> states -> states;
  (** [+] on states *)
  add : states -> states -> states;
  (** [self.embed_inputs], on symbols of shape (batch, time) *)
  embed_inputs : list (list Z) -> states;
  transpose_symbols : list (list Z) -> list (list Z);
  transpose_mask : list (list scalar) -> list (list scalar);
  (** [x[:, -1, :]] *)
  last_position : states -> hidden;
  (** [tf.matmul(x, self.decoding_w) + self.decoding_b]: one row of logits
      per batch element *)
  project : hidden -> list (list scalar);
  (** [tf.argmax] on one row *)
  argmax_row : list scalar -> nat;
  (** [tf.multinomial(logits, num_samples=1)] *)
  multinomial : list (list scalar) -> list (list Z)
}.

Section Methods.
Context {O : TensorOps} {self : Decoder}.

(** [TransformerLayer(states, mask)]. *)
Record TransformerLayer : Type := {
  temporal_states : states;
  temporal_mask : list (list scalar)
}.

(** Lines 168-193. *)
Definition self_attention_sublayer (sc : scope) (prev_layer : TransformerLayer)
  : states :=
  let normalized_states := layer_norm sc (temporal_states prev_layer) in
  let self_context :=
    attention sc normalized_states normalized_states normalized_states
              (temporal_mask prev_layer) n_heads_self true in
  let self_context := dropout self_context in
  add self_context (temporal_states prev_layer).

(** Modelled from the spec: the default of the parameter [masked] of
    [attention] in [neuralmonkey/attention/scaled_dot_product.py], which is not
    among the sources.  Section 4.2 has the attention over the encoder run
    with [masked=false]. *)
Definition attention_masked_default : bool := false.

(** Lines 195-218; the call does not pass [masked]. *)
Definition encoder_attention_sublayer (sc : scope) (queries : states) : states :=
  let normalized_queries := layer_norm sc queries in
  let encoder_context :=
    attention sc normalized_queries encoder_states encoder_states encoder_mask
              n_heads_enc attention_masked_default in
  let encoder_context := dropout encoder_context in
  add encoder_context queries.

(** Lines 220-241. *)
Definition feedforward_sublayer (sc : scope) (layer_input : states) : states :=
  let normalized_input := layer_norm sc layer_input in
  let ff_hidden := dense sc "hidden_state" true normalized_input in
  let ff_hidden := dropout ff_hidden in
  let ff_output := dense sc "output" false ff_hidden in
  let ff_output := dropout ff_output in
  add ff_output layer_input.

(** Lines 243-269.  The level is a natural number: the recursion of the
    source does not end on a negative one. *)
Fixpoint layer (level : nat) (inputs : states) (mask : list (list scalar))
  : TransformerLayer :=
  match level with
  | 0 => {| temporal_states := inputs; temporal_mask := mask |}
  | S level' =>
      let prev_layer := layer level' inputs mask in
      let self_context :=
        self_attention_sublayer (layer_scope level' self_attention) prev_layer in
      let encoder_context :=
        encoder_attention_sublayer (layer_scope level' encdec_attention) self_context in
      let output_states :=
        feedforward_sublayer (layer_scope level' feedforward) encoder_context in
      let output_states :=
        if (depth =? level)%nat then layer_norm decoder_scope output_states
        else output_states in
      {| temporal_states := output_states; temporal_mask := mask |}
  end.

(** ** The specification's reading of the stack *)

(** A residual sublayer preceded by layer normalization: [f(norm(x)) + x]. *)
Definition pre_norm_residual (sc : scope) (f : states -> states) (x : states)
  : states :=
  add (f (layer_norm sc x)) x.

(** Level [S n] from level [n]. *)
Definition next_layer (n : nat) (prev : TransformerLayer) : TransformerLayer :=
  let a :=
    pre_norm_residual (layer_scope n self_attention)
      (fun x => dropout (attention (layer_scope n self_attention) x x x
                                   (temporal_mask prev) n_heads_self true))
      (temporal_states prev) in
  let b :=
    pre_norm_residual (layer_scope n encdec_attention)
      (fun x => dropout (attention (layer_scope n encdec_attention) x
                                   encoder_states encoder_states encoder_mask
                                   n_heads_enc false))
      a in
  let c :=
    pre_norm_residual (layer_scope n feedforward)
      (fun x => dropout (dense (layer_scope n feedforward) "output" false
                           (dropout (dense (layer_scope n feedforward)
                                           "hidden_state" true x))))
      b in
  {| temporal_states := if (depth =? S n)%nat then layer_norm decoder_scope c else c;
     temporal_mask := temporal_mask prev |}.

(** ** The decoding loop *)

Record DecoderFeedables : Type := {
  step : nat;
  finished : list bool;
  input_symbol : list Z;
  prev_logits : list (list scalar)
}.

(** Every history has the time as its first axis. *)
Record TransformerHistories : Type := {
  logits : list (list (list scalar));
  decoder_outputs : list hidden;
  mask : list (list bool);
  outputs : list (list Z);
  decoded_symbols : list (list Z);
  input_mask : list (list scalar)
}.

Record LoopState : Type := {
  histories : TransformerHistories;
  constants : list unit;
  feedables : DecoderFeedables
}.

Definition to_float (b : bool) : scalar := if b then s_one else s_zero.

Definition to_int32 (b : bool) : Z := if b then 1%Z else 0%Z.

(** Modelled from the spec: [AutoregressiveDecoder.get_initial_loop_state] of
    [neuralmonkey/decoders/autoregressive.py], which is not among the sources.
    Section 4.3: step 0, nothing finished, the start symbol as input symbol,
    empty histories. *)
Definition default_initial_loop_state : LoopState := {|
  histories := {| logits := []; decoder_outputs := []; mask := [];
                  outputs := []; decoded_symbols := []; input_mask := [] |};
  constants := [];
  feedables := {| step := 0;
                  finished := replicate batch_size false;
                  input_symbol := go_symbols;
                  prev_logits := [] |}
|}.

(** Lines 296-327. *)
Definition get_initial_loop_state : LoopState :=
  let default_ls := default_initial_loop_state in
  let h := histories default_ls in
  {| histories := {| logits := logits h;
                     decoder_outputs := decoder_outputs h;
                     mask := mask h;
                     outputs := outputs h;
                     decoded_symbols := [];
                     input_mask := [] |};
     constants := [];
     feedables := feedables default_ls |}.

(** Lines 333-422: the step function [get_body] returns. *)
Definition body (sample : bool) (loop_state : LoopState) : Py.result LoopState :=
  let histories := histories loop_state in
  let feedables := feedables loop_state in
  let step := step feedables in
  let decoded_symbols := decoded_symbols histories ++ [input_symbol feedables] in
  let input_mask :=
    input_mask histories ++ [map (fun f => to_float (negb f)) (finished feedables)] in
  let decoded_symbols_in_batch := transpose_symbols decoded_symbols in
  let mask_ := input_mask in
  let embedded_inputs := embed_inputs decoded_symbols_in_batch in
  let last_layer := layer depth embedded_inputs (transpose_mask mask_) in
  let output_state := last_position (temporal_states last_layer) in
  let logits_ := project output_state in
  chosen ←
    (if sample
     then
       (* [has_finished] and [not_finished] are bound in the other branch
          only; line 390 reads [has_finished] first *)
       let next_symbols := multinomial logits_ in
       Py.Raise (Py.UnboundLocalError "has_finished")
     else
       let next_symbols := map (fun row => Z.of_nat (argmax_row row)) logits_ in
       let int_unfinished_mask :=
         map (fun f => to_int32 (negb f)) (finished feedables) in
       if (PAD_TOKEN_INDEX =? 0)%Z
       then
         let next_symbols := zip_with Z.mul next_symbols int_unfinished_mask in
         let has_just_finished :=
           map (fun s => (s =? END_TOKEN_INDEX)%Z) next_symbols in
         let has_finished := zip_with orb (finished feedables) has_just_finished in
         let not_finished := map negb has_finished in
         Py.Ok (next_symbols, has_finished, not_finished)
       else Py.Raise Py.AssertionError);
  let '(next_symbols, has_finished, not_finished) := chosen in
  let new_feedables :=
    {| step := step + 1;
       finished := has_finished;
       input_symbol := next_symbols;
       prev_logits := logits_ |} in
  let new_histories :=
    {| logits := logits histories ++ [logits_];
       decoder_outputs := decoder_outputs histories ++ [output_state];
       mask := mask histories ++ [not_finished];
       outputs := outputs histories ++ [next_symbols];
       decoded_symbols := decoded_symbols;
       input_mask := input_mask |} in
  Py.Ok {| histories := new_histories;
           constants := [];
           feedables := new_feedables |}.

(** Lines 329-330 and 425. *)
Definition get_body (train_mode sample : bool)
  : Py.result (LoopState -> Py.result LoopState) :=
  if train_mode then Py.Raise Py.AssertionError else Py.Ok (body sample).

(** [n] passes of the loop. *)
Fixpoint iterate (sample : bool) (n : nat) (loop_state : LoopState)
  : Py.result LoopState :=
  match n with
  | 0 => Py.Ok loop_state
  | S n' => ls ← body sample loop_state; iterate sample n' ls
  end.

(** The loop states that repeated application of the step function reaches
    from the initial one. *)
Inductive reachable : LoopState -> Prop :=
  | reachable_initial : reachable get_initial_loop_state
  | reachable_step sample ls ls' :
      reachable ls -> body sample ls = Py.Ok ls' -> reachable ls'.

(** Every history is as long as the step counter says. *)
Definition histories_in_step (ls : LoopState) : Prop :=
  let h := histories ls in
  let n := step (feedables ls) in
  length (logits h) = n /\ length (decoder_outputs h) = n /\
  length (mask h) = n /\ length (outputs h) = n /\
  length (decoded_symbols h) = n /\ length (input_mask h) = n.

(** A pass adds one to the counter and one slice to every history. *)
Definition grows_by_one (ls ls' : LoopState) : Prop :=
  step (feedables ls') = S (step (feedables ls))
  /\ length (logits (histories ls')) = S (length (logits (histories ls)))
  /\ length (decoder_outputs (histories ls'))
     = S (length (decoder_outputs (histories ls)))
  /\ length (mask (histories ls')) = S (length (mask (histories ls)))
  /\ length (outputs (histories ls')) = S (length (outputs (histories ls)))
  /\ length (decoded_symbols (histories ls'))
     = S (length (decoded_symbols (histories ls)))
  /\ length (input_mask (histories ls')) = S (length (input_mask (histories ls))).

End Methods.

(** ** A decoder of two sequences over a vocabulary of four *)

(** Index of the first largest entry of a row. *)
Fixpoint toy_argmax_from (best : Z) (best_at here : nat) (row : list Z) : nat :=
  match row with
  | [] => best_at
  | x :: row' =>
      if (best <? x)%Z then toy_argmax_from x here (S here) row'
      else toy_argmax_from best best_at (S here) row'
  end.

Definition toy_argmax (row : list Z) : nat :=
  match row with
  | [] => 0
  | x :: row' => toy_argmax_from x 0 1 row'
  end.

(** After the start symbol 1 the toy model prefers symbol 3, after anything
    else the end symbol 2. *)
Definition toy_row (s : Z) : list Z :=
  if (s =? 1)%Z then [0; 0; 0; 1]%Z else [0; 0; 1; 0]%Z.

Definition toy_last (symbols : list (list Z)) (i : nat) : Z :=
  List.last (nth i symbols []) 0%Z.

Definition toy_transpose {A : Type} (d : A) (rows : list (list A)) : list (list A) :=
  map (fun i => map (fun row => nth i row d) rows) (seq 0 2).

Definition toy : @Decoder ZOps := {|
  states := list (list Z);
  hidden := Z * Z;
  depth := 1;
  n_heads_self := 1;
  n_heads_enc := 1;
  batch_size := 2;
  go_symbols := [1; 3]%Z;
  encoder_states := [];
  encoder_mask := [] : list (list (@scalar ZOps));
  PAD_TOKEN_INDEX := 0%Z;
  END_TOKEN_INDEX := 2%Z;
  layer_norm := fun _ x => x;
  attention := fun _ q _ _ (_ : list (list (@scalar ZOps))) _ _ => q;
  dropout := fun x => x;
  dense := fun _ _ _ x => x;
  add := fun _ residual => residual;
  embed_inputs := fun symbols => symbols;
  transpose_symbols := toy_transpose 0%Z;
  transpose_mask := @toy_transpose (@scalar ZOps) 0%Z;
  last_position := fun st => (toy_last st 0, toy_last st 1);
  project := fun h => [toy_row h.1; toy_row h.2] : list (list (@scalar ZOps));
  argmax_row := toy_argmax : list (@scalar ZOps) -> nat;
  multinomial := fun lg : list (list (@scalar ZOps)) =>
                   map (fun row => [Z.of_nat (toy_argmax row)]) lg
|}.

(** The loop state after [n] greedy passes. *)
Definition toy_state (n : nat) : @LoopState ZOps toy :=
  match @iterate ZOps toy false n (@get_initial_loop_state ZOps toy) with
  | Py.Ok ls => ls
  | Py.Raise _ => @get_initial_loop_state ZOps toy
  end.


Section Properties.
Context {O : TensorOps} {self : Decoder}.

Lemma layer_mask inputs mask_ :
  forall L, temporal_mask (layer L inputs mask_) = mask_.
Proof.
  destruct L; reflexivity.
Qed.

Lemma layer_next inputs mask_ L :
  layer (S L) inputs mask_ = next_layer L (layer L inputs mask_).
Proof.
  unfold next_layer. cbn [layer].
  unfold self_attention_sublayer, encoder_attention_sublayer,
    feedforward_sublayer, pre_norm_residual.
  rewrite !layer_mask. reflexivity.
Qed.

(** C8.  The stack is defined by recursion on the level.  Level 0 is the
    embedded input itself; level L+1 is built from level L alone, by three
    residual sublayers each preceded by layer normalization (self-attention
    with the causal mask, attention over the encoder without it, feed-forward);
    and one more layer normalization is applied to the output exactly when the
    level is the configured depth. *)
Theorem layer_stack_recursion inputs mask_ :
  layer 0 inputs mask_ = {| temporal_states := inputs; temporal_mask := mask_ |}
  /\ (forall L, layer (S L) inputs mask_ = next_layer L (layer L inputs mask_))
  /\ (forall L,
        layer L inputs mask_
        = foldl (fun prev n => next_layer n prev)
                {| temporal_states := inputs; temporal_mask := mask_ |} (seq 0 L))
  /\ (forall L,
        let c :=
          feedforward_sublayer (layer_scope L feedforward)
            (encoder_attention_sublayer (layer_scope L encdec_attention)
               (self_attention_sublayer (layer_scope L self_attention)
                  (layer L inputs mask_))) in
        temporal_states (layer (S L) inputs mask_)
        = if (depth =? S L)%nat then layer_norm decoder_scope c else c).
Proof.
  split; [reflexivity|]. split; [apply layer_next|]. split.
  - induction L as [|L IH]; [reflexivity|].
    rewrite seq_S, foldl_app, <- IH. cbn [foldl]. apply layer_next.
  - intros L. reflexivity.
Qed.

(** ** One pass of the loop *)

(** The greedy branch succeeds when the padding index is 0. *)
Lemma greedy_body_ok ls :
  PAD_TOKEN_INDEX = 0%Z -> exists ls', body false ls = Py.Ok ls'.
Proof.
  intros Hpad. unfold body. cbn. rewrite Hpad. cbn. eexists. reflexivity.
Qed.

Lemma sampling_body_raises ls :
  body true ls = Py.Raise (Py.UnboundLocalError "has_finished").
Proof.
  reflexivity.
Qed.

(** What a successful pass leaves. *)
Lemma body_ok_inv sample ls ls' :
  body sample ls = Py.Ok ls' ->
  sample = false /\ PAD_TOKEN_INDEX = 0%Z /\
  exists logits_ output_state next_symbols has_finished,
    length logits_ = length (project output_state)
    /\ next_symbols
       = zip_with Z.mul (map (fun row => Z.of_nat (argmax_row row)) logits_)
                  (map (fun f => to_int32 (negb f)) (finished (feedables ls)))
    /\ has_finished
       = zip_with orb (finished (feedables ls))
                  (map (fun s => (s =? END_TOKEN_INDEX)%Z) next_symbols)
    /\ logits_ = project output_state
    /\ ls' = {| histories :=
                  {| logits := logits (histories ls) ++ [logits_];
                     decoder_outputs := decoder_outputs (histories ls) ++ [output_state];
                     mask := mask (histories ls) ++ [map negb has_finished];
                     outputs := outputs (histories ls) ++ [next_symbols];
                     decoded_symbols :=
                       decoded_symbols (histories ls) ++ [input_symbol (feedables ls)];
                     input_mask :=
                       input_mask (histories ls)
                       ++ [map (fun f => to_float (negb f)) (finished (feedables ls))] |};
                constants := [];
                feedables :=
                  {| step := step (feedables ls) + 1;
                     finished := has_finished;
                     input_symbol := next_symbols;
                     prev_logits := logits_ |} |}.
Proof.
  unfold body. destruct sample; cbn; [discriminate|].
  destruct (PAD_TOKEN_INDEX =? 0)%Z eqn:Hpad; cbn; [|discriminate].
  intros H. injection H as <-. split; [reflexivity|].
  split; [apply Z.eqb_eq; exact Hpad|].
  do 4 eexists. repeat split; reflexivity.
Qed.

Lemma body_appends sample ls ls' :
  body sample ls = Py.Ok ls' -> grows_by_one ls ls'.
Proof.
  intros H. apply body_ok_inv in H as (_ & _ & lg & os & ns & hf & _ & _ & _ & _ & ->).
  unfold grows_by_one. cbn. rewrite !length_app. cbn. repeat split; lia.
Qed.

(** C9.  In every loop state reached from the initial one by repeated
    application of the step function, each of the six histories (logits,
    decoder outputs, mask, outputs, decoded symbols, input mask) is as long as
    the step counter says: the initial state has step 0 and empty histories,
    and a pass appends one slice to each history and adds one to the
    counter. *)
Theorem history_lengths_equal_step ls :
  reachable ls ->
  histories_in_step ls
  /\ (step (feedables get_initial_loop_state) = 0
      /\ histories get_initial_loop_state
         = {| logits := []; decoder_outputs := []; mask := []; outputs := [];
              decoded_symbols := []; input_mask := [] |})
  /\ (forall sample ls', body sample ls = Py.Ok ls' -> grows_by_one ls ls').
Proof.
  intros Hreach. split; [|split; [split; reflexivity|]].
  - induction Hreach as [|sample ls ls' Hreach IH Hbody].
    + repeat split.
    + destruct IH as (H1 & H2 & H3 & H4 & H5 & H6).
      destruct (body_appends _ _ _ Hbody) as (Hs & G1 & G2 & G3 & G4 & G5 & G6).
      unfold histories_in_step. rewrite Hs, G1, G2, G3, G4, G5, G6.
      repeat split; congruence.
  - intros sample ls'. apply body_appends.
Qed.

(** ** Finished sequences *)

Lemma body_freezes sample ls ls' i :
  (forall h, length (project h) = batch_size) ->
  length (finished (feedables ls)) = batch_size ->
  finished (feedables ls) !! i = Some true ->
  body sample ls = Py.Ok ls' ->
  finished (feedables ls') !! i = Some true
  /\ length (finished (feedables ls')) = batch_size
  /\ exists row, outputs (histories ls') = outputs (histories ls) ++ [row]
                 /\ row !! i = Some PAD_TOKEN_INDEX.
Proof.
  intros Hnet Hlen Hfin H.
  apply body_ok_inv in H
    as (_ & Hpad & lg & os & ns & hf & _ & Hns & Hhf & Hlg & ->).
  assert (Hi : i < batch_size).
  { rewrite <- Hlen. apply lookup_lt_is_Some. eauto. }
  assert (Hlens : length ns = batch_size).
  { rewrite Hns, length_zip_with, !length_map, Hlg, Hnet, Hlen. lia. }
  destruct (lookup_lt_is_Some_2 lg i) as [r Hr]; [rewrite Hlg, Hnet; exact Hi|].
  assert (Hrow : ns !! i = Some 0%Z).
  { rewrite Hns, lookup_zip_with, !list_lookup_fmap, Hr, Hfin. cbn.
    rewrite Z.mul_0_r. reflexivity. }
  cbn. split; [|split].
  - rewrite Hhf, lookup_zip_with, Hfin, list_lookup_fmap, Hrow. reflexivity.
  - rewrite Hhf, length_zip_with, length_map, Hlens, Hlen. lia.
  - exists ns. split; [reflexivity|]. rewrite Hpad. exact Hrow.
Qed.

Lemma iterate_freezes i :
  (forall h, length (project h) = batch_size) ->
  forall n sample ls ls',
    length (finished (feedables ls)) = batch_size ->
    finished (feedables ls) !! i = Some true ->
    iterate sample n ls = Py.Ok ls' ->
    finished (feedables ls') !! i = Some true
    /\ exists rows, outputs (histories ls') = outputs (histories ls) ++ rows
                    /\ length rows = n
                    /\ Forall (fun row => row !! i = Some PAD_TOKEN_INDEX) rows.
Proof.
  intros Hnet. induction n as [|n IH]; intros sample ls ls' Hlen Hfin Hrun.
  - cbn in Hrun. injection Hrun as <-. split; [exact Hfin|].
    exists []. rewrite app_nil_r. auto.
  - change (iterate sample (S n) ls)
      with (Py.bind (body sample ls) (iterate sample n)) in Hrun.
    destruct (body sample ls) as [ls1|] eqn:Hbody; [|discriminate].
    cbn [Py.bind] in Hrun.
    destruct (body_freezes _ _ _ i Hnet Hlen Hfin Hbody)
      as (Hfin1 & Hlen1 & row & Hout1 & Hrow).
    destruct (IH sample ls1 ls' Hlen1 Hfin1 Hrun) as (Hfin' & rows & Hout' & Hn & Hall).
    split; [exact Hfin'|]. exists (row :: rows).
    rewrite Hout', Hout1, <- app_assoc. cbn. repeat split; auto.
Qed.

Lemma iterate_greedy_ok :
  PAD_TOKEN_INDEX = 0%Z ->
  forall n ls, exists ls', iterate false n ls = Py.Ok ls'.
Proof.
  intros Hpad. induction n as [|n IH]; intros ls.
  - exists ls. reflexivity.
  - destruct (greedy_body_ok ls Hpad) as [ls1 H1].
    destruct (IH ls1) as [ls' H']. exists ls'.
    change (iterate false (S n) ls) with (Py.bind (body false ls) (iterate false n)).
    rewrite H1. exact H'.
Qed.

(** C2.  Once [finished[i]] is true, it stays true through every later pass of
    the loop, and the output token of sequence [i] at every later step is the
    padding index.  Greedy decoding makes every one of these passes. *)
Theorem finished_is_frozen n ls i :
  PAD_TOKEN_INDEX = 0%Z ->
  (forall h, length (project h) = batch_size) ->
  length (finished (feedables ls)) = batch_size ->
  finished (feedables ls) !! i = Some true ->
  (exists ls', iterate false n ls = Py.Ok ls')
  /\ (forall sample ls',
        iterate sample n ls = Py.Ok ls' ->
        finished (feedables ls') !! i = Some true
        /\ length (outputs (histories ls')) = length (outputs (histories ls)) + n
        /\ (forall t, length (outputs (histories ls)) <= t ->
                      t < length (outputs (histories ls')) ->
                      exists row, outputs (histories ls') !! t = Some row
                                  /\ row !! i = Some PAD_TOKEN_INDEX)).
Proof.
  intros Hpad Hnet Hlen Hfin. split; [apply iterate_greedy_ok; exact Hpad|].
  intros sample ls' Hrun.
  destruct (iterate_freezes i Hnet n sample ls ls' Hlen Hfin Hrun)
    as (Hfin' & rows & Hout & Hn & Hall).
  split; [exact Hfin'|]. split; [rewrite Hout, length_app; lia|].
  intros t Hge Hlt. rewrite Hout in Hlt |- *. rewrite length_app in Hlt.
  destruct (lookup_lt_is_Some_2 rows (t - length (outputs (histories ls))))
    as [row Hrow]; [lia|].
  exists row. split.
  - rewrite lookup_app_r by lia. exact Hrow.
  - rewrite Forall_lookup in Hall. exact (Hall _ _ Hrow).
Qed.

(** C4.  Asked to sample, the step function draws the next symbols and then
    stops with [UnboundLocalError]: [has_finished] is bound in the arg-max
    branch only.  It returns no loop state, whatever the state it is given;
    the arg-max branch does. *)
Theorem sampling_step_raises ls :
  get_body false true = Py.Ok (body true)
  /\ body true ls = Py.Raise (Py.UnboundLocalError "has_finished")
  /\ get_body false false = Py.Ok (body false)
  /\ Py.is_ok (body false ls) = (PAD_TOKEN_INDEX =? 0)%Z.
Proof.
  split; [reflexivity|]. split; [reflexivity|]. split; [reflexivity|].
  unfold body. cbn. destruct (PAD_TOKEN_INDEX =? 0)%Z; reflexivity.
Qed.

End Properties.

(** ** The toy decoder at work *)

Example toy_decoding :
  outputs (histories (toy_state 3)) = [[3; 2]; [2; 0]; [0; 0]]%Z
  /\ finished (feedables (toy_state 1)) = [false; true]
  /\ finished (feedables (toy_state 3)) = [true; true]
  /\ step (feedables (toy_state 3)) = 3.
Proof. repeat split; vm_compute; reflexivity. Qed.

Lemma toy_reachable : @reachable ZOps toy (toy_state 2).
Proof.
  apply (reachable_step false (toy_state 1)).
  - apply (reachable_step false (toy_state 0)).
    + apply reachable_initial.
    + reflexivity.
  - reflexivity.
Defined.

Lemma history_lengths_equal_step_witness :
  @histories_in_step ZOps toy (toy_state 2).
Proof.
  exact (proj1 (@history_lengths_equal_step ZOps toy (toy_state 2) toy_reachable)).
Defined.

Lemma finished_is_frozen_witness :
  (exists ls', @iterate ZOps toy false 2 (toy_state 1) = Py.Ok ls')
  /\ (finished (feedables (toy_state 3)) !! 1 = Some true
      /\ length (outputs (histories (toy_state 3)))
         = length (outputs (histories (toy_state 1))) + 2
      /\ forall t, length (outputs (histories (toy_state 1))) <= t ->
                   t < length (outputs (histories (toy_state 3))) ->
                   exists row, outputs (histories (toy_state 3)) !! t = Some row
                               /\ row !! 1 = Some 0%Z).
Proof.
  pose proof (@finished_is_frozen ZOps toy 2 (toy_state 1) 1 eq_refl
                (fun h => eq_refl) eq_refl eq_refl) as [Hrun Hfrozen].
  split; [exact Hrun|].
  exact (Hfrozen false (toy_state 3) eq_refl).
Defined.

(** ** Further properties of the decoding loop *)

Section Further.
Context {O : TensorOps} {self : Decoder}.

Lemma body_feeds_back sample ls ls' :
  body sample ls = Py.Ok ls' ->
  exists row mrow,
    outputs (histories ls') = outputs (histories ls) ++ [row]
    /\ input_symbol (feedables ls') = row
    /\ decoded_symbols (histories ls')
       = decoded_symbols (histories ls) ++ [input_symbol (feedables ls)]
    /\ mask (histories ls') = mask (histories ls) ++ [mrow]
    /\ mrow = map negb (finished (feedables ls'))
    /\ input_mask (histories ls')
       = input_mask (histories ls)
         ++ [map (fun f => to_float (negb f)) (finished (feedables ls))].
Proof.
  intros H. apply body_ok_inv in H as (_ & _ & lg & os & ns & hf & _ & _ & _ & _ & ->).
  exists ns, (map negb hf). cbn. repeat split; reflexivity.
Qed.

(** Through any number of passes, the symbols fed to the network so far,
    followed by the symbol waiting to be fed, are those of the state the loop
    started from, followed by the outputs emitted since: every output is the
    next input. *)
Theorem outputs_are_fed_back n sample ls ls' :
  iterate sample n ls = Py.Ok ls' ->
  exists rows,
    length rows = n
    /\ outputs (histories ls') = outputs (histories ls) ++ rows
    /\ decoded_symbols (histories ls') ++ [input_symbol (feedables ls')]
       = (decoded_symbols (histories ls) ++ [input_symbol (feedables ls)]) ++ rows.
Proof.
  revert ls. induction n as [|n IH]; intros ls Hrun.
  - cbn in Hrun. injection Hrun as <-. exists []. rewrite !app_nil_r. auto.
  - change (iterate sample (S n) ls)
      with (Py.bind (body sample ls) (iterate sample n)) in Hrun.
    destruct (body sample ls) as [ls1|] eqn:Hbody; [|discriminate].
    cbn [Py.bind] in Hrun.
    destruct (body_feeds_back _ _ _ Hbody) as (row & mrow & Ho & Hi & Hd & _).
    destruct (IH ls1 Hrun) as (rows & Hlen & Ho' & Hd').
    exists (row :: rows). split; [cbn; lia|]. split.
    + rewrite Ho', Ho, <- app_assoc. reflexivity.
    + rewrite Hd', Hd, Hi, <- !app_assoc. reflexivity.
Qed.

(** Through any number of passes, the input mask is the mask history one step
    late: the row a pass appends to the input mask is, as floats, the row the
    pass before appended to the mask. *)
Theorem input_mask_follows_mask n sample ls ls' :
  iterate sample n ls = Py.Ok ls' ->
  exists rows,
    length rows = n
    /\ mask (histories ls') = mask (histories ls) ++ rows
    /\ input_mask (histories ls')
       ++ [map (fun f => to_float (negb f)) (finished (feedables ls'))]
       = (input_mask (histories ls)
          ++ [map (fun f => to_float (negb f)) (finished (feedables ls))])
         ++ map (map to_float) rows.
Proof.
  revert ls. induction n as [|n IH]; intros ls Hrun.
  - cbn in Hrun. injection Hrun as <-. exists []. cbn. rewrite !app_nil_r. auto.
  - change (iterate sample (S n) ls)
      with (Py.bind (body sample ls) (iterate sample n)) in Hrun.
    destruct (body sample ls) as [ls1|] eqn:Hbody; [|discriminate].
    cbn [Py.bind] in Hrun.
    destruct (body_feeds_back _ _ _ Hbody) as (row & mrow & _ & _ & _ & Hm & Hmrow & Him).
    destruct (IH ls1 Hrun) as (rows & Hlen & Hm' & Him').
    exists (mrow :: rows). split; [cbn; lia|]. split.
    + rewrite Hm', Hm, <- app_assoc. reflexivity.
    + rewrite Him', Him. cbn [map]. rewrite Hmrow, map_map, <- !app_assoc.
      reflexivity.
Qed.

(** One greedy pass, sequence by sequence: a finished sequence emits the
    padding index; an unfinished one emits the arg-max of its row of logits;
    the sequence is finished afterwards when it was before or the emitted
    symbol is the end symbol; and the mask row records the negation of
    that. *)
Theorem greedy_step_per_sequence ls ls' (i : nat) (f : bool) :
  (forall h, length (project h) = batch_size) ->
  length (finished (feedables ls)) = batch_size ->
  body false ls = Py.Ok ls' ->
  finished (feedables ls) !! i = Some f ->
  exists (row : list scalar) (tok : Z) (mrow : list bool),
    prev_logits (feedables ls') !! i = Some row
    /\ input_symbol (feedables ls') !! i = Some tok
    /\ tok = (if f then PAD_TOKEN_INDEX else Z.of_nat (argmax_row row))
    /\ finished (feedables ls') !! i = Some (f || (tok =? END_TOKEN_INDEX)%Z)
    /\ mask (histories ls') = mask (histories ls) ++ [mrow]
    /\ mrow !! i = Some (negb (f || (tok =? END_TOKEN_INDEX)%Z)).
Proof.
  intros Hnet Hlen H Hfin.
  apply body_ok_inv in H
    as (_ & Hpad & lg & os & ns & hf & _ & Hns & Hhf & Hlg & ->).
  assert (Hi : i < batch_size).
  { rewrite <- Hlen. apply lookup_lt_is_Some. eauto. }
  destruct (lookup_lt_is_Some_2 lg i) as [r Hr]; [rewrite Hlg, Hnet; exact Hi|].
  pose (tok := if f then PAD_TOKEN_INDEX else Z.of_nat (argmax_row r)).
  assert (Htok : ns !! i = Some tok).
  { rewrite Hns, lookup_zip_with, !list_lookup_fmap, Hr, Hfin. cbn. unfold tok.
    destruct f; cbn; [rewrite Hpad, Z.mul_0_r | rewrite Z.mul_1_r]; reflexivity. }
  assert (Hhfi : hf !! i = Some (f || (tok =? END_TOKEN_INDEX)%Z)).
  { rewrite Hhf, lookup_zip_with, Hfin, list_lookup_fmap, Htok. reflexivity. }
  exists r, tok, (map negb hf). cbn. repeat split; auto.
  rewrite list_lookup_fmap, Hhfi. reflexivity.
Qed.

End Further.

Lemma outputs_are_fed_back_witness :
  decoded_symbols (histories (toy_state 3)) ++ [input_symbol (feedables (toy_state 3))]
  = [[1; 3]; [3; 2]; [2; 0]; [0; 0]]%Z.
Proof.
  destruct (@outputs_are_fed_back ZOps toy 3 false (toy_state 0) (toy_state 3) eq_refl)
    as (rows & _ & Hout & Hfed).
  rewrite Hfed. apply (app_inv_head (outputs (histories (toy_state 0)))) in Hout.
  rewrite <- Hout. reflexivity.
Defined.

Lemma input_mask_follows_mask_witness :
  exists rows,
    length rows = 2
    /\ mask (histories (toy_state 3)) = mask (histories (toy_state 1)) ++ rows
    /\ input_mask (histories (toy_state 3))
       ++ [map (fun f => @to_float ZOps (negb f)) (finished (feedables (toy_state 3)))]
       = (input_mask (histories (toy_state 1))
          ++ [map (fun f => @to_float ZOps (negb f))
                  (finished (feedables (toy_state 1)))])
         ++ map (map (@to_float ZOps)) rows.
Proof.
  exact (@input_mask_follows_mask ZOps toy 2 false (toy_state 1) (toy_state 3) eq_refl).
Defined.

Lemma greedy_step_per_sequence_witness :
  exists (row : list Z) (tok : Z) (mrow : list bool),
    prev_logits (feedables (toy_state 2)) !! 0 = Some row
    /\ input_symbol (feedables (toy_state 2)) !! 0 = Some tok
    /\ tok = Z.of_nat (toy_argmax row)
    /\ finished (feedables (toy_state 2)) !! 0 = Some (false || (tok =? 2)%Z)
    /\ mask (histories (toy_state 2)) = mask (histories (toy_state 1)) ++ [mrow]
    /\ mrow !! 0 = Some (negb (false || (tok =? 2)%Z)).
Proof.
  exact (@greedy_step_per_sequence ZOps toy (toy_state 1) (toy_state 2) 0 false
           (fun h => eq_refl) eq_refl eq_refl eq_refl).
Defined.

End Transformer.

(* ===================================================================== *)
(** * train_translation.py: choosing the trainer *)
(* ===================================================================== *)

Module Driver.

(** The command-line arguments the choice of the trainer reads.
    [--mixer] is parsed by [mixer_values] into a list of integers, and is
    [None] when the option is not given. *)
Record args : Type := {
  mixer : option (list Z);
  l2_regularization : Z
}.

(** Truth value of [args.mixer] in [if args.mixer:]. *)
Definition truthy (m : option (list Z)) : bool :=
  match m with
  | None | Some [] => false
  | Some (_ :: _) => true
  end.

(** Lines 20-23: [mixer_values] on the integers between the commas. *)
Definition mixer_values (values : list Z) : Py.result (list Z) :=
  if (length values =? 2)%nat then Py.Ok values else Py.Raise Py.AssertionError.

(** A positional argument of a call. *)
Inductive value (D : Type) : Type :=
  | VDecoder (d : D)
  | VInt (z : Z).

Arguments VDecoder {D} d.
Arguments VInt {D} z.

(** [def __init__(self, decoder)] of [mixer.py]: the parameters after [self]. *)
Definition Mixer_parameters : list string := ["decoder"].

(** The message of the [TypeError] for too many positional arguments. *)
Definition arity_message (takes given : nat) : string :=
  String.append "__init__() takes "
    (String.append (NilEmpty.string_of_uint (Nat.to_uint takes))
       (String.append " positional arguments but "
          (String.append (NilEmpty.string_of_uint (Nat.to_uint given))
                         " were given"))).

Section Main.
Variables (D T : Type).
(** Lines 51-92: reading the data, building vocabularies, encoder and decoder. *)
Variable build_graph : args -> Py.result D.
(** The body of [Mixer.__init__], once the call has bound its parameters. *)
Variable Mixer_init : D -> Py.result T.
(** [CrossEntropyTrainer(decoder, l2)] of [cross_entropy_trainer.py]. *)
Variable CrossEntropyTrainer : D -> Z -> Py.result T.
(** Lines 143-158: session, feed dictionaries and [training_loop], by the
    number of training steps run. *)
Variable training_loop : T -> D -> Py.result nat.

(** The call [Mixer(...)] with positional arguments.  Python binds them to
    the parameters before the body runs and refuses a surplus with
    [TypeError]; the counts in its message include [self]. *)
Definition call_Mixer (arguments : list (value D)) : Py.result T :=
  let takes := length Mixer_parameters in
  let given := length arguments in
  if (takes <? given)%nat
  then Py.Raise (Py.TypeError (arity_message (S takes) (S given)))
  else
    match arguments with
    | [VDecoder d] => Mixer_init d
    | [VInt _] => Py.Raise (Py.AttributeError "hidden_states")
    | _ => Py.Raise (Py.TypeError "__init__() missing 1 required positional argument: 'decoder'")
    end.

(** Lines 137-141. *)
Definition make_trainer (a : args) (decoder : D) : Py.result T :=
  if truthy (mixer a)
  then
    match mixer a with
    | Some [xent_calls; moving_calls] =>
        call_Mixer [VDecoder decoder; VInt xent_calls; VInt moving_calls]
    | _ => Py.Raise (Py.ValueError "unpack")
    end
  else CrossEntropyTrainer decoder (l2_regularization a).

(** The script from line 51 on. *)
Definition main (a : args) : Py.result nat :=
  decoder ← build_graph a;
  trainer ← make_trainer a decoder;
  training_loop trainer decoder.

End Main.

(** [--mixer 3,5] with everything before the trainer succeeding, and a
    training loop that would run a hundred steps. *)
Definition ex_args : args := {| mixer := Some [3; 5]%Z; l2_regularization := 0%Z |}.

Definition ex_main (training_loop : unit -> unit -> Py.result nat) : Py.result nat :=
  main unit unit (fun _ => Py.Ok tt) (fun _ => Py.Ok tt) (fun _ _ => Py.Ok tt)
       training_loop ex_args.


(** C10.  With [--mixer] set, the script never gets a trainer: when the graph
    has been built, the call of [Mixer] with three arguments raises
    [TypeError], its constructor taking the decoder only; so the script ends
    in an exception whatever the training loop would do, and no training step
    runs. *)
Theorem mixer_option_fails (D T : Type) (build_graph : args -> Py.result D)
    (Mixer_init : D -> Py.result T) (CrossEntropyTrainer : D -> Z -> Py.result T)
    (training_loop : T -> D -> Py.result nat) (a : args) (values : list Z) :
  mixer_values values = Py.Ok values ->
  mixer a = Some values ->
  (forall decoder,
     make_trainer D T Mixer_init CrossEntropyTrainer a decoder
     = Py.Raise (Py.TypeError "__init__() takes 2 positional arguments but 4 were given"))
  /\ (exists e,
        main D T build_graph Mixer_init CrossEntropyTrainer training_loop a
        = Py.Raise e)
  /\ (forall other_loop : T -> D -> Py.result nat,
        main D T build_graph Mixer_init CrossEntropyTrainer other_loop a
        = main D T build_graph Mixer_init CrossEntropyTrainer training_loop a).
Proof.
  intros Hparsed Hmixer.
  assert (Hlen : length values = 2).
  { unfold mixer_values in Hparsed.
    destruct (length values =? 2)%nat eqn:E; [|discriminate].
    apply Nat.eqb_eq. exact E. }
  destruct values as [|x [|y [|z values]]]; try discriminate.
  assert (Htrainer : forall decoder,
            make_trainer D T Mixer_init CrossEntropyTrainer a decoder
            = Py.Raise (Py.TypeError
                "__init__() takes 2 positional arguments but 4 were given")).
  { intros decoder. unfold make_trainer. rewrite Hmixer. reflexivity. }
  split; [exact Htrainer|]. split.
  - unfold main. destruct (build_graph a) as [decoder|e].
    + eexists. cbn. rewrite Htrainer. reflexivity.
    + exists e. reflexivity.
  - intros other_loop. unfold main. destruct (build_graph a) as [decoder|e].
    + cbn. rewrite Htrainer. reflexivity.
    + reflexivity.
Qed.

Example ex_main_raises :
  ex_main (fun _ _ => Py.Ok 100)
  = Py.Raise (Py.TypeError "__init__() takes 2 positional arguments but 4 were given").
Proof. reflexivity. Qed.

Example ex_without_mixer_trains :
  main unit unit (fun _ => Py.Ok tt) (fun _ => Py.Ok tt) (fun _ _ => Py.Ok tt)
       (fun _ _ => Py.Ok 100) {| mixer := None; l2_regularization := 0%Z |}
  = Py.Ok 100.
Proof. reflexivity. Qed.

Lemma mixer_option_fails_witness :
  (exists e, ex_main (fun _ _ => Py.Ok 100) = Py.Raise e)
  /\ (forall other_loop, ex_main other_loop = ex_main (fun _ _ => Py.Ok 100)).
Proof.
  exact (proj2 (mixer_option_fails unit unit (fun _ => Py.Ok tt) (fun _ => Py.Ok tt)
                  (fun _ _ => Py.Ok tt) (fun _ _ => Py.Ok 100) ex_args
                  [3; 5]%Z eq_refl eq_refl)).
Defined.

End Driver.

(* ===================================================================== *)
(** * train_translation.py: feed dictionaries and batches *)
(* ===================================================================== *)

Module Feeds.

(** [range(0, stop, step)] for a positive step: 0, step, 2 step, ... below
    [stop]; [fuel] bounds the number of elements. *)
Fixpoint range_up (fuel start step stop : nat) : list nat :=
  match fuel with
  | 0 => []
  | S fuel' =>
      if (start <? stop)%nat
      then start :: range_up fuel' (start + step) step stop
      else []
  end.

(** [range(0, stop, step)]: a step of 0 is refused, a negative step gives the
    empty range (the start, 0, is not above a length). *)
Definition range_0 (stop : nat) (step : Z) : Py.result (list nat) :=
  if (step =? 0)%Z then Py.Raise (Py.ValueError "range() arg 3 must not be zero")
  else if (step <? 0)%Z then Py.Ok []
  else Py.Ok (range_up stop 0 (Z.to_nat step) stop).

(** The slice [l[start:start + size]] for a start inside the list and a
    positive size. *)
Definition slice {A : Type} (l : list A) (start size : nat) : list A :=
  take size (drop start l).

(** [[l[start:start + batch_size] for start in range(0, len(l), batch_size)]]
    (lines 122-124 and 129-130). *)
Definition batches {A : Type} (l : list A) (batch_size : Z)
  : Py.result (list (list A)) :=
  starts ← range_0 (length l) batch_size;
  Py.Ok (map (fun start => slice l start (Z.to_nat batch_size)) starts).

Section FeedDict.
Context {O : TensorOps}.
(** Tokens, sentences as lists of tokens, and the tensors a vocabulary makes
    of them. *)
Variables (token W : Type).

(** The placeholders of the graph the driver feeds. *)
Record graph : Type := {
  sentence_lengths : nat;
  inputs : list nat;
  weights_ins : list nat;
  gt_inputs : list nat;
  dropout_placeholder : nat;
  training_placeholder : nat
}.

(** What a placeholder is fed. *)
Inductive fed : Type :=
  | Lengths (ns : list Z)
  | Words (t : W)
  | Weights (t : W)
  | KeepProb (p : scalar)
  | Training (b : bool).

(** [Vocabulary.sentences_to_tensor(sentences, max_len, train)] of
    [vocabulary.py], for the source and for the target vocabulary: the word
    tensors and the weight tensors, one per time step. *)
Variable src_sentences_to_tensor : list (list token) -> Z -> bool -> list W * list W.
Variable tgt_sentences_to_tensor : list (list token) -> Z -> bool -> list W * list W.
(** [postedit]. *)
Variable postedit : list token -> list token.

Variables (g : graph) (maximum_output : Z) (dropout_keep_prob : scalar).

(** [for plc, tensor in zip(plcs, tensors): fd[plc] = tensor]. *)
Definition feed_all (wrap : W -> fed) (plcs : list nat) (tensors : list W)
    (fd : gmap nat fed) : gmap nat fed :=
  foldl (fun d pt => <[pt.1 := wrap pt.2]> d) fd (Py.zip plcs tensors).

(** Lines 94-117. *)
Definition feed_dict (src_sentences tgt_sentences : list (list token))
    (train : bool) : gmap nat fed :=
  let fd : gmap nat fed := ∅ in
  let fd :=
    <[sentence_lengths g :=
        Lengths (map (fun s => (Z.min maximum_output (Z.of_nat (length s)) + 2)%Z)
                     src_sentences)]> fd in
  let src_vectors := (src_sentences_to_tensor src_sentences maximum_output train).1 in
  let fd := feed_all Words (inputs g) src_vectors fd in
  let '(tgt_vectors, weights_tensors) :=
    tgt_sentences_to_tensor tgt_sentences maximum_output train in
  let fd := feed_all Weights (weights_ins g) weights_tensors fd in
  let fd := feed_all Words (gt_inputs g) tgt_vectors fd in
  let fd :=
    if train then <[dropout_placeholder g := KeepProb dropout_keep_prob]> fd
    else <[dropout_placeholder g := KeepProb s_one]> fd in
  <[training_placeholder g := Training train]> fd.

(** Lines 120-135.  [feed_dict] is called without [train]. *)
Definition batch_feed_dict (src_sentences tgt_sentences : list (list token))
    (batch_size : Z) (train : bool)
  : Py.result (list (gmap nat fed) * list (list (list (list token)))) :=
  batched_tgt_sentences ← batches tgt_sentences batch_size;
  let batched_listed_tgt_sentences :=
    map (fun batch => map (fun sent => [postedit sent]) batch)
        batched_tgt_sentences in
  batched_src_sentences ← batches src_sentences batch_size;
  let feed_dicts :=
    map (fun st => feed_dict st.1 st.2 false)
        (Py.zip batched_src_sentences batched_tgt_sentences) in
  Py.Ok (feed_dicts, batched_listed_tgt_sentences).

(** The placeholders of the graph are pairwise different objects. *)
Definition distinct_placeholders : Prop :=
  NoDup (sentence_lengths g :: dropout_placeholder g :: training_placeholder g
         :: inputs g ++ weights_ins g ++ gt_inputs g).

End FeedDict.

(** ** Batches *)

Lemma range_up_nil fuel start step stop :
  stop <= start -> range_up fuel start step stop = [].
Proof.
  intros H. destruct fuel; [reflexivity|]. cbn [range_up].
  destruct (Nat.ltb_spec start stop); [lia|reflexivity].
Qed.

Lemma range_up_lookup step stop :
  forall fuel start k x,
    range_up fuel start step stop !! k = Some x ->
    x = start + k * step /\ x < stop.
Proof.
  induction fuel as [|fuel IH]; intros start k x H; [discriminate|].
  cbn [range_up] in H.
  destruct (Nat.ltb_spec start stop) as [Hlt|]; [|discriminate].
  destruct k as [|k]; cbn in H.
  - injection H as <-. lia.
  - apply IH in H as [-> Hx]. lia.
Qed.

Lemma range_up_concat {A : Type} (l : list A) (size : nat) :
  0 < size ->
  forall fuel start,
    start <= length l -> length l - start <= fuel ->
    concat (map (fun s => slice l s size) (range_up fuel start size (length l)))
    = drop start l.
Proof.
  intros Hsize. induction fuel as [|fuel IH]; intros start Hstart Hfuel.
  - cbn. rewrite drop_ge by lia. reflexivity.
  - cbn [range_up]. destruct (Nat.ltb_spec start (length l)) as [Hlt|Hge].
    + cbn [map concat]. unfold slice at 1.
      destruct (Nat.le_gt_cases (start + size) (length l)) as [Hin|Hout].
      * rewrite IH by lia. rewrite <- (drop_drop l size start). apply take_drop.
      * rewrite range_up_nil by lia. cbn. rewrite app_nil_r.
        apply take_ge. rewrite length_drop. lia.
    + cbn. rewrite drop_ge by lia. reflexivity.
Qed.

(** Cutting a list into batches of a positive size loses and reorders
    nothing: the batches, one after another, are the list; batch [k] starts
    at element [k * batch_size]; no batch is empty or longer than the batch
    size, and every batch but the last is full. *)
Theorem batches_partition {A : Type} (l : list A) (batch_size : Z) :
  (0 < batch_size)%Z ->
  exists bl,
    batches l batch_size = Py.Ok bl
    /\ concat bl = l
    /\ (forall k b,
          bl !! k = Some b ->
          b = slice l (k * Z.to_nat batch_size) (Z.to_nat batch_size)
          /\ 0 < length b <= Z.to_nat batch_size
          /\ (S k < length bl -> length b = Z.to_nat batch_size)).
Proof.
  intros Hpos. unfold batches, range_0.
  destruct (Z.eqb_spec batch_size 0) as [|_]; [lia|].
  destruct (Z.ltb_spec batch_size 0) as [|_]; [lia|].
  set (size := Z.to_nat batch_size). assert (Hsize : 0 < size) by lia.
  eexists. split; [reflexivity|]. split.
  - rewrite (range_up_concat l size Hsize (length l) 0) by lia. reflexivity.
  - intros k b Hb. rewrite list_lookup_fmap in Hb.
    destruct (range_up (length l) 0 size (length l) !! k) as [x|] eqn:Hx;
      [|discriminate].
    cbn in Hb. injection Hb as <-.
    destruct (range_up_lookup _ _ _ _ _ _ Hx) as [-> Hlt]. cbn [Nat.add] in *.
    split; [reflexivity|]. unfold slice. rewrite length_take, length_drop.
    split; [lia|]. intros Hnext. rewrite length_map in Hnext.
    destruct (lookup_lt_is_Some_2 (range_up (length l) 0 size (length l)) (S k) Hnext)
      as [y Hy].
    destruct (range_up_lookup _ _ _ _ _ _ Hy) as [-> Hlt']. lia.
Qed.

(** A batch size of 0 stops the batching with [ValueError]; a negative batch
    size gives no batch at all, whatever the sentences; so does an empty list
    of sentences. *)
Theorem batches_degenerate {A : Type} (l : list A) (batch_size : Z) :
  batches l 0 = Py.Raise (Py.ValueError "range() arg 3 must not be zero")
  /\ ((batch_size < 0)%Z -> batches l batch_size = Py.Ok [])
  /\ ((batch_size <> 0)%Z -> batches (@nil A) batch_size = Py.Ok []).
Proof.
  split; [reflexivity|]. split.
  - intros Hneg. unfold batches, range_0.
    destruct (Z.eqb_spec batch_size 0) as [|_]; [lia|].
    destruct (Z.ltb_spec batch_size 0) as [_|]; [reflexivity|lia].
  - intros Hnz. unfold batches, range_0.
    destruct (Z.eqb_spec batch_size 0) as [|_]; [contradiction|].
    destruct (batch_size <? 0)%Z; reflexivity.
Qed.

(** ** Feed dictionaries *)

Section Properties.
Context {O : TensorOps}.
Variables (token W : Type).
Variable src_sentences_to_tensor : list (list token) -> Z -> bool -> list W * list W.
Variable tgt_sentences_to_tensor : list (list token) -> Z -> bool -> list W * list W.
Variable postedit : list token -> list token.
Variables (g : graph) (maximum_output : Z) (dropout_keep_prob : scalar).

Local Abbreviation feed_dict :=
  (feed_dict token W src_sentences_to_tensor tgt_sentences_to_tensor g
             maximum_output dropout_keep_prob).
Local Abbreviation batch_feed_dict :=
  (batch_feed_dict token W src_sentences_to_tensor tgt_sentences_to_tensor
                   postedit g maximum_output dropout_keep_prob).

Lemma feed_all_other (wrap : W -> fed W) :
  forall plcs ts (fd : gmap nat (fed W)) p,
    p ∉ plcs -> feed_all W wrap plcs ts fd !! p = fd !! p.
Proof.
  unfold feed_all.
  induction plcs as [|q plcs IH]; intros [|t ts] fd p Hp; try reflexivity.
  cbn. rewrite IH by (intros Hin; apply Hp; right; exact Hin).
  apply lookup_insert_ne. intros ->. apply Hp. left.
Qed.

Lemma feed_all_lookup (wrap : W -> fed W) :
  forall plcs ts (fd : gmap nat (fed W)) k p,
    NoDup plcs -> plcs !! k = Some p ->
    feed_all W wrap plcs ts fd !! p
    = match ts !! k with Some t => Some (wrap t) | None => fd !! p end.
Proof.
  induction plcs as [|q plcs IH]; intros ts fd k p Hnd Hk; [discriminate|].
  apply NoDup_cons in Hnd as [Hq Hnd].
  destruct ts as [|t ts].
  - destruct k; reflexivity.
  - change (feed_all W wrap (q :: plcs) (t :: ts) fd)
      with (feed_all W wrap plcs ts (<[q := wrap t]> fd)).
    destruct k as [|k]; cbn in Hk.
    + injection Hk as ->. rewrite feed_all_other by exact Hq.
      apply lookup_insert_eq.
    + rewrite (IH ts _ k p Hnd Hk).
      change ((t :: ts) !! S k) with (ts !! k).
      destruct (ts !! k); [reflexivity|].
      apply lookup_insert_ne. intros ->.
      apply Hq. apply list_elem_of_lookup. eauto.
Qed.

(** Whatever the sentences, a feed dictionary holds the [train] flag under
    the training placeholder and, under the dropout placeholder, the
    configured keep probability when training and 1 otherwise. *)
Theorem feed_dict_flags src tgt (train : bool) :
  feed_dict src tgt train !! training_placeholder g = Some (Training W train)
  /\ (dropout_placeholder g <> training_placeholder g ->
      feed_dict src tgt train !! dropout_placeholder g
      = Some (KeepProb W (if train then dropout_keep_prob else s_one))).
Proof.
  unfold Feeds.feed_dict.
  destruct (tgt_sentences_to_tensor tgt maximum_output train) as [tv wt].
  split.
  - apply lookup_insert_eq.
  - intros Hne. rewrite lookup_insert_ne by congruence.
    destruct train; apply lookup_insert_eq.
Qed.

(** The lengths fed for the source sentences: one per sentence, the
    sentence's length cut at [maximum_output], plus 2; so at most
    [maximum_output + 2], and at least 2 when [maximum_output] is not
    negative. *)
Theorem feed_dict_sentence_lengths src tgt (train : bool) :
  distinct_placeholders g ->
  exists ns,
    feed_dict src tgt train !! sentence_lengths g = Some (Lengths W ns)
    /\ ns = map (fun s => (Z.min maximum_output (Z.of_nat (length s)) + 2)%Z) src
    /\ length ns = length src
    /\ Forall (fun n => (n <= maximum_output + 2)%Z) ns
    /\ ((0 <= maximum_output)%Z -> Forall (fun n => (2 <= n)%Z) ns).
Proof.
  intros Hd. unfold distinct_placeholders in Hd.
  apply NoDup_cons in Hd as [Hsl _].
  assert (Hsl_d : sentence_lengths g <> dropout_placeholder g).
  { intros E. apply Hsl. rewrite E. left. }
  assert (Hsl_t : sentence_lengths g <> training_placeholder g).
  { intros E. apply Hsl. rewrite E. right. left. }
  assert (Hsl_i : sentence_lengths g ∉ inputs g).
  { intros E. apply Hsl. do 2 right. apply elem_of_app. left. exact E. }
  assert (Hsl_w : sentence_lengths g ∉ weights_ins g).
  { intros E. apply Hsl. do 2 right. apply elem_of_app. right.
    apply elem_of_app. left. exact E. }
  assert (Hsl_g : sentence_lengths g ∉ gt_inputs g).
  { intros E. apply Hsl. do 2 right. apply elem_of_app. right.
    apply elem_of_app. right. exact E. }
  eexists. split; [|split; [reflexivity|split; [|split]]].
  - unfold Feeds.feed_dict.
    destruct (tgt_sentences_to_tensor tgt maximum_output train) as [tv wt].
    rewrite lookup_insert_ne by congruence.
    assert (Hdrop : forall (d : gmap nat (fed W)),
               (if train
                then <[dropout_placeholder g := KeepProb W dropout_keep_prob]> d
                else <[dropout_placeholder g := KeepProb W s_one]> d)
               !! sentence_lengths g = d !! sentence_lengths g).
    { intros d. destruct train; apply lookup_insert_ne; congruence. }
    rewrite Hdrop, !feed_all_other by assumption.
    apply lookup_insert_eq.
  - apply length_map.
  - apply Forall_map. apply Forall_forall. intros s _. cbn. lia.
  - intros Hmax. apply Forall_map. apply Forall_forall. intros s _. cbn. lia.
Qed.

(** The word placeholders are fed pairwise with the tensors of the
    vocabulary: the [k]-th input placeholder holds the [k]-th source tensor,
    and a placeholder the vocabulary returned no tensor for is left out of the
    dictionary. *)
Theorem feed_dict_inputs src tgt (train : bool) (k p : nat) :
  distinct_placeholders g ->
  inputs g !! k = Some p ->
  feed_dict src tgt train !! p
  = Words W <$> (src_sentences_to_tensor src maximum_output train).1 !! k.
Proof.
  intros Hd Hk. unfold distinct_placeholders in Hd.
  assert (Hin : p ∈ inputs g) by (apply list_elem_of_lookup; eauto).
  apply NoDup_cons in Hd as [Hsl Hd]. apply NoDup_cons in Hd as [Hdp Hd].
  apply NoDup_cons in Hd as [Htp Hd].
  apply NoDup_app in Hd as (Hnd_i & Hdisj & Hd).
  assert (Hp_sl : p <> sentence_lengths g).
  { intros E. apply Hsl. do 2 right. apply elem_of_app. left. congruence. }
  assert (Hp_d : p <> dropout_placeholder g).
  { intros E. apply Hdp. right. apply elem_of_app. left. congruence. }
  assert (Hp_t : p <> training_placeholder g).
  { intros E. apply Htp. apply elem_of_app. left. congruence. }
  assert (Hp_w : p ∉ weights_ins g).
  { intros E. apply (Hdisj p Hin). apply elem_of_app. left. exact E. }
  assert (Hp_g : p ∉ gt_inputs g).
  { intros E. apply (Hdisj p Hin). apply elem_of_app. right. exact E. }
  unfold Feeds.feed_dict.
  destruct (tgt_sentences_to_tensor tgt maximum_output train) as [tv wt].
  rewrite lookup_insert_ne by congruence.
  assert (Hdrop : forall (d : gmap nat (fed W)),
             (if train
              then <[dropout_placeholder g := KeepProb W dropout_keep_prob]> d
              else <[dropout_placeholder g := KeepProb W s_one]> d)
             !! p = d !! p).
  { intros d. destruct train; apply lookup_insert_ne; congruence. }
  rewrite Hdrop, !feed_all_other by assumption.
  rewrite (feed_all_lookup (Words W) _ _ _ k p Hnd_i Hk).
  destruct ((src_sentences_to_tensor src maximum_output train).1 !! k);
    [reflexivity|].
  cbn. rewrite lookup_insert_ne by congruence. apply lookup_empty.
Qed.

Lemma batches_length_eq {A B : Type} (l1 : list A) (l2 : list B) (batch_size : Z)
    bl1 bl2 :
  length l1 = length l2 ->
  batches l1 batch_size = Py.Ok bl1 -> batches l2 batch_size = Py.Ok bl2 ->
  length bl1 = length bl2.
Proof.
  intros Hlen. unfold batches. rewrite Hlen.
  destruct (range_0 (length l2) batch_size) as [starts|]; [|discriminate].
  cbn. intros H1 H2. injection H1 as <-. injection H2 as <-.
  rewrite !length_map. reflexivity.
Qed.

(** Batching with a positive batch size sentences that come in pairs: there
    is one feed dictionary per batch of references; the references, batch
    after batch, are the post-edited target sentences in their order, each in
    a list of its own; and every feed dictionary, whatever [train] was asked,
    is one for evaluation: training flag false and keep probability 1. *)
Theorem batch_feed_dict_never_trains src tgt (batch_size : Z) (train : bool) :
  (0 < batch_size)%Z ->
  length src = length tgt ->
  exists fds refs,
    batch_feed_dict src tgt batch_size train = Py.Ok (fds, refs)
    /\ length fds = length refs
    /\ concat refs = map (fun sent => [postedit sent]) tgt
    /\ Forall (fun fd =>
                 fd !! training_placeholder g = Some (Training W false)
                 /\ (dropout_placeholder g <> training_placeholder g ->
                     fd !! dropout_placeholder g = Some (KeepProb W s_one)))
              fds.
Proof.
  intros Hpos Hlen.
  destruct (batches_partition tgt batch_size Hpos) as (bt & Hbt & Hcat & _).
  destruct (batches_partition src batch_size Hpos) as (bs & Hbs & _ & _).
  unfold Feeds.batch_feed_dict. rewrite Hbt. cbn. rewrite Hbs. cbn.
  do 2 eexists. split; [reflexivity|]. split; [|split].
  - rewrite !length_map.
    assert (Hz : forall (X Y : Type) (xs : list X) (ys : list Y),
               length xs = length ys -> length (Py.zip xs ys) = length ys).
    { induction xs as [|x xs IHx]; intros [|y ys] H; try discriminate; [reflexivity|].
      cbn in *. rewrite IHx by lia. reflexivity. }
    apply Hz. apply (batches_length_eq src tgt batch_size); assumption.
  - transitivity (map (fun sent => [postedit sent]) (concat bt));
      [|rewrite Hcat; reflexivity].
    clear. induction bt as [|b bt IH]; [reflexivity|].
    cbn. rewrite IH, map_app. reflexivity.
  - apply Forall_map. apply Forall_forall. intros [s t] _. cbn.
    apply feed_dict_flags.
Qed.

End Properties.

(** ** A graph with two time steps *)

Definition ex_graph : graph := {|
  sentence_lengths := 0;
  inputs := [3; 4];
  weights_ins := [5; 6];
  gt_inputs := [7; 8];
  dropout_placeholder := 1;
  training_placeholder := 2
|}.

(** A toy vocabulary: one tensor per time step, holding the sentences cut at
    that step's word, and [false] for the weights. *)
Definition ex_to_tensor (sentences : list (list nat)) (max_len : Z) (train : bool)
  : list (list nat) * list (list nat) :=
  ([map (fun s => nth 0 s 0) sentences; map (fun s => nth 1 s 0) sentences],
   [map (fun _ => 1) sentences; map (fun _ => 1) sentences]).

Lemma ex_graph_distinct : distinct_placeholders ex_graph.
Proof.
  unfold distinct_placeholders. cbn.
  apply NoDup_ListNoDup.
  repeat (constructor; [cbn; intuition discriminate|]). constructor.
Qed.

Lemma batches_partition_witness :
  exists bl,
    batches [1; 2; 3; 4; 5; 6; 7] 3 = Py.Ok bl
    /\ concat bl = [1; 2; 3; 4; 5; 6; 7]
    /\ (forall k b,
          bl !! k = Some b ->
          b = slice [1; 2; 3; 4; 5; 6; 7] (k * 3) 3
          /\ 0 < length b <= 3
          /\ (S k < length bl -> length b = 3)).
Proof.
  apply (batches_partition [1; 2; 3; 4; 5; 6; 7] 3). lia.
Defined.

Example ex_batches :
  batches [1; 2; 3; 4; 5; 6; 7] 3 = Py.Ok [[1; 2; 3]; [4; 5; 6]; [7]].
Proof. reflexivity. Qed.

Lemma feed_dict_sentence_lengths_witness :
  exists ns,
    @feed_dict ZOps nat (list nat) ex_to_tensor ex_to_tensor ex_graph 2 5%Z
               [[11; 12; 13]; [14]] [[21]; [22; 23]] true
    !! 0 = Some (Lengths (list nat) ns)
    /\ ns = [4; 3]%Z.
Proof.
  destruct (@feed_dict_sentence_lengths ZOps nat (list nat) ex_to_tensor ex_to_tensor
              ex_graph 2 5%Z [[11; 12; 13]; [14]] [[21]; [22; 23]] true
              ex_graph_distinct) as (ns & Hfd & Hns & _).
  exists ns. split; [exact Hfd|]. rewrite Hns. reflexivity.
Defined.

Lemma feed_dict_inputs_witness :
  @feed_dict ZOps nat (list nat) ex_to_tensor ex_to_tensor ex_graph 2 5%Z
             [[11; 12; 13]; [14]] [[21]; [22; 23]] true !! 4
  = Some (Words (list nat) [12; 0]).
Proof.
  apply (@feed_dict_inputs ZOps nat (list nat) ex_to_tensor ex_to_tensor
           ex_graph 2 5%Z [[11; 12; 13]; [14]] [[21]; [22; 23]] true 1 4
           ex_graph_distinct eq_refl).
Defined.

Lemma batch_feed_dict_never_trains_witness :
  exists fds refs,
    @batch_feed_dict ZOps nat (list nat) ex_to_tensor ex_to_tensor (fun s => s)
      ex_graph 2 5%Z [[11]; [12]; [13]] [[21]; [22]; [23]] 2 true
    = Py.Ok (fds, refs)
    /\ length fds = length refs
    /\ concat refs = [[[21]]; [[22]]; [[23]]]
    /\ Forall (fun fd =>
                 fd !! 2 = Some (@Training ZOps (list nat) false)
                 /\ (1 <> 2 -> fd !! 1 = Some (@KeepProb ZOps (list nat) 1%Z)))
              fds.
Proof.
  apply (@batch_feed_dict_never_trains ZOps nat (list nat) ex_to_tensor ex_to_tensor
           (fun s => s) ex_graph 2 5%Z [[11]; [12]; [13]] [[21]; [22]; [23]] 2 true).
  - lia.
  - reflexivity.
Defined.

End Feeds.

(* ===================================================================== *)
(** * train_translation.py: the parsers of the command-line options *)
(* ===================================================================== *)

Module Cli.
Import Stdlib.Strings.Ascii.

(** [string.split(sep)] for a separator of one character: the fields between
    the occurrences of the separator, of which there is always at least one
    (the empty string gives one empty field). *)
Fixpoint split (s : string) (sep : Ascii.ascii) : list string :=
  match s with
  | EmptyString => [EmptyString]
  | String c s' =>
      if Ascii.eqb c sep then EmptyString :: split s' sep
      else match split s' sep with
           | field :: fields => String c field :: fields
           | [] => [String c EmptyString]
           end
  end.

(** [sep in s]. *)
Fixpoint contains (sep : Ascii.ascii) (s : string) : bool :=
  match s with
  | EmptyString => false
  | String c s' => Ascii.eqb c sep || contains sep s'
  end.

(** The number of occurrences of [sep] in [s]. *)
Fixpoint occurrences (sep : Ascii.ascii) (s : string) : nat :=
  match s with
  | EmptyString => 0
  | String c s' => (if Ascii.eqb c sep then 1 else 0) + occurrences sep s'
  end.

(** The list comprehension [[f(x) for x in xs]]: the first exception ends
    it. *)
Fixpoint comprehension {A B : Type} (f : A -> Py.result B) (xs : list A)
  : Py.result (list B) :=
  match xs with
  | [] => Py.Ok []
  | x :: xs' => y ← f x; ys ← comprehension f xs'; Py.Ok (y :: ys)
  end.

Section Parsers.
(** [int(s)] on a string: the integer, or [ValueError]. *)
Variable int : string -> Py.result Z.

(** Lines 16-18. *)
Definition shape (string : String.string) : Py.result (list Z) :=
  comprehension int (split string "x"%char).

(** Lines 20-23. *)
Definition mixer_values (string : String.string) : Py.result (list Z) :=
  values ← comprehension int (split string ","%char);
  if (length values =? 2)%nat then Py.Ok values else Py.Raise Py.AssertionError.

End Parsers.

(** ** Properties *)

Lemma split_nonempty s sep : split s sep <> [].
Proof.
  destruct s as [|c s]; cbn; [discriminate|].
  destruct (Ascii.eqb c sep); [discriminate|].
  destruct (split s sep); discriminate.
Qed.

Lemma split_length s sep : length (split s sep) = S (occurrences sep s).
Proof.
  induction s as [|c s IH]; [reflexivity|]. cbn.
  destruct (Ascii.eqb c sep); cbn; [rewrite IH; reflexivity|].
  destruct (split s sep) as [|f fs] eqn:E; cbn in *; [discriminate|exact IH].
Qed.

Lemma split_join s sep : String.concat (String sep EmptyString) (split s sep) = s.
Proof.
  induction s as [|c s IH]; [reflexivity|]. cbn [split].
  destruct (Ascii.eqb_spec c sep) as [->|Hne].
  - pose proof (split_nonempty s sep) as Hn.
    destruct (split s sep) as [|f fs]; [contradiction|].
    cbn [String.concat]. cbn [String.append]. rewrite <- IH. reflexivity.
  - pose proof (split_nonempty s sep) as Hn.
    destruct (split s sep) as [|f fs]; [contradiction|].
    rewrite <- IH. destruct fs; reflexivity.
Qed.

Lemma split_fields s sep :
  Forall (fun field => contains sep field = false) (split s sep).
Proof.
  induction s as [|c s IH]; cbn [split].
  - repeat constructor.
  - destruct (Ascii.eqb c sep) eqn:E.
    + constructor; [reflexivity|exact IH].
    + destruct (split s sep) as [|f fs].
      * repeat constructor. cbn. rewrite E. reflexivity.
      * apply Forall_cons in IH as [Hf Hfs]. constructor; [|exact Hfs].
        cbn. rewrite E. exact Hf.
Qed.

Lemma split_no_sep s sep : contains sep s = false -> split s sep = [s].
Proof.
  induction s as [|c s IH]; [reflexivity|]. cbn.
  destruct (Ascii.eqb c sep); [discriminate|]. cbn. intros H.
  rewrite (IH H). reflexivity.
Qed.

Lemma split_app s1 s2 sep :
  contains sep s1 = false ->
  split (String.append s1 (String sep s2)) sep = s1 :: split s2 sep.
Proof.
  induction s1 as [|c s1 IH].
  - intros _. change (split (String sep s2) sep = EmptyString :: split s2 sep).
    cbn [split]. rewrite Ascii.eqb_refl. reflexivity.
  - change (String.append (String c s1) (String sep s2))
      with (String c (String.append s1 (String sep s2))).
    cbn [split contains].
    destruct (Ascii.eqb c sep); [discriminate|]. cbn [orb]. intros H.
    rewrite (IH H). reflexivity.
Qed.

Lemma comprehension_spec {A B : Type} (f : A -> Py.result B) xs ys :
  comprehension f xs = Py.Ok ys <-> Forall2 (fun x y => f x = Py.Ok y) xs ys.
Proof.
  revert ys. induction xs as [|x xs IH]; intros ys; cbn.
  - split.
    + intros H. injection H as <-. constructor.
    + intros H. apply Forall2_nil_inv_l in H as ->. reflexivity.
  - destruct (f x) as [y|e] eqn:Ex; cbn.
    + destruct (comprehension f xs) as [ys'|e] eqn:Exs; cbn.
      * split.
        -- intros H. injection H as <-. constructor; [exact Ex|].
           apply IH. reflexivity.
        -- intros H. apply Forall2_cons_inv_l in H as (y' & ys'' & Hy & Hys & ->).
           apply IH in Hys. congruence.
      * split; [discriminate|].
        intros H. apply Forall2_cons_inv_l in H as (y' & ys'' & Hy & Hys & ->).
        apply IH in Hys. discriminate.
    + split; [discriminate|].
      intros H. apply Forall2_cons_inv_l in H as (y' & ys'' & Hy & Hys & ->).
      congruence.
Qed.

Lemma comprehension_first_error {A B : Type} (f : A -> Py.result B) pre x post ys e :
  comprehension f pre = Py.Ok ys -> f x = Py.Raise e ->
  comprehension f (pre ++ x :: post) = Py.Raise e.
Proof.
  revert ys. induction pre as [|p pre IH]; intros ys Hpre Hx; cbn.
  - rewrite Hx. reflexivity.
  - cbn in Hpre. destruct (f p) as [y|]; [|discriminate]. cbn in *.
    destruct (comprehension f pre) as [ys'|] eqn:E; [|discriminate].
    rewrite (IH ys' eq_refl Hx). reflexivity.
Qed.

Section Properties.
Variable int : string -> Py.result Z.

(** [mixer_values] returns exactly on two integers with one comma between
    them, and then returns the two integers in their order. *)
Theorem mixer_values_accepts (s : string) (values : list Z) :
  mixer_values int s = Py.Ok values
  <-> exists sa sb a b,
        s = String.append sa (String ","%char sb)
        /\ contains ","%char sa = false /\ contains ","%char sb = false
        /\ int sa = Py.Ok a /\ int sb = Py.Ok b
        /\ values = [a; b].
Proof.
  unfold mixer_values. split.
  - destruct (comprehension int (split s ","%char)) as [vs|] eqn:E; [|discriminate].
    cbn. destruct (Nat.eqb_spec (length vs) 2) as [Hlen|]; [|discriminate].
    intros H. injection H as <-.
    apply comprehension_spec in E.
    pose proof (split_join s ","%char) as Hjoin.
    pose proof (split_fields s ","%char) as Hfields.
    destruct vs as [|a [|b [|? ?]]]; try discriminate.
    apply Forall2_cons_inv_r in E as (sa & fs & Ha & E & Hs).
    apply Forall2_cons_inv_r in E as (sb & fs' & Hb & E & ->).
    apply Forall2_nil_inv_r in E as ->.
    rewrite Hs in Hjoin, Hfields.
    apply Forall_cons in Hfields as [Hsa Hfields].
    apply Forall_cons in Hfields as [Hsb _].
    exists sa, sb, a, b. cbn in Hjoin. repeat split; auto.
  - intros (sa & sb & a & b & -> & Hsa & Hsb & Ha & Hb & ->).
    rewrite (split_app sa sb ","%char Hsa), (split_no_sep sb ","%char Hsb).
    cbn. rewrite Ha. cbn. rewrite Hb. reflexivity.
Qed.

(** How [mixer_values] fails: the first field that is no integer ends it with
    the error of [int], however many fields there are; when every field is an
    integer and their number is not two, that is when the number of commas is
    not one, it ends with [AssertionError]. *)
Theorem mixer_values_rejects (s : string) :
  (forall pre field post ys e,
      split s ","%char = pre ++ field :: post ->
      comprehension int pre = Py.Ok ys -> int field = Py.Raise e ->
      mixer_values int s = Py.Raise e)
  /\ (forall values,
        comprehension int (split s ","%char) = Py.Ok values ->
        occurrences ","%char s <> 1 ->
        mixer_values int s = Py.Raise Py.AssertionError).
Proof.
  split.
  - intros pre field post ys e Hs Hpre Hf. unfold mixer_values.
    rewrite Hs, (comprehension_first_error int pre field post ys e Hpre Hf).
    reflexivity.
  - intros values Hvs Hocc. unfold mixer_values. rewrite Hvs. cbn.
    apply comprehension_spec in Hvs. apply Forall2_length in Hvs.
    rewrite split_length in Hvs.
    destruct (Nat.eqb_spec (length values) 2); [lia|reflexivity].
Qed.

(** What [shape] returns has one dimension per field between the [x]s, each
    the integer of its field, so one more than there are [x]s in the string
    and never none; and the string is the fields joined by [x]. *)
Theorem shape_dimensions (s : string) (dims : list Z) :
  shape int s = Py.Ok dims ->
  exists fields,
    String.concat "x" fields = s
    /\ Forall2 (fun field d => int field = Py.Ok d) fields dims
    /\ Forall (fun field => contains "x"%char field = false) fields
    /\ length dims = S (occurrences "x"%char s).
Proof.
  unfold shape. intros H. apply comprehension_spec in H.
  exists (split s "x"%char). split; [apply split_join|]. split; [exact H|].
  split; [apply split_fields|].
  apply Forall2_length in H. rewrite <- H. apply split_length.
Qed.

End Properties.

(** ** Examples *)

(** A toy [int]: one decimal digit. *)
Definition ex_int (s : string) : Py.result Z :=
  match s with
  | String c EmptyString =>
      let n := Ascii.nat_of_ascii c in
      if ((48 <=? n) && (n <=? 57))%nat then Py.Ok (Z.of_nat (n - 48))
      else Py.Raise (Py.ValueError "invalid literal for int() with base 10")
  | _ => Py.Raise (Py.ValueError "invalid literal for int() with base 10")
  end.

Example ex_mixer_values :
  mixer_values ex_int "3,4" = Py.Ok [3; 4]%Z
  /\ mixer_values ex_int "3" = Py.Raise Py.AssertionError
  /\ mixer_values ex_int "3,4,5" = Py.Raise Py.AssertionError
  /\ mixer_values ex_int "3,,5"
     = Py.Raise (Py.ValueError "invalid literal for int() with base 10").
Proof. repeat split. Qed.

Lemma shape_dimensions_witness :
  exists fields,
    String.concat "x" fields = "2x3x4"
    /\ Forall2 (fun field d => ex_int field = Py.Ok d) fields [2; 3; 4]%Z
    /\ Forall (fun field => contains "x"%char field = false) fields
    /\ length [2; 3; 4]%Z = S (occurrences "x"%char "2x3x4").
Proof.
  apply (shape_dimensions ex_int "2x3x4" [2; 3; 4]%Z). reflexivity.
Defined.

End Cli.

(* ===================================================================== *)
(** * Dense tensor values *)
(* ===================================================================== *)

Module NdArray.

(** The value of a tensor: its shape and its elements in row-major order. *)
Record ndarray (A : Type) : Type := {
  shape : list nat;
  data : list A
}.

Arguments Build_ndarray {A} _ _.
Arguments shape {A} _.
Arguments data {A} _.

(** The number of elements of a shape. *)
Definition numel (sh : list nat) : nat := foldr Nat.mul 1 sh.

(** The position of an index in the row-major order, and back. *)
Fixpoint flat_index (sh idx : list nat) : nat :=
  match sh, idx with
  | _ :: sh', i :: idx' => i * numel sh' + flat_index sh' idx'
  | _, _ => 0
  end.

Fixpoint unflatten (sh : list nat) (k : nat) : list nat :=
  match sh with
  | [] => []
  | _ :: sh' => k / numel sh' :: unflatten sh' (k mod numel sh')
  end.

Fixpoint in_bounds (sh idx : list nat) : bool :=
  match sh, idx with
  | [], [] => true
  | d :: sh', i :: idx' => (i <? d)%nat && in_bounds sh' idx'
  | _, _ => false
  end.

(** A tensor has as many elements as its shape says. *)
Definition wf {A : Type} (t : ndarray A) : Prop :=
  length (data t) = numel (shape t).

(** The element at an index; [None] outside the shape. *)
Definition get {A : Type} (t : ndarray A) (idx : list nat) : option A :=
  if in_bounds (shape t) idx then data t !! flat_index (shape t) idx else None.

(** All indices of a shape, in row-major order. *)
Definition indices (sh : list nat) : list (list nat) :=
  map (unflatten sh) (seq 0 (numel sh)).

(** The tensor of a shape with a given element at every index. *)
Definition build {A : Type} (sh : list nat) (f : list nat -> option A)
  : Py.result (ndarray A) :=
  match mapM f (indices sh) with
  | Some d => Py.Ok {| shape := sh; data := d |}
  | None => Py.Raise (Py.InvalidArgumentError "tensor with missing elements")
  end.

(** Python's [l[i]], negative [i] counting from the end. *)
Definition py_index {A : Type} (l : list A) (i : Z) : Py.result A :=
  let i' := if (i <? 0)%Z then (i + Z.of_nat (length l))%Z else i in
  if (i' <? 0)%Z then Py.Raise Py.IndexError
  else match l !! Z.to_nat i' with
       | Some x => Py.Ok x
       | None => Py.Raise Py.IndexError
       end.

(** [tf.reshape(t, new_shape)]: the same elements in the same order; one
    dimension may be [-1] and is then inferred. *)
Definition tf_reshape {A : Type} (t : ndarray A) (new_shape : list Z)
  : Py.result (ndarray A) :=
  let known := List.filter (fun d => negb (d =? -1)%Z) new_shape in
  let n := numel (shape t) in
  if existsb (fun d => (d <? 0)%Z) known
  then Py.Raise (Py.InvalidArgumentError "reshape: negative dimension")
  else
    let p := numel (map Z.to_nat known) in
    match length new_shape - length known with
    | 0 =>
        if (p =? n)%nat
        then Py.Ok {| shape := map Z.to_nat new_shape; data := data t |}
        else Py.Raise (Py.InvalidArgumentError "reshape: size mismatch")
    | 1 =>
        if (p =? 0)%nat
        then Py.Raise (Py.InvalidArgumentError "reshape: cannot infer dimension")
        else if (n mod p =? 0)%nat
        then Py.Ok {| shape := map (fun d => if (d =? -1)%Z then n / p else Z.to_nat d)
                                   new_shape;
                      data := data t |}
        else Py.Raise (Py.InvalidArgumentError "reshape: size mismatch")
    | _ => Py.Raise (Py.InvalidArgumentError "reshape: only one dimension can be -1")
    end.

(** The position of [a] in [perm]. *)
Fixpoint index_of (a : nat) (perm : list nat) : nat :=
  match perm with
  | [] => 0
  | p :: perm' => if (p =? a)%nat then 0 else S (index_of a perm')
  end.

(** [tf.transpose(t, perm)]: dimension [j] of the result is dimension
    [perm[j]] of [t]. *)
Definition tf_transpose {A : Type} (t : ndarray A) (perm : list nat)
  : Py.result (ndarray A) :=
  let rank := length (shape t) in
  if negb ((length perm =? rank)%nat
           && forallb (fun a => existsb (Nat.eqb a) perm) (seq 0 rank))
  then Py.Raise (Py.ValueError "transpose: perm is no permutation of the dimensions")
  else
    build (map (fun p => nth p (shape t) 0) perm)
          (fun idx => get t (map (fun a => nth (index_of a perm) idx 0) (seq 0 rank))).

(** [tf.transpose(t)]: the dimensions reversed. *)
Definition tf_transpose_default {A : Type} (t : ndarray A) : Py.result (ndarray A) :=
  tf_transpose t (rev (seq 0 (length (shape t)))).

(** [tf.expand_dims(t, axis)] for an axis that is not negative. *)
Definition tf_expand_dims {A : Type} (t : ndarray A) (axis : nat)
  : Py.result (ndarray A) :=
  if (length (shape t) <? axis)%nat
  then Py.Raise (Py.ValueError "expand_dims: axis out of range")
  else Py.Ok {| shape := take axis (shape t) ++ 1 :: drop axis (shape t);
                data := data t |}.

(** [tf.tile(t, multiples)]. *)
Definition tf_tile {A : Type} (t : ndarray A) (multiples : list nat)
  : Py.result (ndarray A) :=
  if negb (length multiples =? length (shape t))%nat
  then Py.Raise (Py.ValueError "tile: one multiple per dimension expected")
  else
    build (zip_with Nat.mul (shape t) multiples)
          (fun idx => get t (zip_with Nat.modulo idx (shape t))).

(** The tensor of a list that holds position [i] along [axis], and the
    position in it. *)
Fixpoint select {A : Type} (axis : nat) (ts : list (ndarray A)) (i : nat)
  : option (ndarray A * nat) :=
  match ts with
  | [] => None
  | t :: ts' =>
      let d := nth axis (shape t) 0 in
      if (i <? d)%nat then Some (t, i) else select axis ts' (i - d)
  end.

(** The sum of the sizes along [axis]. *)
Definition total_along {A : Type} (axis : nat) (ts : list (ndarray A)) : nat :=
  foldr (fun t n => nth axis (shape t) 0 + n) 0 ts.

(** [tf.concat(ts, axis)] for an axis that is not negative: the tensors agree
    in every other dimension. *)
Definition tf_concat {A : Type} (ts : list (ndarray A)) (axis : nat)
  : Py.result (ndarray A) :=
  match ts with
  | [] => Py.Raise (Py.ValueError "concat: no tensor to concatenate")
  | t0 :: _ =>
      if negb (axis <? length (shape t0))%nat
      then Py.Raise (Py.ValueError "concat: axis out of range")
      else if negb (forallb (fun t =>
                      bool_decide (<[axis := 0]> (shape t) = <[axis := 0]> (shape t0)))
                    ts)
      then Py.Raise (Py.ValueError "concat: shapes do not match")
      else
        build (<[axis := total_along axis ts]> (shape t0))
              (fun idx =>
                 match select axis ts (nth axis idx 0) with
                 | Some (t, i) => get t (<[axis := i]> idx)
                 | None => None
                 end)
  end.

(** [t[:-1]]: all but the last position of the first dimension. *)
Definition all_but_last {A : Type} (t : ndarray A) : Py.result (ndarray A) :=
  match shape t with
  | [] => Py.Raise (Py.ValueError "slice of a scalar")
  | d :: sh' =>
      Py.Ok {| shape := (d - 1) :: sh'; data := take ((d - 1) * numel sh') (data t) |}
  end.

(** [t[:, -1, :]] of a tensor with three dimensions. *)
Definition last_of_axis_1 {A : Type} (t : ndarray A) : Py.result (ndarray A) :=
  match shape t with
  | [b; n; c] =>
      if (n =? 0)%nat
      then Py.Raise (Py.InvalidArgumentError "slice index -1 of dimension 1 out of bounds")
      else build [b; c]
                 (fun idx => match idx with
                             | [i; k] => get t [i; n - 1; k]
                             | _ => None
                             end)
  | _ => Py.Raise (Py.ValueError "slice: three dimensions expected")
  end.

Section Arithmetic.
Context {O : TensorOps}.

(** The sum over [k < n] of [x k * y k]. *)
Definition dot (n : nat) (x y : nat -> option scalar) : option scalar :=
  foldl (fun acc k =>
           a ← acc; xk ← x k; yk ← y k; Some (s_add a (s_mul xk yk)))
        (Some s_zero) (seq 0 n).

(** [tf.matmul(a, b)] of two matrices. *)
Definition tf_matmul (a b : ndarray scalar) : Py.result (ndarray scalar) :=
  match shape a, shape b with
  | [n; c], [c'; v] =>
      if negb (c =? c')%nat
      then Py.Raise (Py.InvalidArgumentError "matmul: matrix size-incompatible")
      else build [n; v]
                 (fun idx => match idx with
                             | [i; j] => dot c (fun k => get a [i; k])
                                              (fun k => get b [k; j])
                             | _ => None
                             end)
  | _, _ => Py.Raise (Py.ValueError "matmul: matrices expected")
  end.

(** The shapes of the operands of a broadcasting operation, the shorter one
    filled up with leading 1s. *)
Definition pad_shape (rank : nat) (sh : list nat) : list nat :=
  replicate (rank - length sh) 1 ++ sh.

(** The index into an operand for an index into the result. *)
Definition broadcast_index (rank : nat) (sh idx : list nat) : list nat :=
  drop (rank - length sh)
       (zip_with (fun d i => if (d =? 1)%nat then 0 else i) (pad_shape rank sh) idx).

(** [a + b] with broadcasting. *)
Definition tf_add (a b : ndarray scalar) : Py.result (ndarray scalar) :=
  let rank := Nat.max (length (shape a)) (length (shape b)) in
  let sa := pad_shape rank (shape a) in
  let sb := pad_shape rank (shape b) in
  if negb (forallb (fun '(da, db) => (da =? db)%nat || (da =? 1)%nat || (db =? 1)%nat)
                   (Py.zip sa sb))
  then Py.Raise (Py.InvalidArgumentError "Incompatible shapes")
  else
    build (zip_with (fun da db => if (da =? 1)%nat then db else da) sa sb)
          (fun idx =>
             x ← get a (broadcast_index rank (shape a) idx);
             y ← get b (broadcast_index rank (shape b) idx);
             Some (s_add x y)).

End Arithmetic.

(** ** Indices and elements *)

Lemma numel_cons d sh : numel (d :: sh) = d * numel sh.
Proof. reflexivity. Qed.

Lemma flat_index_lt sh :
  forall idx, in_bounds sh idx = true -> flat_index sh idx < numel sh.
Proof.
  induction sh as [|d sh IH]; intros [|i idx] H; try discriminate;
    cbn [in_bounds flat_index] in *.
  - cbn. lia.
  - apply andb_true_iff in H as [Hi H]. apply Nat.ltb_lt in Hi.
    specialize (IH idx H). rewrite numel_cons.
    pose proof (Nat.mul_le_mono_r (S i) d (numel sh) ltac:(lia)). lia.
Qed.

Lemma unflatten_flat sh :
  forall idx, in_bounds sh idx = true -> unflatten sh (flat_index sh idx) = idx.
Proof.
  induction sh as [|d sh IH]; intros [|i idx] H; try discriminate;
    cbn [in_bounds flat_index unflatten] in *.
  - reflexivity.
  - apply andb_true_iff in H as [Hi H].
    pose proof (flat_index_lt sh idx H) as Hlt.
    assert (Hn : numel sh <> 0) by lia.
    rewrite Nat.div_add_l by exact Hn.
    rewrite Nat.div_small by exact Hlt.
    rewrite Nat.add_0_r. f_equal.
    rewrite Nat.add_comm, Nat.Div0.mod_add, Nat.mod_small by exact Hlt.
    apply IH, H.
Qed.

Lemma unflatten_in_bounds sh :
  forall k, k < numel sh -> in_bounds sh (unflatten sh k) = true.
Proof.
  induction sh as [|d sh IH]; intros k Hk; cbn [in_bounds unflatten];
    [reflexivity|].
  rewrite numel_cons in Hk.
  assert (Hn : numel sh <> 0) by (intros E; rewrite E in Hk; lia).
  apply andb_true_iff. split.
  - apply Nat.ltb_lt. apply Nat.Div0.div_lt_upper_bound. lia.
  - apply IH. apply Nat.mod_upper_bound, Hn.
Qed.

Lemma get_is_Some {A : Type} (t : ndarray A) idx :
  wf t -> in_bounds (shape t) idx = true -> is_Some (get t idx).
Proof.
  intros Hwf Hb. unfold get. rewrite Hb. apply lookup_lt_is_Some.
  rewrite Hwf. apply flat_index_lt, Hb.
Qed.

Lemma get_flat {A : Type} (t : ndarray A) idx :
  in_bounds (shape t) idx = true -> get t idx = data t !! flat_index (shape t) idx.
Proof. intros Hb. unfold get. rewrite Hb. reflexivity. Qed.

Lemma build_spec {A : Type} sh (f : list nat -> option A) :
  (forall idx, in_bounds sh idx = true -> is_Some (f idx)) ->
  exists t,
    build sh f = Py.Ok t /\ shape t = sh /\ wf t
    /\ (forall idx, in_bounds sh idx = true -> get t idx = f idx).
Proof.
  intros Hf. unfold build.
  destruct (mapM f (indices sh)) as [d|] eqn:E.
  - apply mapM_Some_1 in E.
    assert (Hlen : length d = numel sh).
    { rewrite <- (Forall2_length _ _ _ E). unfold indices.
      rewrite length_map, length_seq. reflexivity. }
    eexists. split; [reflexivity|]. split; [reflexivity|]. split; [exact Hlen|].
    intros idx Hb. rewrite get_flat by exact Hb. cbn.
    pose proof (flat_index_lt sh idx Hb) as Hlt.
    assert (Hk : indices sh !! flat_index sh idx = Some idx).
    { unfold indices. rewrite list_lookup_fmap, lookup_seq_lt by exact Hlt.
      cbn. rewrite unflatten_flat by exact Hb. reflexivity. }
    destruct (Forall2_lookup_l _ _ _ _ _ E Hk) as (y & Hy & Hfy).
    rewrite Hy, Hfy. reflexivity.
  - exfalso. assert (Hsome : is_Some (mapM f (indices sh))).
    { apply mapM_is_Some. apply Forall_forall. intros idx Hin.
      unfold indices in Hin. apply list_elem_of_fmap in Hin as (k & -> & Hk).
      apply elem_of_seq in Hk. apply Hf, unflatten_in_bounds. lia. }
    rewrite E in Hsome. destruct Hsome as [? ?]. discriminate.
Qed.

Lemma in_bounds_nil idx : in_bounds [] idx = true -> idx = [].
Proof. destruct idx; [reflexivity|discriminate]. Qed.

Lemma in_bounds_cons d sh idx :
  in_bounds (d :: sh) idx = true ->
  exists i idx', idx = i :: idx' /\ i < d /\ in_bounds sh idx' = true.
Proof.
  destruct idx as [|i idx']; [discriminate|]. cbn [in_bounds].
  intros H. apply andb_true_iff in H as [Hi H]. apply Nat.ltb_lt in Hi. eauto.
Qed.

Lemma in_bounds_1 a idx :
  in_bounds [a] idx = true -> exists i, idx = [i] /\ i < a.
Proof.
  intros H. apply in_bounds_cons in H as (i & idx' & -> & Hi & H).
  apply in_bounds_nil in H as ->. eauto.
Qed.

Lemma in_bounds_2 a b idx :
  in_bounds [a; b] idx = true -> exists i j, idx = [i; j] /\ i < a /\ j < b.
Proof.
  intros H. apply in_bounds_cons in H as (i & idx' & -> & Hi & H).
  apply in_bounds_1 in H as (j & -> & Hj). eauto 6.
Qed.

Lemma in_bounds_3 a b c idx :
  in_bounds [a; b; c] idx = true ->
  exists i j k, idx = [i; j; k] /\ i < a /\ j < b /\ k < c.
Proof.
  intros H. apply in_bounds_cons in H as (i & idx' & -> & Hi & H).
  apply in_bounds_2 in H as (j & k & -> & Hj & Hk). eauto 8.
Qed.

Lemma in_bounds_4 a b c d idx :
  in_bounds [a; b; c; d] idx = true ->
  exists i j k l, idx = [i; j; k; l] /\ i < a /\ j < b /\ k < c /\ l < d.
Proof.
  intros H. apply in_bounds_cons in H as (i & idx' & -> & Hi & H).
  apply in_bounds_3 in H as (j & k & l & -> & Hj & Hk & Hl). eauto 10.
Qed.

(** An index is within a shape. *)
Ltac inb :=
  cbn [in_bounds];
  repeat (apply andb_true_intro; split);
  try reflexivity; try (apply Nat.ltb_lt; lia).

(** ** The operations on tensors of the shapes the code uses *)

Lemma filter_known sh :
  List.filter (fun d => negb (d =? -1)%Z) (map Z.of_nat sh) = map Z.of_nat sh.
Proof.
  induction sh as [|d sh IH]; [reflexivity|]. cbn [map List.filter].
  destruct (Z.eqb_spec (Z.of_nat d) (-1)); [lia|]. cbn. rewrite IH. reflexivity.
Qed.

Lemma no_negative sh : existsb (fun d => (d <? 0)%Z) (map Z.of_nat sh) = false.
Proof.
  induction sh as [|d sh IH]; [reflexivity|]. cbn [map existsb].
  destruct (Z.ltb_spec (Z.of_nat d) 0); [lia|]. exact IH.
Qed.

Lemma to_nat_of_nat sh : map Z.to_nat (map Z.of_nat sh) = sh.
Proof.
  induction sh as [|d sh IH]; [reflexivity|]. cbn. rewrite Nat2Z.id, IH. reflexivity.
Qed.

(** Reshaping to a shape without [-1] of the same size. *)
Lemma reshape_exact {A : Type} (t : ndarray A) sh :
  numel sh = numel (shape t) ->
  tf_reshape t (map Z.of_nat sh) = Py.Ok {| shape := sh; data := data t |}.
Proof.
  intros Hn. unfold tf_reshape.
  rewrite filter_known, no_negative, Nat.sub_diag, !to_nat_of_nat, Hn, Nat.eqb_refl.
  reflexivity.
Qed.

(** Reshaping three dimensions to rows of the last one. *)
Lemma reshape_rows {A : Type} (t : ndarray A) b n c :
  shape t = [b; n; c] -> 0 < c ->
  tf_reshape t [-1; Z.of_nat c]%Z = Py.Ok {| shape := [b * n; c]; data := data t |}.
Proof.
  intros Hsh Hc.
  assert (Hne : (Z.of_nat c =? -1)%Z = false)
    by (destruct (Z.eqb_spec (Z.of_nat c) (-1)); [lia|reflexivity]).
  assert (Hk : List.filter (fun d => negb (d =? -1)%Z) [-1; Z.of_nat c]%Z
               = [Z.of_nat c]).
  { cbn [List.filter]. rewrite Hne. reflexivity. }
  unfold tf_reshape. rewrite Hk, Hsh.
  assert (Hpos : existsb (fun d => (d <? 0)%Z) [Z.of_nat c] = false).
  { cbn [existsb]. destruct (Z.ltb_spec (Z.of_nat c) 0); [lia|reflexivity]. }
  rewrite Hpos.
  assert (Hp : numel (map Z.to_nat [Z.of_nat c]) = c)
    by (cbn [map]; rewrite Nat2Z.id; cbn; lia).
  assert (Hn : numel [b; n; c] = (b * n) * c) by (cbn; lia).
  rewrite Hp, Hn. cbn [length Nat.sub map].
  destruct (Nat.eqb_spec c 0); [lia|].
  rewrite Nat.Div0.mod_mul, Nat.eqb_refl, Nat.div_mul, Hne, Nat2Z.id by lia.
  reflexivity.
Qed.

(** Reshaping a vector to [[1, 1, -1]]. *)
Lemma reshape_bias {A : Type} (t : ndarray A) v :
  shape t = [v] ->
  tf_reshape t [1; 1; -1]%Z = Py.Ok {| shape := [1; 1; v]; data := data t |}.
Proof.
  intros Hsh. unfold tf_reshape. rewrite Hsh.
  assert (Hn : numel [v] = v) by (cbn; lia). rewrite Hn.
  cbn. rewrite Nat.div_1_r. reflexivity.
Qed.

(** An element of a reshaped tensor is the element of the tensor at the same
    position of the row-major order. *)
Lemma get_same_position {A : Type} (t r : ndarray A) idx idx' :
  data r = data t ->
  in_bounds (shape t) idx = true -> in_bounds (shape r) idx' = true ->
  flat_index (shape r) idx' = flat_index (shape t) idx ->
  get r idx' = get t idx.
Proof.
  intros Hd Hb Hb' Hflat. rewrite !get_flat by assumption.
  rewrite Hd, Hflat. reflexivity.
Qed.

Lemma transpose_102 {A : Type} (t : ndarray A) a b c :
  shape t = [a; b; c] -> wf t ->
  exists r,
    tf_transpose t [1; 0; 2] = Py.Ok r /\ shape r = [b; a; c] /\ wf r
    /\ (forall j i k, j < b -> i < a -> k < c -> get r [j; i; k] = get t [i; j; k]).
Proof.
  intros Hsh Hwf. unfold tf_transpose. rewrite Hsh. cbn [length seq map nth].
  cbn [Nat.eqb forallb existsb andb orb negb index_of].
  match goal with |- context [build ?sh ?f] =>
    destruct (build_spec sh f) as (r & Hr & Hshr & Hwfr & Hget) end.
  - intros idx Hidx. apply in_bounds_3 in Hidx as (j & i & k & -> & Hj & Hi & Hk).
    cbn. apply get_is_Some; [exact Hwf|]. rewrite Hsh. inb.
  - exists r. split; [exact Hr|]. split; [exact Hshr|]. split; [exact Hwfr|].
    intros j i k Hj Hi Hk. rewrite Hget by inb. reflexivity.
Qed.

Lemma transpose_10 {A : Type} (t : ndarray A) a b :
  shape t = [a; b] -> wf t ->
  exists r,
    tf_transpose_default t = Py.Ok r /\ shape r = [b; a] /\ wf r
    /\ (forall j i, j < b -> i < a -> get r [j; i] = get t [i; j]).
Proof.
  intros Hsh Hwf. unfold tf_transpose_default, tf_transpose. rewrite Hsh.
  cbn [length seq map nth rev app].
  cbn [Nat.eqb forallb existsb andb orb negb index_of].
  match goal with |- context [build ?sh ?f] =>
    destruct (build_spec sh f) as (r & Hr & Hshr & Hwfr & Hget) end.
  - intros idx Hidx. apply in_bounds_2 in Hidx as (j & i & -> & Hj & Hi).
    cbn. apply get_is_Some; [exact Hwf|]. rewrite Hsh. inb.
  - exists r. split; [exact Hr|]. split; [exact Hshr|]. split; [exact Hwfr|].
    intros j i Hj Hi. rewrite Hget by inb. reflexivity.
Qed.

Lemma last_of_axis_1_spec {A : Type} (t : ndarray A) b n c :
  shape t = [b; n; c] -> wf t -> 0 < n ->
  exists r,
    last_of_axis_1 t = Py.Ok r /\ shape r = [b; c] /\ wf r
    /\ (forall i k, i < b -> k < c -> get r [i; k] = get t [i; n - 1; k]).
Proof.
  intros Hsh Hwf Hn. unfold last_of_axis_1. rewrite Hsh.
  destruct (Nat.eqb_spec n 0); [lia|].
  match goal with |- context [build ?sh ?f] =>
    destruct (build_spec sh f) as (r & Hr & Hshr & Hwfr & Hget) end.
  - intros idx Hidx. apply in_bounds_2 in Hidx as (i & k & -> & Hi & Hk).
    apply get_is_Some; [exact Hwf|]. rewrite Hsh. inb.
  - exists r. split; [exact Hr|]. split; [exact Hshr|]. split; [exact Hwfr|].
    intros i k Hi Hk. rewrite Hget by inb. reflexivity.
Qed.

Section ArithmeticProperties.
Context {O : TensorOps}.

Lemma dot_S n (x y : nat -> option scalar) :
  dot (S n) x y
  = (a ← dot n x y; xk ← x n; yk ← y n; Some (s_add a (s_mul xk yk))).
Proof. unfold dot. rewrite seq_S, foldl_app. reflexivity. Qed.

Lemma dot_ext n (x y x' y' : nat -> option scalar) :
  (forall k, k < n -> x k = x' k /\ y k = y' k) -> dot n x y = dot n x' y'.
Proof.
  induction n as [|n IH]; intros H; [reflexivity|].
  rewrite !dot_S, IH by (intros k Hk; apply H; lia).
  destruct (H n ltac:(lia)) as [-> ->]. reflexivity.
Qed.

Lemma dot_is_Some n (x y : nat -> option scalar) :
  (forall k, k < n -> is_Some (x k) /\ is_Some (y k)) -> is_Some (dot n x y).
Proof.
  induction n as [|n IH]; intros H; [cbn; eauto|].
  rewrite dot_S. destruct IH as [a ->]; [intros k Hk; apply H; lia|].
  destruct (H n ltac:(lia)) as [[xk ->] [yk ->]]. cbn. eauto.
Qed.

Lemma matmul_spec (a b : ndarray scalar) n c v :
  shape a = [n; c] -> shape b = [c; v] -> wf a -> wf b ->
  exists r,
    tf_matmul a b = Py.Ok r /\ shape r = [n; v] /\ wf r
    /\ (forall i j, i < n -> j < v ->
          get r [i; j] = dot c (fun k => get a [i; k]) (fun k => get b [k; j])).
Proof.
  intros Ha Hb Hwa Hwb. unfold tf_matmul. rewrite Ha, Hb, Nat.eqb_refl.
  cbn [negb].
  match goal with |- context [build ?sh ?f] =>
    destruct (build_spec sh f) as (r & Hr & Hshr & Hwfr & Hget) end.
  - intros idx Hidx. apply in_bounds_2 in Hidx as (i & j & -> & Hi & Hj).
    apply dot_is_Some. intros k Hk.
    split; apply get_is_Some; try assumption; [rewrite Ha|rewrite Hb]; inb.
  - exists r. split; [exact Hr|]. split; [exact Hshr|]. split; [exact Hwfr|].
    intros i j Hi Hj. rewrite Hget by inb. reflexivity.
Qed.

(** Adding a bias of shape [[1, 1, v]] to a tensor of shape [[b, n, v]]. *)
Lemma add_bias_3 (x bias : ndarray scalar) b n v :
  shape x = [b; n; v] -> shape bias = [1; 1; v] -> wf x -> wf bias ->
  exists r,
    tf_add x bias = Py.Ok r /\ shape r = [b; n; v] /\ wf r
    /\ (forall i j k, i < b -> j < n -> k < v ->
          get r [i; j; k]
          = (p ← get x [i; j; k]; q ← get bias [0; 0; k]; Some (s_add p q))).
Proof.
  intros Hx Hbias Hwx Hwb. unfold tf_add. rewrite Hx, Hbias.
  cbn [length Nat.max pad_shape Nat.sub replicate app Py.zip forallb].
  rewrite !Nat.eqb_refl, !orb_true_r. cbn [andb negb orb zip_with].
  assert (Hshape : [if (b =? 1)%nat then 1 else b; if (n =? 1)%nat then 1 else n;
                    if (v =? 1)%nat then v else v] = [b; n; v]).
  { destruct (Nat.eqb_spec b 1), (Nat.eqb_spec n 1), (Nat.eqb_spec v 1); congruence. }
  cbn [Nat.eqb] in *. rewrite Hshape.
  assert (Hidx : forall i j k, i < b -> j < n -> k < v ->
            broadcast_index 3 [b; n; v] [i; j; k] = [i; j; k]
            /\ broadcast_index 3 [1; 1; v] [i; j; k] = [0; 0; k]).
  { intros i j k Hi Hj Hk. unfold broadcast_index, pad_shape. cbn.
    destruct (Nat.eqb_spec b 1), (Nat.eqb_spec n 1), (Nat.eqb_spec v 1);
      split; repeat f_equal; lia. }
  match goal with |- context [build ?sh ?f] =>
    destruct (build_spec sh f) as (r & Hr & Hshr & Hwfr & Hget) end.
  - intros idx Hin. apply in_bounds_3 in Hin as (i & j & k & -> & Hi & Hj & Hk).
    destruct (Hidx i j k Hi Hj Hk) as [-> ->].
    destruct (get_is_Some x [i; j; k] Hwx) as [p ->]; [rewrite Hx; inb|].
    destruct (get_is_Some bias [0; 0; k] Hwb) as [q ->]; [rewrite Hbias; inb|].
    cbn. eauto.
  - exists r. split; [exact Hr|]. split; [exact Hshr|]. split; [exact Hwfr|].
    intros i j k Hi Hj Hk. rewrite Hget by inb.
    destruct (Hidx i j k Hi Hj Hk) as [-> ->]. reflexivity.
Qed.

(** Adding a bias vector to the rows of a matrix. *)
Lemma add_bias_2 (x bias : ndarray scalar) b v :
  shape x = [b; v] -> shape bias = [v] -> wf x -> wf bias ->
  exists r,
    tf_add x bias = Py.Ok r /\ shape r = [b; v] /\ wf r
    /\ (forall i k, i < b -> k < v ->
          get r [i; k] = (p ← get x [i; k]; q ← get bias [k]; Some (s_add p q))).
Proof.
  intros Hx Hbias Hwx Hwb. unfold tf_add. rewrite Hx, Hbias.
  cbn [length Nat.max pad_shape Nat.sub replicate app Py.zip forallb].
  rewrite !Nat.eqb_refl, !orb_true_r. cbn [andb negb orb zip_with].
  assert (Hshape : [if (b =? 1)%nat then 1 else b;
                    if (v =? 1)%nat then v else v] = [b; v]).
  { destruct (Nat.eqb_spec b 1), (Nat.eqb_spec v 1); congruence. }
  cbn [Nat.eqb] in *. rewrite Hshape.
  assert (Hidx : forall i k, i < b -> k < v ->
            broadcast_index 2 [b; v] [i; k] = [i; k]
            /\ broadcast_index 2 [v] [i; k] = [k]).
  { intros i k Hi Hk. unfold broadcast_index, pad_shape. cbn.
    destruct (Nat.eqb_spec b 1), (Nat.eqb_spec v 1);
      split; repeat f_equal; lia. }
  match goal with |- context [build ?sh ?f] =>
    destruct (build_spec sh f) as (r & Hr & Hshr & Hwfr & Hget) end.
  - intros idx Hin. apply in_bounds_2 in Hin as (i & k & -> & Hi & Hk).
    destruct (Hidx i k Hi Hk) as [-> ->].
    destruct (get_is_Some x [i; k] Hwx) as [p ->]; [rewrite Hx; inb|].
    destruct (get_is_Some bias [k] Hwb) as [q ->]; [rewrite Hbias; inb|].
    cbn. eauto.
  - exists r. split; [exact Hr|]. split; [exact Hshr|]. split; [exact Hwfr|].
    intros i k Hi Hk. rewrite Hget by inb.
    destruct (Hidx i k Hi Hk) as [-> ->]. reflexivity.
Qed.

End ArithmeticProperties.

(** ** Concatenation, tiling and slices *)

Lemma in_bounds_Forall2 sh :
  forall idx, in_bounds sh idx = true <-> Forall2 lt idx sh.
Proof.
  induction sh as [|d sh IH]; intros [|i idx]; cbn [in_bounds];
    try (split; [discriminate|intros H; inversion H]).
  - split; [constructor|reflexivity].
  - rewrite andb_true_iff, Nat.ltb_lt, IH. split.
    + intros [Hi H]. constructor; assumption.
    + intros H. inversion H; subst. split; assumption.
Qed.

Lemma select_spec {A : Type} axis (ts : list (ndarray A)) :
  forall i, i < total_along axis ts ->
    exists t j, select axis ts i = Some (t, j) /\ t ∈ ts
                /\ j < nth axis (shape t) 0.
Proof.
  induction ts as [|t ts IH]; intros i Hi; cbn in Hi; [lia|].
  cbn [select]. destruct (Nat.ltb_spec i (nth axis (shape t) 0)) as [Hlt|Hge].
  - exists t, i. split; [reflexivity|]. split; [left|exact Hlt].
  - destruct (IH (i - nth axis (shape t) 0)) as (t' & j & Hs & Hin & Hj).
    { fold (total_along axis ts) in Hi. lia. }
    exists t', j. split; [exact Hs|]. split; [right; exact Hin|exact Hj].
Qed.

Lemma select_app {A : Type} axis (pre : list (ndarray A)) t post c :
  c < nth axis (shape t) 0 ->
  select axis (pre ++ t :: post) (total_along axis pre + c) = Some (t, c).
Proof.
  intros Hc. induction pre as [|p pre IH]; cbn [app select total_along foldr].
  - cbn [Nat.add].
    destruct (Nat.ltb_spec c (nth axis (shape t) 0)); [reflexivity|lia].
  - fold (total_along axis pre).
    destruct (Nat.ltb_spec (nth axis (shape p) 0 + total_along axis pre + c)
                           (nth axis (shape p) 0)) as [|_]; [lia|].
    replace (nth axis (shape p) 0 + total_along axis pre + c - nth axis (shape p) 0)
      with (total_along axis pre + c) by lia.
    exact IH.
Qed.

Lemma total_along_app {A : Type} axis (ts1 ts2 : list (ndarray A)) :
  total_along axis (ts1 ++ ts2) = total_along axis ts1 + total_along axis ts2.
Proof.
  induction ts1 as [|t ts1 IH]; [reflexivity|].
  cbn [app total_along foldr]. fold (total_along axis (ts1 ++ ts2)).
  fold (total_along axis ts1). lia.
Qed.

Lemma concat_spec {A : Type} axis (t0 : ndarray A) rest (ts := t0 :: rest) :
  axis < length (shape t0) ->
  Forall (fun t => <[axis := 0]> (shape t) = <[axis := 0]> (shape t0) /\ wf t) ts ->
  exists r,
    tf_concat ts axis = Py.Ok r
    /\ shape r = <[axis := total_along axis ts]> (shape t0)
    /\ wf r
    /\ (forall idx, in_bounds (shape r) idx = true ->
          get r idx = match select axis ts (nth axis idx 0) with
                      | Some (t, i) => get t (<[axis := i]> idx)
                      | None => None
                      end).
Proof.
  intros Haxis Hall. subst ts. unfold tf_concat. set (ts := t0 :: rest) in *.
  destruct (Nat.ltb_spec axis (length (shape t0))) as [_|]; [|lia].
  cbn [negb].
  assert (Hcheck : forallb (fun t => bool_decide
                     (<[axis := 0]> (shape t) = <[axis := 0]> (shape t0))) ts = true).
  { induction Hall as [|t ts' [Ht _] _ IH]; [reflexivity|].
    cbn [forallb]. rewrite IH, bool_decide_eq_true_2 by exact Ht. reflexivity. }
  rewrite Hcheck. cbn [negb].
  match goal with |- context [build ?sh ?f] =>
    destruct (build_spec sh f) as (r & Hr & Hshr & Hwfr & Hget) end.
  - intros idx Hidx. apply in_bounds_Forall2 in Hidx.
    pose proof (Forall2_length _ _ _ Hidx) as Hlen. rewrite length_insert in Hlen.
    destruct (lookup_lt_is_Some_2 idx axis ltac:(lia)) as [c Hc].
    rewrite (nth_lookup_Some _ _ _ _ Hc).
    assert (Hlt : c < total_along axis ts).
    { apply (Forall2_lookup_lr _ _ _ axis c (total_along axis ts) Hidx Hc).
      apply list_lookup_insert_eq. exact Haxis. }
    destruct (select_spec axis ts c Hlt) as (t & j & -> & Hin & Hj).
    rewrite Forall_forall in Hall. destruct (Hall t Hin) as [Hsh Hwf].
    apply get_is_Some; [exact Hwf|]. apply in_bounds_Forall2.
    assert (Hlent : length (shape t) = length (shape t0)).
    { rewrite <- (length_insert (shape t) axis 0), Hsh. apply length_insert. }
    destruct (lookup_lt_is_Some_2 (shape t) axis ltac:(lia)) as [d Hd].
    rewrite (nth_lookup_Some _ _ _ _ Hd) in Hj.
    assert (Hshape_t : shape t
                       = <[axis := d]> (<[axis := total_along axis ts]> (shape t0))).
    { rewrite list_insert_insert_eq.
      rewrite <- (list_insert_insert_eq (shape t0) axis d 0), <- Hsh.
      rewrite list_insert_insert_eq. symmetry. apply list_insert_id, Hd. }
    rewrite Hshape_t. apply Forall2_insert; assumption.
  - exists r. split; [exact Hr|]. split; [exact Hshr|]. split; [exact Hwfr|].
    intros idx Hidx. apply Hget. rewrite <- Hshr. exact Hidx.
Qed.

Lemma tile_spec {A : Type} (t : ndarray A) multiples :
  length multiples = length (shape t) -> wf t ->
  exists r,
    tf_tile t multiples = Py.Ok r
    /\ shape r = zip_with Nat.mul (shape t) multiples
    /\ wf r
    /\ (forall idx, in_bounds (shape r) idx = true ->
          get r idx = get t (zip_with Nat.modulo idx (shape t))).
Proof.
  intros Hlen Hwf. unfold tf_tile. rewrite Hlen, Nat.eqb_refl. cbn [negb].
  match goal with |- context [build ?sh ?f] =>
    destruct (build_spec sh f) as (r & Hr & Hshr & Hwfr & Hget) end.
  - intros idx Hidx. apply get_is_Some; [exact Hwf|].
    apply in_bounds_Forall2. apply in_bounds_Forall2 in Hidx.
    clear -Hidx Hlen. revert idx multiples Hidx Hlen.
    induction (shape t) as [|d sh IH]; intros idx multiples Hidx Hlen.
    + destruct idx; cbn; [constructor|]. destruct multiples; inversion Hidx.
    + destruct multiples as [|m multiples]; [discriminate|].
      cbn in Hidx. inversion Hidx as [|i ? idx' ? Hi Hrest]; subst.
      cbn. constructor.
      * apply Nat.mod_upper_bound. intros ->. lia.
      * apply (IH idx' multiples Hrest). cbn in Hlen. lia.
  - exists r. split; [exact Hr|]. split; [exact Hshr|]. split; [exact Hwfr|].
    intros idx Hidx. apply Hget. rewrite <- Hshr. exact Hidx.
Qed.

Lemma expand_dims_vector {A : Type} (t : ndarray A) b :
  shape t = [b] -> wf t ->
  exists r,
    tf_expand_dims t 1 = Py.Ok r /\ shape r = [b; 1] /\ wf r
    /\ (forall i, i < b -> get r [i; 0] = get t [i]).
Proof.
  intros Hsh Hwf. unfold tf_expand_dims. rewrite Hsh. cbn.
  eexists. split; [reflexivity|]. split; [reflexivity|]. split.
  - unfold wf in *. rewrite Hsh in Hwf. cbn in *. lia.
  - intros i Hi. apply get_same_position; [reflexivity| | |].
    + rewrite Hsh. inb.
    + cbn [shape]. inb.
    + rewrite Hsh. cbn. lia.
Qed.

Lemma all_but_last_matrix {A : Type} (t : ndarray A) n b :
  shape t = [n; b] -> wf t ->
  exists r,
    all_but_last t = Py.Ok r /\ shape r = [n - 1; b] /\ wf r
    /\ (forall i j, i < n - 1 -> j < b -> get r [i; j] = get t [i; j]).
Proof.
  intros Hsh Hwf. unfold all_but_last. rewrite Hsh.
  eexists. split; [reflexivity|]. split; [reflexivity|]. split.
  - unfold wf in *. rewrite Hsh in Hwf. cbn [shape data].
    rewrite length_take, Hwf. cbn.
    pose proof (Nat.mul_le_mono_r (n - 1) n (b * 1) ltac:(lia)). lia.
  - intros i j Hi Hj.
    rewrite !get_flat by (rewrite ?Hsh; cbn [shape]; inb).
    rewrite Hsh. cbn [shape data flat_index].
    apply lookup_take_lt. cbn.
    pose proof (Nat.mul_le_mono_r (S i) (n - 1) (b * 1) ltac:(lia)). lia.
Qed.

Lemma tile_4 {A : Type} (t : ndarray A) a b c d m0 m1 m2 m3 :
  shape t = [a; b; c; d] -> wf t ->
  exists r,
    tf_tile t [m0; m1; m2; m3] = Py.Ok r
    /\ shape r = [a * m0; b * m1; c * m2; d * m3]
    /\ wf r
    /\ (forall i j k l, i < a * m0 -> j < b * m1 -> k < c * m2 -> l < d * m3 ->
          get r [i; j; k; l] = get t [i mod a; j mod b; k mod c; l mod d]).
Proof.
  intros Hsh Hwf.
  destruct (tile_spec t [m0; m1; m2; m3]) as (r & Hr & Hshr & Hwfr & Hget);
    [rewrite Hsh; reflexivity|exact Hwf|].
  rewrite Hsh in Hshr. cbn [zip_with] in Hshr.
  exists r. split; [exact Hr|]. split; [exact Hshr|]. split; [exact Hwfr|].
  intros i j k l Hi Hj Hk Hl. rewrite Hget by (rewrite Hshr; inb).
  rewrite Hsh. reflexivity.
Qed.

End NdArray.

(* ===================================================================== *)
(** * transformer.py: the logits and the training inputs *)
(* ===================================================================== *)

Module Logits.
Import NdArray.

Section Logits.
Context {O : TensorOps}.
(** [self.decoding_w], [self.decoding_b] and [len(self.vocabulary)]. *)
Variables (decoding_w decoding_b : ndarray scalar) (vocabulary_len : nat).

(** Lines 272-294, from [last_layer.temporal_states] on. *)
Definition train_logits (temporal_states : ndarray scalar)
  : Py.result (ndarray scalar) :=
  let last_layer_shape := shape temporal_states in
  channels ← py_index last_layer_shape (-1);
  last_layer_states ← tf_reshape temporal_states [-1; Z.of_nat channels]%Z;
  product ← tf_matmul last_layer_states decoding_w;
  batch ← py_index last_layer_shape 0;
  time ← py_index last_layer_shape 1;
  logits ← tf_reshape product
             [Z.of_nat batch; Z.of_nat time; Z.of_nat vocabulary_len];
  bias ← tf_reshape decoding_b [1; 1; -1]%Z;
  logits ← tf_add logits bias;
  tf_transpose logits [1; 0; 2].

(** Lines 365-369 of [body]. *)
Definition runtime_logits (temporal_states : ndarray scalar)
  : Py.result (ndarray scalar) :=
  output_state ← last_of_axis_1 temporal_states;
  logits ← tf_matmul output_state decoding_w;
  tf_add logits decoding_b.

(** The logit of word [v] for a state: the product of the state with column
    [v] of the decoding matrix, plus the bias of [v]. *)
Definition logit (state : nat -> option scalar) (channels v : nat) : option scalar :=
  d ← dot channels state (fun c => get decoding_w [c; v]);
  beta ← get decoding_b [v];
  Some (s_add d beta).

End Logits.

Section Inputs.
Context {O : TensorOps}.
(** [self.go_symbols], of shape (batch), and [self.train_inputs], of shape
    (time, batch). *)
Variables (go_symbols train_inputs : ndarray Z).
(** [self.embed_inputs] (lines 135-150) and [dropout] with the decoder's keep
    probability and mode. *)
Variable embed_inputs : ndarray Z -> Py.result (ndarray scalar).
Variable dropout : ndarray scalar -> Py.result (ndarray scalar).

(** Lines 158-160. *)
Definition input_tokens : Py.result (ndarray Z) :=
  go ← tf_expand_dims go_symbols 1;
  targets ← all_but_last train_inputs;
  targets ← tf_transpose_default targets;
  tf_concat [go; targets] 1.

(** Lines 152-166. *)
Definition embedded_train_inputs : Py.result (ndarray scalar) :=
  tokens ← input_tokens;
  input_embeddings ← embed_inputs tokens;
  dropout input_embeddings.

End Inputs.

(** ** Properties *)

Ltac py_step := cbn [mbind result_bind Py.bind].

Section Properties.
Context {O : TensorOps}.
Variables (decoding_w decoding_b : ndarray scalar).
Variables (B T C V : nat).
Variable states : ndarray scalar.
Hypothesis states_shape : shape states = [B; T; C].
Hypothesis states_wf : wf states.
Hypothesis w_shape : shape decoding_w = [C; V].
Hypothesis w_wf : wf decoding_w.
Hypothesis b_shape : shape decoding_b = [V].
Hypothesis b_wf : wf decoding_b.

Lemma train_logits_value :
  0 < C ->
  exists L,
    train_logits decoding_w decoding_b V states = Py.Ok L
    /\ shape L = [T; B; V] /\ wf L
    /\ (forall t b v, t < T -> b < B -> v < V ->
          get L [t; b; v]
          = logit decoding_w decoding_b (fun c => get states [b; t; c]) C v).
Proof.
  intros HC. unfold train_logits. rewrite states_shape.
  assert (H1 : py_index [B; T; C] (-1) = Py.Ok C) by reflexivity.
  assert (H2 : py_index [B; T; C] 0 = Py.Ok B) by reflexivity.
  assert (H3 : py_index [B; T; C] 1 = Py.Ok T) by reflexivity.
  rewrite H1. py_step.
  rewrite (reshape_rows states B T C states_shape HC). py_step.
  set (S2 := {| shape := [B * T; C]; data := data states |}).
  assert (HwfS2 : wf S2).
  { unfold wf in *. rewrite states_shape in states_wf. cbn in *. lia. }
  destruct (matmul_spec S2 decoding_w (B * T) C V eq_refl w_shape HwfS2 w_wf)
    as (M & HM & HshM & HwfM & HgetM).
  rewrite HM, H2. py_step. rewrite H3. py_step.
  change [Z.of_nat B; Z.of_nat T; Z.of_nat V] with (map Z.of_nat [B; T; V]).
  rewrite (reshape_exact M [B; T; V]) by (rewrite HshM; cbn; lia). py_step.
  rewrite (reshape_bias decoding_b V b_shape). py_step.
  set (L3 := {| shape := [B; T; V]; data := data M |}).
  set (bias3 := {| shape := [1; 1; V]; data := data decoding_b |}).
  assert (HwfL3 : wf L3).
  { unfold wf in *. rewrite HshM in HwfM. cbn in *. lia. }
  assert (Hwfb3 : wf bias3).
  { unfold wf in *. rewrite b_shape in b_wf. cbn in *. lia. }
  destruct (add_bias_3 L3 bias3 B T V eq_refl eq_refl HwfL3 Hwfb3)
    as (L3' & HL3' & HshL3' & HwfL3' & HgetL3').
  rewrite HL3'. py_step.
  destruct (transpose_102 L3' B T V HshL3' HwfL3')
    as (L & HL & HshL & HwfL & HgetL).
  exists L. split; [exact HL|]. split; [exact HshL|]. split; [exact HwfL|].
  intros t b v Ht Hb Hv.
  assert (Hrow : b * T + t < B * T).
  { pose proof (Nat.mul_le_mono_r (S b) B T ltac:(lia)). lia. }
  rewrite HgetL, HgetL3' by assumption. unfold logit.
  assert (HM_L3 : get L3 [b; t; v] = get M [b * T + t; v]).
  { apply get_same_position; [reflexivity| |inb|].
    - rewrite HshM. inb.
    - rewrite HshM. cbn. lia. }
  assert (Hb3 : get bias3 [0; 0; v] = get decoding_b [v]).
  { apply get_same_position; [reflexivity| |inb|].
    - rewrite b_shape. inb.
    - rewrite b_shape. cbn. lia. }
  rewrite HM_L3, Hb3, HgetM by assumption.
  rewrite (dot_ext C _ _ (fun c => get states [b; t; c])
                   (fun c => get decoding_w [c; v])); [reflexivity|].
  intros c Hc. split; [|reflexivity].
  apply get_same_position; [reflexivity| |inb|].
  - rewrite states_shape. inb.
  - rewrite states_shape. cbn. lia.
Qed.

Lemma runtime_logits_value :
  0 < T ->
  exists R,
    runtime_logits decoding_w decoding_b states = Py.Ok R
    /\ shape R = [B; V] /\ wf R
    /\ (forall b v, b < B -> v < V ->
          get R [b; v]
          = logit decoding_w decoding_b (fun c => get states [b; T - 1; c]) C v).
Proof.
  intros HT. unfold runtime_logits.
  destruct (last_of_axis_1_spec states B T C states_shape states_wf HT)
    as (out & Hout & Hshout & Hwfout & Hgetout).
  rewrite Hout. py_step.
  destruct (matmul_spec out decoding_w B C V Hshout w_shape Hwfout w_wf)
    as (M & HM & HshM & HwfM & HgetM).
  rewrite HM. py_step.
  destruct (add_bias_2 M decoding_b B V HshM b_shape HwfM b_wf)
    as (R & HR & HshR & HwfR & HgetR).
  exists R. split; [exact HR|]. split; [exact HshR|]. split; [exact HwfR|].
  intros b v Hb Hv. rewrite HgetR, HgetM by assumption. unfold logit.
  rewrite (dot_ext C _ _ (fun c => get states [b; T - 1; c])
                   (fun c => get decoding_w [c; v])); [reflexivity|].
  intros c Hc. split; [|reflexivity]. apply Hgetout; assumption.
Qed.

(** The training logits are laid out time-major: for states of shape
    (batch, time, channels) with at least one channel, a decoding matrix of
    shape (channels, vocabulary) and a bias of the vocabulary's length,
    [train_logits] is a tensor of shape (time, batch, vocabulary) whose
    element [[t, b, v]] is the logit of word [v] for the state of sentence
    [b] at time [t]. *)
Theorem train_logits_time_major :
  0 < C ->
  exists L,
    train_logits decoding_w decoding_b V states = Py.Ok L
    /\ shape L = [T; B; V] /\ wf L
    /\ (forall t b v, t < T -> b < B -> v < V ->
          get L [t; b; v]
          = logit decoding_w decoding_b (fun c => get states [b; t; c]) C v
          /\ is_Some (get L [t; b; v])).
Proof.
  intros HC. destruct (train_logits_value HC) as (L & HL & Hsh & Hwf & Hget).
  exists L. split; [exact HL|]. split; [exact Hsh|]. split; [exact Hwf|].
  intros t b v Ht Hb Hv. split; [apply Hget; assumption|].
  apply get_is_Some; [exact Hwf|]. rewrite Hsh. inb.
Qed.

(** The decoding step computes the logits the training graph computes: on
    the same states, with at least one time step and one channel, the
    logits of [body] for sentence [b] are the training logits of the last
    time step for [b]. *)
Theorem runtime_logits_are_last_train_logits :
  0 < T -> 0 < C ->
  exists L R,
    train_logits decoding_w decoding_b V states = Py.Ok L
    /\ runtime_logits decoding_w decoding_b states = Py.Ok R
    /\ shape R = [B; V]
    /\ (forall b v, b < B -> v < V -> get R [b; v] = get L [T - 1; b; v]).
Proof.
  intros HT HC.
  destruct (train_logits_value HC) as (L & HL & _ & _ & HgetL).
  destruct (runtime_logits_value HT) as (R & HR & HshR & _ & HgetR).
  exists L, R. split; [exact HL|]. split; [exact HR|]. split; [exact HshR|].
  intros b v Hb Hv. rewrite HgetR, HgetL by (assumption || lia). reflexivity.
Qed.

End Properties.

(** The decoder reads, in training, the targets moved one step to the right:
    for go symbols of shape (batch) and targets of shape (time, batch), the
    input tokens have shape (batch, 1 + (time - 1)); the input of a sentence
    at position 0 is its go symbol and at position [t + 1] its target of
    time [t]; the target of the last time step is no input. *)
Theorem input_tokens_shifted (go_symbols train_inputs : ndarray Z) (B T : nat) :
  shape go_symbols = [B] -> wf go_symbols ->
  shape train_inputs = [T; B] -> wf train_inputs ->
  exists tokens,
    input_tokens go_symbols train_inputs = Py.Ok tokens
    /\ shape tokens = [B; 1 + (T - 1)] /\ wf tokens
    /\ (forall b, b < B ->
          get tokens [b; 0] = get go_symbols [b]
          /\ (forall t, t < T - 1 ->
                get tokens [b; S t] = get train_inputs [t; b])).
Proof.
  intros Hgo Hwfgo Htr Hwftr. unfold input_tokens.
  destruct (expand_dims_vector go_symbols B Hgo Hwfgo)
    as (g & Hg & Hshg & Hwfg & Hgetg).
  rewrite Hg. py_step.
  destruct (all_but_last_matrix train_inputs T B Htr Hwftr)
    as (r1 & Hr1 & Hshr1 & Hwfr1 & Hgetr1).
  rewrite Hr1. py_step.
  destruct (transpose_10 r1 (T - 1) B Hshr1 Hwfr1)
    as (r2 & Hr2 & Hshr2 & Hwfr2 & Hgetr2).
  rewrite Hr2. py_step.
  destruct (concat_spec 1 g [r2]) as (r & Hr & Hshr & Hwfr & Hgetr).
  { rewrite Hshg. cbn. lia. }
  { repeat constructor; try assumption. rewrite Hshr2, Hshg. reflexivity. }
  assert (Hshape : shape r = [B; 1 + (T - 1)]).
  { rewrite Hshr, Hshg. cbn. rewrite Hshg, Hshr2. cbn. f_equal. f_equal. lia. }
  exists r. split; [exact Hr|]. split; [exact Hshape|]. split; [exact Hwfr|].
  intros b Hb. split.
  - rewrite Hgetr by (rewrite Hshape; inb).
    cbn [nth select]. rewrite Hshg. cbn [nth Nat.ltb Nat.leb].
    apply Hgetg, Hb.
  - intros t Ht. rewrite Hgetr by (rewrite Hshape; inb).
    cbn [nth select]. rewrite Hshg, Hshr2. cbn [nth].
    destruct (Nat.ltb_spec (S t) 1) as [|_]; [lia|].
    replace (S t - 1) with t by lia.
    destruct (Nat.ltb_spec t (T - 1)) as [_|]; [|lia].
    change (get r2 [b; t] = get train_inputs [t; b]).
    rewrite Hgetr2, Hgetr1 by assumption. reflexivity.
Qed.

(** ** Examples *)

Definition ex_states : ndarray Z :=
  {| shape := [2; 2; 2]; data := [1; 2; 3; 4; 5; 6; 7; 8]%Z |}.
Definition ex_w : ndarray Z :=
  {| shape := [2; 3]; data := [1; 0; 1; 0; 1; 1]%Z |}.
Definition ex_b : ndarray Z :=
  {| shape := [3]; data := [10; 20; 30]%Z |}.

Example ex_train_logits :
  @train_logits ZOps ex_w ex_b 3 ex_states
  = Py.Ok {| shape := [2; 2; 3];
             data := [11; 22; 33; 15; 26; 41; 13; 24; 37; 17; 28; 45]%Z |}.
Proof. vm_compute. reflexivity. Qed.

Example ex_runtime_logits :
  @runtime_logits ZOps ex_w ex_b ex_states
  = Py.Ok {| shape := [2; 3]; data := [13; 24; 37; 17; 28; 45]%Z |}.
Proof. vm_compute. reflexivity. Qed.

Lemma train_logits_time_major_witness :
  exists L,
    @train_logits ZOps ex_w ex_b 3 ex_states = Py.Ok L
    /\ shape L = [2; 2; 3] /\ wf L
    /\ (forall t b v, t < 2 -> b < 2 -> v < 3 ->
          get L [t; b; v]
          = @logit ZOps ex_w ex_b (fun c => get ex_states [b; t; c]) 2 v
          /\ is_Some (get L [t; b; v])).
Proof.
  apply (@train_logits_time_major ZOps ex_w ex_b 2 2 2 3 ex_states);
    first [reflexivity | lia].
Defined.

Lemma runtime_logits_are_last_train_logits_witness :
  exists L R,
    @train_logits ZOps ex_w ex_b 3 ex_states = Py.Ok L
    /\ @runtime_logits ZOps ex_w ex_b ex_states = Py.Ok R
    /\ shape R = [2; 3]
    /\ (forall b v, b < 2 -> v < 3 -> get R [b; v] = get L [2 - 1; b; v]).
Proof.
  apply (@runtime_logits_are_last_train_logits ZOps ex_w ex_b 2 2 2 3 ex_states);
    first [reflexivity | lia].
Defined.

Definition ex_go : ndarray Z := {| shape := [2]; data := [1; 1]%Z |}.
Definition ex_targets : ndarray Z :=
  {| shape := [3; 2]; data := [5; 6; 7; 8; 2; 2]%Z |}.

Example ex_input_tokens :
  input_tokens ex_go ex_targets
  = Py.Ok {| shape := [2; 3]; data := [1; 5; 7; 1; 6; 8]%Z |}.
Proof. vm_compute. reflexivity. Qed.

Lemma input_tokens_shifted_witness :
  exists tokens,
    input_tokens ex_go ex_targets = Py.Ok tokens
    /\ shape tokens = [2; 1 + (3 - 1)] /\ wf tokens
    /\ (forall b, b < 2 ->
          get tokens [b; 0] = get ex_go [b]
          /\ (forall t, t < 3 - 1 -> get tokens [b; S t] = get ex_targets [t; b])).
Proof.
  apply (input_tokens_shifted ex_go ex_targets 2 3); reflexivity.
Defined.

End Logits.

(* ===================================================================== *)
(** * spatial_embeddings.py *)
(* ===================================================================== *)

Module SpatialEmbeddings.
Import NdArray.

(** [x is None]. *)
Definition is_None {A : Type} (x : option A) : bool :=
  match x with
  | None => true
  | Some _ => false
  end.

Section Adder.
Context {O : TensorOps}.
(** The input map, a [SpatialStateful]. *)
Variable I : Type.

(** The attributes [__init__] sets (lines 35-39); the sizes are natural
    numbers or [None]. *)
Record SpatialEmbeddingsAdder : Type := {
  name : string;
  input_map : I;
  position_embedding_size : option nat;
  horizontal_embedding_size : option nat;
  vertical_embedding_size : option nat;
  additional_projection : option nat
}.

(** Lines 25-27: [check_argument_types()] and [ModelPart.__init__]. *)
Variable ModelPart_init : string -> Py.result unit.

(** Lines 14-39.  The name [ValueEror] of line 32 is bound nowhere. *)
Definition __init__ (name : string) (input_map : I)
    (position_embedding_size horizontal_embedding_size
     vertical_embedding_size additional_projection : option nat)
  : Py.result SpatialEmbeddingsAdder :=
  _ ← ModelPart_init name;
  if is_None position_embedding_size
     && is_None horizontal_embedding_size
     && is_None vertical_embedding_size
  then Py.Raise (Py.NameError "ValueEror")
  else Py.Ok {|
    name := name;
    input_map := input_map;
    position_embedding_size := position_embedding_size;
    horizontal_embedding_size := horizontal_embedding_size;
    vertical_embedding_size := vertical_embedding_size;
    additional_projection := additional_projection
  |}.

(** [input_map.spatial_states.get_shape().as_list()]: the static shape, a
    dimension being [None] where it is not known before the graph runs. *)
Variable static_shape : I -> list (option nat).
(** The value of [input_map.spatial_states]. *)
Variable input_states : I -> ndarray scalar.
(** [get_variable(name, shape)] of [neuralmonkey/tf_utils.py]: the value of
    the variable. *)
Variable get_variable : string -> list (option nat) -> Py.result (ndarray scalar).
(** [tf.layers.conv2d(x, filters, kernel_size)]. *)
Variable conv2d : ndarray scalar -> nat -> nat -> Py.result (ndarray scalar).

(** [shape[i]] for a list of three dimensions. *)
Definition item (shape : list (option nat)) (i : nat) : option nat :=
  default None (shape !! i).

(** [tf.tile] with multiples taken from a static shape: a multiple that is
    [None] is no tensor. *)
Definition tile_static (t : ndarray scalar) (multiples : list (option nat))
  : Py.result (ndarray scalar) :=
  match mapM id multiples with
  | Some ms => tf_tile t ms
  | None => Py.Raise (Py.TypeError "Failed to convert object of type list to Tensor")
  end.

(** Lines 53-58. *)
Definition vertical_block (self : SpatialEmbeddingsAdder)
    (shape : list (option nat)) (embeddings : list (ndarray scalar))
  : Py.result (list (ndarray scalar)) :=
  match vertical_embedding_size self with
  | Some size =>
      vertical_embedding ←
        get_variable "vertical_embeddings"
                     [Some 1; item shape 1; Some 1; Some size];
      tiled_to_width ←
        tile_static vertical_embedding [Some 1; Some 1; item shape 2; Some 1];
      Py.Ok (embeddings ++ [tiled_to_width])
  | None => Py.Ok embeddings
  end.

(** Lines 60-65. *)
Definition horizontal_block (self : SpatialEmbeddingsAdder)
    (shape : list (option nat)) (embeddings : list (ndarray scalar))
  : Py.result (list (ndarray scalar)) :=
  match horizontal_embedding_size self with
  | Some size =>
      horizontal_embedding ←
        get_variable "horizontal_embedding"
                     [Some 1; Some 1; item shape 2; Some size];
      tiled_to_height ←
        tile_static horizontal_embedding [Some 1; item shape 1; Some 1; Some 1];
      Py.Ok (embeddings ++ [tiled_to_height])
  | None => Py.Ok embeddings
  end.

(** Lines 67-69. *)
Definition position_block (self : SpatialEmbeddingsAdder)
    (shape : list (option nat)) (embeddings : list (ndarray scalar))
  : Py.result (list (ndarray scalar)) :=
  match position_embedding_size self with
  | Some size =>
      position_embedding ← get_variable "spatial_embeddings" (shape ++ [Some size]);
      Py.Ok (embeddings ++ [position_embedding])
  | None => Py.Ok embeddings
  end.

(** Lines 45-71. *)
Definition spatial_embeddings (self : SpatialEmbeddingsAdder)
  : Py.result (ndarray scalar) :=
  let shape := take 3 (static_shape (input_map self)) in
  if negb (length shape =? 3)%nat then Py.Raise Py.AssertionError
  else
    let shape := <[0 := Some 1]> shape in
    let embeddings := [] in
    embeddings ← vertical_block self shape embeddings;
    embeddings ← horizontal_block self shape embeddings;
    embeddings ← position_block self shape embeddings;
    tf_concat embeddings 3.

(** Lines 73-85. *)
Definition spatial_states (self : SpatialEmbeddingsAdder)
  : Py.result (ndarray scalar) :=
  batch_size ← py_index (shape (input_states (input_map self))) 0;
  embeddings ← spatial_embeddings self;
  tiled_embeddings ← tf_tile embeddings [batch_size; 1; 1; 1];
  concat ← tf_concat [tiled_embeddings; input_states (input_map self)] 3;
  match additional_projection self with
  | Some filters => conv2d concat filters 1
  | None => Py.Ok concat
  end.

(** The number of channels an embedding adds. *)
Definition width (size : option nat) : nat := default 0 size.

(** [get_variable] gives, for a shape that is known, a tensor of that
    shape. *)
Definition variables_have_their_shape : Prop :=
  forall name sh,
    exists t, get_variable name (map Some sh) = Py.Ok t /\ shape t = sh /\ wf t.

End Adder.

Arguments name {I} _.
Arguments input_map {I} _.
Arguments position_embedding_size {I} _.
Arguments horizontal_embedding_size {I} _.
Arguments vertical_embedding_size {I} _.
Arguments additional_projection {I} _.

(** ** Properties *)

Ltac py_step := cbn [mbind result_bind Py.bind].

Section Properties.
Context {O : TensorOps}.
Variable I : Type.
Variable ModelPart_init : string -> Py.result unit.
Variable static_shape : I -> list (option nat).
Variable input_states : I -> ndarray scalar.
Variable get_variable : string -> list (option nat) -> Py.result (ndarray scalar).
Variable conv2d : ndarray scalar -> nat -> nat -> Py.result (ndarray scalar).

Local Abbreviation Adder := (SpatialEmbeddingsAdder I).

(** The constructor never raises the [ValueError] it means to raise: without
    any embedding size it ends with [NameError] for the name [ValueEror];
    with at least one size it returns the object with its arguments
    stored. *)
Theorem init_without_sizes_raises_NameError
    (name : string) (input_map : I) (position horizontal vertical projection : option nat)
    (u : unit) :
  ModelPart_init name = Py.Ok u ->
  (position = None /\ horizontal = None /\ vertical = None ->
   __init__ I ModelPart_init name input_map position horizontal vertical projection
   = Py.Raise (Py.NameError "ValueEror"))
  /\ (~ (position = None /\ horizontal = None /\ vertical = None) ->
      __init__ I ModelPart_init name input_map position horizontal vertical projection
      = Py.Ok {| name := name; input_map := input_map;
                 position_embedding_size := position;
                 horizontal_embedding_size := horizontal;
                 vertical_embedding_size := vertical;
                 additional_projection := projection |})
  /\ (forall msg,
        __init__ I ModelPart_init name input_map position horizontal vertical projection
        <> Py.Raise (Py.ValueError msg)).
Proof.
  intros Hbase. unfold __init__. rewrite Hbase. py_step.
  split; [|split].
  - intros (-> & -> & ->). reflexivity.
  - intros Hsome. destruct position, horizontal, vertical; try reflexivity.
    exfalso. apply Hsome. repeat split.
  - intros msg.
    destruct (is_None position && is_None horizontal && is_None vertical);
      discriminate.
Qed.

Hypothesis variables_ok : variables_have_their_shape get_variable.

Variables (self : Adder) (H W : nat).

Section Blocks.
Variable sh : list (option nat).
Hypothesis height : item sh 1 = Some H.
Hypothesis width_ : item sh 2 = Some W.

Lemma vertical_block_spec :
  exists part,
    (forall embeddings,
        vertical_block I get_variable self sh embeddings = Py.Ok (embeddings ++ part))
    /\ Forall (fun t => <[3 := 0]> (shape t) = [1; H; W; 0] /\ wf t) part
    /\ total_along 3 part = width (vertical_embedding_size self)
    /\ (forall v, vertical_embedding_size self = Some v ->
          exists ve t,
            get_variable "vertical_embeddings" [Some 1; Some H; Some 1; Some v]
            = Py.Ok ve
            /\ part = [t] /\ shape t = [1; H; W; v]
            /\ (forall y x c, y < H -> x < W -> c < v ->
                  get t [0; y; x; c] = get ve [0; y; 0; c])).
Proof.
  unfold vertical_block. destruct (vertical_embedding_size self) as [v|].
  - rewrite height, width_.
    destruct (variables_ok "vertical_embeddings" [1; H; 1; v])
      as (ve & Hve & Hshve & Hwfve).
    cbn [map] in Hve.
    destruct (tile_4 ve 1 H 1 v 1 1 W 1 Hshve Hwfve)
      as (t & Ht & Hsht & Hwft & Hgett).
    assert (Hsh : shape t = [1; H; W; v]).
    { rewrite Hsht. repeat f_equal; lia. }
    exists [t]. split; [|split; [|split]].
    + intros embeddings. rewrite Hve. py_step. unfold tile_static.
      change (mapM id [Some 1; Some 1; Some W; Some 1]) with (Some [1; 1; W; 1]).
      cbv beta iota. rewrite Ht. reflexivity.
    + repeat constructor; [rewrite Hsh; reflexivity|exact Hwft].
    + cbn. rewrite Hsh. cbn. lia.
    + intros v' Hv'. injection Hv' as <-. exists ve, t.
      split; [exact Hve|]. split; [reflexivity|]. split; [exact Hsh|].
      intros y x c Hy Hx Hc. rewrite Hgett by lia.
      rewrite !Nat.mod_1_r, !Nat.mod_small by lia. reflexivity.
  - exists []. split; [|split; [|split]].
    + intros embeddings. rewrite app_nil_r. reflexivity.
    + constructor.
    + reflexivity.
    + discriminate.
Qed.

Lemma horizontal_block_spec :
  exists part,
    (forall embeddings,
        horizontal_block I get_variable self sh embeddings = Py.Ok (embeddings ++ part))
    /\ Forall (fun t => <[3 := 0]> (shape t) = [1; H; W; 0] /\ wf t) part
    /\ total_along 3 part = width (horizontal_embedding_size self)
    /\ (forall h, horizontal_embedding_size self = Some h ->
          exists he t,
            get_variable "horizontal_embedding" [Some 1; Some 1; Some W; Some h]
            = Py.Ok he
            /\ part = [t] /\ shape t = [1; H; W; h]
            /\ (forall y x c, y < H -> x < W -> c < h ->
                  get t [0; y; x; c] = get he [0; 0; x; c])).
Proof.
  unfold horizontal_block. destruct (horizontal_embedding_size self) as [h|].
  - rewrite height, width_.
    destruct (variables_ok "horizontal_embedding" [1; 1; W; h])
      as (he & Hhe & Hshhe & Hwfhe).
    cbn [map] in Hhe.
    destruct (tile_4 he 1 1 W h 1 H 1 1 Hshhe Hwfhe)
      as (t & Ht & Hsht & Hwft & Hgett).
    assert (Hsh : shape t = [1; H; W; h]).
    { rewrite Hsht. repeat f_equal; lia. }
    exists [t]. split; [|split; [|split]].
    + intros embeddings. rewrite Hhe. py_step. unfold tile_static.
      change (mapM id [Some 1; Some H; Some 1; Some 1]) with (Some [1; H; 1; 1]).
      cbv beta iota. rewrite Ht. reflexivity.
    + repeat constructor; [rewrite Hsh; reflexivity|exact Hwft].
    + cbn. rewrite Hsh. cbn. lia.
    + intros h' Hh'. injection Hh' as <-. exists he, t.
      split; [exact Hhe|]. split; [reflexivity|]. split; [exact Hsh|].
      intros y x c Hy Hx Hc. rewrite Hgett by lia.
      rewrite !Nat.mod_1_r, !Nat.mod_small by lia. reflexivity.
  - exists []. split; [|split; [|split]].
    + intros embeddings. rewrite app_nil_r. reflexivity.
    + constructor.
    + reflexivity.
    + discriminate.
Qed.

Lemma position_block_spec :
  sh = [Some 1; Some H; Some W] ->
  exists part,
    (forall embeddings,
        position_block I get_variable self sh embeddings = Py.Ok (embeddings ++ part))
    /\ Forall (fun t => <[3 := 0]> (shape t) = [1; H; W; 0] /\ wf t) part
    /\ total_along 3 part = width (position_embedding_size self)
    /\ (forall p, position_embedding_size self = Some p ->
          exists pe,
            get_variable "spatial_embeddings" [Some 1; Some H; Some W; Some p]
            = Py.Ok pe
            /\ part = [pe] /\ shape pe = [1; H; W; p]).
Proof.
  intros Hsh. unfold position_block.
  destruct (position_embedding_size self) as [p|].
  - rewrite Hsh.
    destruct (variables_ok "spatial_embeddings" [1; H; W; p])
      as (pe & Hpe & Hshpe & Hwfpe).
    cbn [map] in Hpe.
    exists [pe]. split; [|split; [|split]].
    + intros embeddings. cbn [app]. rewrite Hpe. reflexivity.
    + repeat constructor; [rewrite Hshpe; reflexivity|exact Hwfpe].
    + cbn. rewrite Hshpe. cbn. lia.
    + intros p' Hp'. injection Hp' as <-. exists pe.
      split; [exact Hpe|]. split; reflexivity || exact Hshpe.
  - exists []. split; [|split; [|split]].
    + intros embeddings. rewrite app_nil_r. reflexivity.
    + constructor.
    + reflexivity.
    + discriminate.
Qed.

End Blocks.

Lemma width_Some n : width (Some n) = n.
Proof. reflexivity. Qed.

Lemma spatial_embeddings_value (s0 : option nat) :
  take 3 (static_shape (input_map self)) = [s0; Some H; Some W] ->
  is_None (position_embedding_size self)
  && is_None (horizontal_embedding_size self)
  && is_None (vertical_embedding_size self) = false ->
  exists e,
    spatial_embeddings I static_shape get_variable self = Py.Ok e
    /\ shape e = [1; H; W;
                  width (vertical_embedding_size self)
                  + width (horizontal_embedding_size self)
                  + width (position_embedding_size self)]
    /\ wf e
    /\ (forall v, vertical_embedding_size self = Some v ->
          exists ve,
            get_variable "vertical_embeddings" [Some 1; Some H; Some 1; Some v]
            = Py.Ok ve
            /\ forall y x c, y < H -> x < W -> c < v ->
                 get e [0; y; x; c] = get ve [0; y; 0; c])
    /\ (forall h, horizontal_embedding_size self = Some h ->
          exists he,
            get_variable "horizontal_embedding" [Some 1; Some 1; Some W; Some h]
            = Py.Ok he
            /\ forall y x c, y < H -> x < W -> c < h ->
                 get e [0; y; x; width (vertical_embedding_size self) + c]
                 = get he [0; 0; x; c])
    /\ (forall p, position_embedding_size self = Some p ->
          exists pe,
            get_variable "spatial_embeddings" [Some 1; Some H; Some W; Some p]
            = Py.Ok pe
            /\ forall y x c, y < H -> x < W -> c < p ->
                 get e [0; y; x; width (vertical_embedding_size self)
                                 + width (horizontal_embedding_size self) + c]
                 = get pe [0; y; x; c]).
Proof.
  intros Hst Hsome. unfold spatial_embeddings. rewrite Hst.
  cbn [length Nat.eqb negb].
  change (<[0 := Some 1]> [s0; Some H; Some W]) with [Some 1; Some H; Some W].
  set (sh := [Some 1; Some H; Some W]).
  destruct (vertical_block_spec sh eq_refl eq_refl)
    as (V & HV & HVall & HVtot & HVent).
  destruct (horizontal_block_spec sh eq_refl eq_refl)
    as (Hz & HHz & HHall & HHtot & HHent).
  destruct (position_block_spec sh eq_refl)
    as (P & HP & HPall & HPtot & HPent).
  cbv zeta. rewrite HV. py_step. rewrite HHz. py_step. rewrite HP. py_step.
  rewrite app_nil_l.
  assert (Hne : (V ++ Hz) ++ P <> []).
  { intros Hnil. apply app_eq_nil in Hnil as [Hnil ->].
    apply app_eq_nil in Hnil as [-> ->].
    destruct (vertical_embedding_size self) as [v|].
    { destruct (HVent v eq_refl) as (? & ? & _ & ? & _). discriminate. }
    destruct (horizontal_embedding_size self) as [h|].
    { destruct (HHent h eq_refl) as (? & ? & _ & ? & _). discriminate. }
    destruct (position_embedding_size self) as [p|].
    { destruct (HPent p eq_refl) as (? & _ & ? & _). discriminate. }
    discriminate. }
  assert (Hall : Forall (fun t => <[3 := 0]> (shape t) = [1; H; W; 0] /\ wf t)
                        ((V ++ Hz) ++ P)).
  { repeat (apply Forall_app; split); assumption. }
  assert (Htotal : total_along 3 ((V ++ Hz) ++ P)
                   = width (vertical_embedding_size self)
                     + width (horizontal_embedding_size self)
                     + width (position_embedding_size self)).
  { rewrite !total_along_app, HVtot, HHtot, HPtot. reflexivity. }
  destruct ((V ++ Hz) ++ P) as [|t0 rest] eqn:Ets; [contradiction|].
  pose proof Hall as Hall0. apply Forall_cons in Hall0 as [[Hsh0 _] _].
  assert (Hrank : length (shape t0) = 4).
  { rewrite <- (length_insert (shape t0) 3 0), Hsh0. reflexivity. }
  destruct (concat_spec 3 t0 rest) as (e & He & Hshe & Hwfe & Hgete).
  { lia. }
  { eapply Forall_impl; [exact Hall|].
    intros t [Ht Hwft]. split; [congruence|exact Hwft]. }
  assert (Hshape : shape e
                   = [1; H; W;
                      width (vertical_embedding_size self)
                      + width (horizontal_embedding_size self)
                      + width (position_embedding_size self)]).
  { rewrite Hshe, Htotal.
    rewrite <- (list_insert_insert_eq (shape t0) 3 _ 0), Hsh0. reflexivity. }
  exists e. split; [exact He|]. split; [exact Hshape|]. split; [exact Hwfe|].
  rewrite <- Ets in Hgete. clear Ets Hall Htotal Hshe He Hne.
  split; [|split].
  - intros v Hv. destruct (HVent v Hv) as (ve & t & Hve & -> & Hsht & Hent).
    exists ve. split; [exact Hve|]. intros y x c Hy Hx Hc.
    rewrite Hgete by (rewrite Hshape, Hv; rewrite width_Some; inb).
    cbn [nth].
    pose proof (select_app 3 [] t (Hz ++ P) c) as Hsel.
    rewrite Hsht in Hsel. specialize (Hsel Hc).
    cbn [app total_along foldr Nat.add] in Hsel.
    change (([t] ++ Hz) ++ P) with (t :: (Hz ++ P)).
    rewrite Hsel. apply Hent; assumption.
  - intros h Hh. destruct (HHent h Hh) as (he & t & Hhe & -> & Hsht & Hent).
    exists he. split; [exact Hhe|]. intros y x c Hy Hx Hc.
    rewrite Hgete by (rewrite Hshape, Hh; rewrite width_Some; inb).
    cbn [nth].
    pose proof (select_app 3 V t P c) as Hsel.
    rewrite Hsht, HVtot in Hsel. specialize (Hsel Hc).
    rewrite <- app_assoc. change ([t] ++ P) with (t :: P).
    rewrite Hsel. apply Hent; assumption.
  - intros p Hp. destruct (HPent p Hp) as (pe & Hpe & -> & Hshpe).
    exists pe. split; [exact Hpe|]. intros y x c Hy Hx Hc.
    rewrite Hgete by (rewrite Hshape, Hp; rewrite width_Some; inb).
    cbn [nth].
    pose proof (select_app 3 (V ++ Hz) pe [] c) as Hsel.
    rewrite Hshpe, total_along_app, HVtot, HHtot in Hsel. specialize (Hsel Hc).
    rewrite Hsel. reflexivity.
Qed.

(** The position embeddings are laid out by the kind of position: for an
    adder with at least one embedding size, over an input of known height
    and width, [spatial_embeddings] has shape
    (1, height, width, vertical + horizontal + position sizes); its first
    channels at [(y, x)] are the vertical embedding of row [y], whatever
    [x]; the next are the horizontal embedding of column [x], whatever [y];
    the last are the embedding of the position [(y, x)]. *)
Theorem spatial_embeddings_layout (s0 : option nat) :
  take 3 (static_shape (input_map self)) = [s0; Some H; Some W] ->
  is_None (position_embedding_size self)
  && is_None (horizontal_embedding_size self)
  && is_None (vertical_embedding_size self) = false ->
  exists e,
    spatial_embeddings I static_shape get_variable self = Py.Ok e
    /\ shape e = [1; H; W;
                  width (vertical_embedding_size self)
                  + width (horizontal_embedding_size self)
                  + width (position_embedding_size self)]
    /\ wf e
    /\ (forall v, vertical_embedding_size self = Some v ->
          exists ve,
            get_variable "vertical_embeddings" [Some 1; Some H; Some 1; Some v]
            = Py.Ok ve
            /\ forall y x c, y < H -> x < W -> c < v ->
                 get e [0; y; x; c] = get ve [0; y; 0; c])
    /\ (forall h, horizontal_embedding_size self = Some h ->
          exists he,
            get_variable "horizontal_embedding" [Some 1; Some 1; Some W; Some h]
            = Py.Ok he
            /\ forall y x c, y < H -> x < W -> c < h ->
                 get e [0; y; x; width (vertical_embedding_size self) + c]
                 = get he [0; 0; x; c])
    /\ (forall p, position_embedding_size self = Some p ->
          exists pe,
            get_variable "spatial_embeddings" [Some 1; Some H; Some W; Some p]
            = Py.Ok pe
            /\ forall y x c, y < H -> x < W -> c < p ->
                 get e [0; y; x; width (vertical_embedding_size self)
                                 + width (horizontal_embedding_size self) + c]
                 = get pe [0; y; x; c]).
Proof. exact (spatial_embeddings_value s0). Qed.

(** Every element of the batch gets the same embeddings, put before the
    channels of the input: for an input of shape
    (batch, height, width, channels), the tensor [spatial_states] builds
    before the optional projection has shape
    (batch, height, width, embedding channels + channels); at [(b, y, x)] its
    first channels are those of [spatial_embeddings] at [(0, y, x)] and the
    rest are the input's; [spatial_states] is this tensor, or its
    convolution with kernel size 1 when a projection is asked for. *)
Theorem spatial_states_layout (s0 : option nat) (B C : nat) :
  take 3 (static_shape (input_map self)) = [s0; Some H; Some W] ->
  is_None (position_embedding_size self)
  && is_None (horizontal_embedding_size self)
  && is_None (vertical_embedding_size self) = false ->
  shape (input_states (input_map self)) = [B; H; W; C] ->
  wf (input_states (input_map self)) ->
  exists e concat,
    spatial_embeddings I static_shape get_variable self = Py.Ok e
    /\ spatial_states I static_shape input_states get_variable conv2d self
       = match additional_projection self with
         | Some filters => conv2d concat filters 1
         | None => Py.Ok concat
         end
    /\ shape concat = [B; H; W; nth 3 (shape e) 0 + C]
    /\ wf concat
    /\ (forall b y x c, b < B -> y < H -> x < W ->
          (c < nth 3 (shape e) 0 ->
           get concat [b; y; x; c] = get e [0; y; x; c])
          /\ (c < C ->
              get concat [b; y; x; nth 3 (shape e) 0 + c]
              = get (input_states (input_map self)) [b; y; x; c])).
Proof.
  intros Hst Hsome Hin Hwfin.
  destruct (spatial_embeddings_value s0 Hst Hsome) as (e & He & Hshe & Hwfe & _).
  set (E := width (vertical_embedding_size self)
            + width (horizontal_embedding_size self)
            + width (position_embedding_size self)) in *.
  unfold spatial_states. rewrite Hin.
  assert (H0 : py_index [B; H; W; C] 0 = Py.Ok B) by reflexivity.
  rewrite H0. py_step. rewrite He. py_step.
  destruct (tile_4 e 1 H W E B 1 1 1 Hshe Hwfe)
    as (tiled & Htiled & Hsht & Hwft & Hgett).
  assert (Hsht' : shape tiled = [B; H; W; E]).
  { rewrite Hsht. repeat f_equal; lia. }
  rewrite Htiled. py_step.
  destruct (concat_spec 3 tiled [input_states (input_map self)])
    as (concat & Hconcat & Hshc & Hwfc & Hgetc).
  { rewrite Hsht'. cbn. lia. }
  { repeat constructor; try assumption. rewrite Hin, Hsht'. reflexivity. }
  assert (Hshape : shape concat = [B; H; W; E + C]).
  { rewrite Hshc, Hsht'. cbn. rewrite Hsht', Hin. cbn. repeat f_equal. lia. }
  exists e, concat. split; [reflexivity|]. rewrite Hconcat. py_step.
  split; [reflexivity|]. rewrite Hshe. cbn [nth].
  split; [exact Hshape|]. split; [exact Hwfc|].
  intros b y x c Hb Hy Hx. split.
  - intros Hc. rewrite Hgetc by (rewrite Hshape; inb). cbn [nth].
    pose proof (select_app 3 [] tiled [input_states (input_map self)] c) as Hsel.
    rewrite Hsht' in Hsel. specialize (Hsel Hc).
    cbn [app total_along foldr Nat.add] in Hsel. rewrite Hsel.
    change (<[3 := c]> [b; y; x; c]) with [b; y; x; c].
    rewrite Hgett by lia.
    rewrite Nat.mod_1_r, !Nat.mod_small by lia. reflexivity.
  - intros Hc. rewrite Hgetc by (rewrite Hshape; inb). cbn [nth].
    pose proof (select_app 3 [tiled] (input_states (input_map self)) [] c) as Hsel.
    rewrite Hin in Hsel. specialize (Hsel Hc).
    cbn [app total_along foldr] in Hsel. rewrite Hsht' in Hsel.
    cbn [nth] in Hsel. rewrite Nat.add_0_r in Hsel. rewrite Hsel.
    reflexivity.
Qed.

End Properties.

(** ** Examples *)

(** Variables filled with numbers that tell them apart: the length of the
    name times 100, plus the position of the element. *)
Definition ex_get_variable (name : string) (sh : list (option nat))
  : Py.result (ndarray Z) :=
  match mapM id sh with
  | Some dims =>
      Py.Ok {| shape := dims;
               data := map (fun k => Z.of_nat (String.length name * 100 + k))
                           (seq 0 (numel dims)) |}
  | None => Py.Raise (Py.ValueError "Shape of a new variable must be fully defined")
  end.

Lemma ex_variables_ok : @variables_have_their_shape ZOps ex_get_variable.
Proof.
  intros name sh. unfold ex_get_variable.
  assert (Hm : mapM id (map Some sh) = Some sh).
  { induction sh as [|d sh IH]; [reflexivity|]. cbn. rewrite IH. reflexivity. }
  rewrite Hm. eexists. split; [reflexivity|]. split; [reflexivity|].
  unfold wf. cbn. rewrite length_map, length_seq. reflexivity.
Qed.

Definition ex_input : ndarray Z :=
  {| shape := [2; 2; 2; 1]; data := [1; 2; 3; 4; 5; 6; 7; 8]%Z |}.

Definition ex_self : SpatialEmbeddingsAdder unit := {|
  name := "adder";
  input_map := tt;
  position_embedding_size := Some 1;
  horizontal_embedding_size := Some 1;
  vertical_embedding_size := Some 2;
  additional_projection := None
|}.

Definition ex_static_shape (_ : unit) : list (option nat) :=
  [None; Some 2; Some 2; Some 1].

Example ex_spatial_embeddings :
  @spatial_embeddings ZOps unit ex_static_shape ex_get_variable ex_self
  = Py.Ok {| shape := [1; 2; 2; 4];
             data := [1900; 1901; 2000; 1800;
                      1900; 1901; 2001; 1801;
                      1902; 1903; 2000; 1802;
                      1902; 1903; 2001; 1803]%Z |}.
Proof. vm_compute. reflexivity. Qed.

Example ex_spatial_states :
  @spatial_states ZOps unit ex_static_shape (fun _ => ex_input) ex_get_variable
                  (fun t _ _ => Py.Ok t) ex_self
  = Py.Ok {| shape := [2; 2; 2; 5];
             data := [1900; 1901; 2000; 1800; 1;
                      1900; 1901; 2001; 1801; 2;
                      1902; 1903; 2000; 1802; 3;
                      1902; 1903; 2001; 1803; 4;
                      1900; 1901; 2000; 1800; 5;
                      1900; 1901; 2001; 1801; 6;
                      1902; 1903; 2000; 1802; 7;
                      1902; 1903; 2001; 1803; 8]%Z |}.
Proof. vm_compute. reflexivity. Qed.

Lemma init_without_sizes_raises_NameError_witness :
  __init__ unit (fun _ => Py.Ok tt) "adder" tt None None None (Some 3)
  = Py.Raise (Py.NameError "ValueEror").
Proof.
  apply (init_without_sizes_raises_NameError unit (fun _ => Py.Ok tt)
           "adder" tt None None None (Some 3) tt eq_refl).
  repeat split.
Defined.

Lemma spatial_embeddings_layout_witness :
  exists e,
    @spatial_embeddings ZOps unit ex_static_shape ex_get_variable ex_self = Py.Ok e
    /\ shape e = [1; 2; 2; 4].
Proof.
  destruct (@spatial_embeddings_layout ZOps unit ex_static_shape ex_get_variable
              ex_variables_ok ex_self 2 2 None eq_refl eq_refl)
    as (e & He & Hsh & _).
  exists e. split; [exact He|exact Hsh].
Defined.

Lemma spatial_states_layout_witness :
  exists e concat,
    @spatial_embeddings ZOps unit ex_static_shape ex_get_variable ex_self = Py.Ok e
    /\ @spatial_states ZOps unit ex_static_shape (fun _ => ex_input) ex_get_variable
                       (fun t _ _ => Py.Ok t) ex_self
       = Py.Ok concat
    /\ shape concat = [2; 2; 2; nth 3 (shape e) 0 + 1].
Proof.
  destruct (@spatial_states_layout ZOps unit ex_static_shape (fun _ => ex_input)
              ex_get_variable (fun t _ _ => Py.Ok t) ex_variables_ok ex_self
              2 2 None 2 1 eq_refl eq_refl eq_refl eq_refl)
    as (e & concat & He & Hs & Hsh & _).
  exists e, concat. split; [exact He|]. split; [exact Hs|exact Hsh].
Defined.

End SpatialEmbeddings.
